(** * CEGUI: window core, frame window, title bar, inventory sample and
      OpenGL3 renderer -- a shallow embedding and its properties.

    Part I holds the embedding, one module per translation unit:

    - [Float32]      : the C++ [float] type (IEEE-754 binary32);
    - [WindowCore]   : include/CEGUI/Window.h;
    - [FrameWindowM] : src/widgets/FrameWindow.cpp;
    - [TitlebarM]    : src/widgets/Titlebar.cpp;
    - [Inventory]    : samples/Inventory/InventoryItem.cpp;
    - [GL3Renderer]  : src/RendererModules/OpenGL/GL3Renderer.cpp;
    - [WindowFlags], [FrameWindowState], [TitlebarState], [InventoryLayout]
      and [GL3RendererFrame] : further functions of the same files;
    - [BoundSlotM]   : src/BoundSlot.cpp;
    - [WidgetsSample] : samples/Widgets/Widgets.cpp.

    Part II holds the properties, one module per module of Part I.

    Functions that the repository defines in files other than these are
    section variables; where an example needs one, a stand-in is defined and
    named as such. *)

From Stdlib Require Import ZArith List String Ascii Bool Lia.
From Stdlib Require Import Floats.SpecFloat.
Import ListNotations.

Local Open Scope Z_scope.

(* ===================================================================== *)
(** * Part I: the embedding                                               *)
(* ===================================================================== *)

(** ** The C++ [float] type *)

(** A C++ [float] is an IEEE-754 binary32 number: 24 bits of precision,
    infinities at exponent 128.  The operations are the ones of the
    Standard Library's executable specification of IEEE arithmetic
    (round to nearest, ties to even). *)
Module Float32.

Definition float : Type := spec_float.

Definition prec : Z := 24.
Definition emax : Z := 128.

Definition add (x y : float) : float := SFadd prec emax x y.
Definition sub (x y : float) : float := SFsub prec emax x y.
Definition mul (x y : float) : float := SFmul prec emax x y.
Definition div (x y : float) : float := SFdiv prec emax x y.
Definition opp (x : float) : float := SFopp x.

(** [x < y], [x <= y], [x == y]; every comparison with a NaN is false. *)
Definition ltb (x y : float) : bool := SFltb x y.
Definition leb (x y : float) : bool := SFleb x y.
Definition eqb (x y : float) : bool := SFeqb x y.

(** [x > y], [x >= y] and [x != y], as C++ evaluates them. *)
Definition gtb (x y : float) : bool := SFltb y x.
Definition geb (x y : float) : bool := SFleb y x.
Definition neqb (x y : float) : bool := negb (SFeqb x y).

(** A literal with an integer value, such as [8.0f] or [200.0f]. *)
Definition of_Z (z : Z) : float := binary_normalize prec emax z 0 false.

(** The literal [0.5f]. *)
Definition half : float := binary_normalize prec emax 1 (-1) false.

(** Neither a NaN nor an infinity. *)
Definition is_finite (x : float) : bool :=
  match x with
  | S754_zero _ | S754_finite _ _ _ => true
  | _ => false
  end.

(** The conversion [(int)x] of a finite [float]: truncation toward zero. *)
Definition truncate (f : float) : Z :=
  match f with
  | S754_finite s m e =>
      let v := match e with
               | Z0 => Zpos m
               | Zpos _ => Z.shiftl (Zpos m) e
               | Zneg p => Z.shiftr (Zpos m) (Zpos p)
               end in
      if s then Z.opp v else v
  | _ => 0
  end.

End Float32.

(** ** include/CEGUI/Window.h *)

Module WindowCore.

Local Open Scope string_scope.

(** [enum class WindowUpdateMode]. *)
Inductive WindowUpdateMode : Type :=
| Always
| Never
| Visible.

(** [operator==] on the enumeration. *)
Definition WindowUpdateMode_eqb (a b : WindowUpdateMode) : bool :=
  match a, b with
  | Always, Always | Never, Never | Visible, Visible => true
  | _, _ => false
  end.

(** [PropertyHelper<WindowUpdateMode>::fromString]. *)
Definition fromString (str : string) : WindowUpdateMode :=
  if String.eqb str "Always" then Always
  else if String.eqb str "Never" then Never
  else Visible.

(** [PropertyHelper<WindowUpdateMode>::toString].  The last branch is the
    one guarded by [assert(false && "Invalid Window Update Mode")]. *)
Definition toString (val : WindowUpdateMode) : string :=
  if WindowUpdateMode_eqb val Always then "Always"
  else if WindowUpdateMode_eqb val Never then "Never"
  else if WindowUpdateMode_eqb val Visible then "Visible"
  else "Always".

(** A window together with the chain of its ancestors: [d_visible] is the
    window's own flag, [d_parent] the parent pointer of [Element], [None]
    for a root ([nullptr]). *)
#[warnings="-register-all"] Inductive Window : Type :=
| mkWindow (d_visible : bool) (d_parent : option Window).

Definition d_visible (w : Window) : bool :=
  match w with mkWindow v _ => v end.

Definition d_parent (w : Window) : option Window :=
  match w with mkWindow _ p => p end.

(** [Window::getParent]. *)
Definition getParent (w : Window) : option Window := d_parent w.

(** [Window::isVisible]. *)
Definition isVisible (w : Window) : bool := d_visible w.

(** [Window::isEffectiveVisible]:
    [d_visible && (!d_parent || getParent()->isEffectiveVisible())]. *)
Fixpoint isEffectiveVisible (w : Window) : bool :=
  match w with
  | mkWindow v p =>
      v && match p with
           | None => true
           | Some parent => isEffectiveVisible parent
           end
  end.

(** The window itself followed by its ancestors, nearest first. *)
Fixpoint selfAndAncestors (w : Window) : list Window :=
  match w with
  | mkWindow _ None => [w]
  | mkWindow _ (Some parent) => w :: selfAndAncestors parent
  end.

(** Induction along the parent chain, from the root down to the window. *)
Fixpoint Window_parent_ind (P : Window -> Prop)
    (Hroot : forall v, P (mkWindow v None))
    (Hchild : forall v parent, P parent -> P (mkWindow v (Some parent)))
    (w : Window) {struct w} : P w :=
  match w with
  | mkWindow v None => Hroot v
  | mkWindow v (Some parent) =>
      Hchild v parent (Window_parent_ind P Hroot Hchild parent)
  end.

(** A three-level hierarchy whose middle window is hidden. *)
Definition sample_root : Window := mkWindow true None.
Definition sample_panel : Window := mkWindow false (Some sample_root).
Definition sample_button : Window := mkWindow true (Some sample_panel).

End WindowCore.

(** ** src/widgets/FrameWindow.cpp *)

Module FrameWindowM.

Import Float32.

(** [glm::vec2]. *)
Module vec2.
Record t : Type := mk { x : float; y : float }.
End vec2.

(** [Rectf]: the minimum and the maximum corner. *)
Module Rectf.
Record t : Type := mk { d_min : vec2.t; d_max : vec2.t }.
End Rectf.

(** [Sizef]. *)
Module Sizef.
Record t : Type := mk { d_width : float; d_height : float }.
End Sizef.

(** [UDim]: a parent-relative scale plus an absolute pixel offset. *)
Module UDim.
Record t : Type := mk { d_scale : float; d_offset : float }.
(** [UDim::operator-], component by component. *)
Definition sub (a b : t) : t :=
  mk (Float32.sub (d_scale a) (d_scale b))
     (Float32.sub (d_offset a) (d_offset b)).
End UDim.

(** [USize]. *)
Module USize.
Record t : Type := mk { d_width : UDim.t; d_height : UDim.t }.
End USize.

(** [UVector2]. *)
Module UVector2.
Record t : Type := mk { d_x : UDim.t; d_y : UDim.t }.
End UVector2.

(** [URect]. *)
Module URect.
Record t : Type := mk { d_min : UVector2.t; d_max : UVector2.t }.
(** [URect::getSize]: [d_max - d_min] on each axis. *)
Definition getSize (r : t) : USize.t :=
  USize.mk (UDim.sub (UVector2.d_x (d_max r)) (UVector2.d_x (d_min r)))
           (UDim.sub (UVector2.d_y (d_max r)) (UVector2.d_y (d_min r))).
End URect.

(** [FrameWindow::SizingLocation]. *)
Module SizingLocation.
Inductive t : Type :=
| Invalid | Top | Bottom | Left | Right
| TopLeft | TopRight | BottomLeft | BottomRight.
Definition eqb (a b : t) : bool :=
  match a, b with
  | Invalid, Invalid | Top, Top | Bottom, Bottom | Left, Left | Right, Right
  | TopLeft, TopLeft | TopRight, TopRight
  | BottomLeft, BottomLeft | BottomRight, BottomRight => true
  | _, _ => false
  end.
End SizingLocation.

(** [enum class HorizontalAlignment]. *)
Module HorizontalAlignment.
Inductive t : Type := Left | Centre | Right.
End HorizontalAlignment.

(** [enum class VerticalAlignment]. *)
Module VerticalAlignment.
Inductive t : Type := Top | Centre | Bottom.
End VerticalAlignment.

(** The members of [FrameWindow] (and of its [Element] base) that the
    functions below read or write. *)
Record FrameWindow : Type := mkFrameWindow {
  d_frameEnabled : bool;
  d_rollupEnabled : bool;
  d_rolledup : bool;
  d_sizingEnabled : bool;
  d_beingSized : bool;
  d_dragMovable : bool;
  d_borderSize : float;
  d_dragPoint : vec2.t;
  d_area : URect.t;
  d_pixelSize : Sizef.t;
  d_minSize : USize.t;
  d_maxSize : USize.t;
  d_horizontalAlignment : HorizontalAlignment.t;
  d_verticalAlignment : VerticalAlignment.t
}.

(** [FrameWindow::DefaultSizingBorderSize = 8.0f]. *)
Definition DefaultSizingBorderSize : float := of_Z 8.

(** [FrameWindow::setSizingEnabled]. *)
Definition setSizingEnabled (setting : bool) (fw : FrameWindow) : FrameWindow :=
  mkFrameWindow (d_frameEnabled fw) (d_rollupEnabled fw) (d_rolledup fw)
    setting (d_beingSized fw) (d_dragMovable fw) (d_borderSize fw)
    (d_dragPoint fw) (d_area fw) (d_pixelSize fw) (d_minSize fw) (d_maxSize fw)
    (d_horizontalAlignment fw) (d_verticalAlignment fw).

(** [FrameWindow::setFrameEnabled] (the redraw request is not modelled). *)
Definition setFrameEnabled (setting : bool) (fw : FrameWindow) : FrameWindow :=
  mkFrameWindow setting (d_rollupEnabled fw) (d_rolledup fw)
    (d_sizingEnabled fw) (d_beingSized fw) (d_dragMovable fw) (d_borderSize fw)
    (d_dragPoint fw) (d_area fw) (d_pixelSize fw) (d_minSize fw) (d_maxSize fw)
    (d_horizontalAlignment fw) (d_verticalAlignment fw).

(** Modelled from the spec: [FrameWindow::isSizingEnabled] is declared in
    FrameWindow.h, which is absent; it reports the "sizing-enabled" flag,
    the one [setSizingEnabled] assigns. *)
Definition isSizingEnabled (fw : FrameWindow) : bool := d_sizingEnabled fw.

(** Modelled from the spec: [FrameWindow::isFrameEnabled] is declared in
    FrameWindow.h, which is absent; it reports the "frame-enabled" flag, the
    one [setFrameEnabled] assigns. *)
Definition isFrameEnabled (fw : FrameWindow) : bool := d_frameEnabled fw.

(** Modelled from the spec: [Rectf::isPointInRectf] is declared in Rect.h,
    which is absent; a point is tested "against the outer sizing rect": it is
    inside when, on both axes, it is not before the minimum corner and is
    before the maximum corner. *)
Definition isPointInRectf (r : Rectf.t) (v : vec2.t) : bool :=
  if gtb (vec2.x (Rectf.d_min r)) (vec2.x v)
     || leb (vec2.x (Rectf.d_max r)) (vec2.x v)
     || gtb (vec2.y (Rectf.d_min r)) (vec2.y v)
     || leb (vec2.y (Rectf.d_max r)) (vec2.y v)
  then false else true.

(** Modelled from the spec: [CoordConverter::alignToPixels]
    (CoordConverter.h is absent) brings a length to a whole pixel, the
    nearest one, as the comment "ensure adjustment will be whole pixel" in
    the edge functions relies on. *)
Definition alignToPixels (v : float) : float :=
  of_Z (truncate (add v (if gtb v (of_Z 0) then half else opp half))).

(** Modelled from the spec: [CoordConverter::asAbsolute] (CoordConverter.h
    is absent) resolves a unit dimension, "offset + parent-relative scale",
    "to absolute pixels" against a base size: [base * scale + offset], as a
    whole pixel. *)
Definition asAbsolute (u : UDim.t) (base : float) : float :=
  alignToPixels (add (mul base (UDim.d_scale u)) (UDim.d_offset u)).

(** Modelled from the spec: [Element::getSize] (Element.h is absent) is the
    size of the window's area. *)
Definition getSize (fw : FrameWindow) : USize.t := URect.getSize (d_area fw).

(** [outArea.d_max.d_x.d_offset += d]. *)
Definition addMaxXOffset (a : URect.t) (d : float) : URect.t :=
  let mx := URect.d_max a in
  let ux := UVector2.d_x mx in
  URect.mk (URect.d_min a)
    (UVector2.mk (UDim.mk (UDim.d_scale ux) (add (UDim.d_offset ux) d))
                 (UVector2.d_y mx)).

(** [outArea.d_min.d_x.d_offset += d]. *)
Definition addMinXOffset (a : URect.t) (d : float) : URect.t :=
  let mn := URect.d_min a in
  let ux := UVector2.d_x mn in
  URect.mk
    (UVector2.mk (UDim.mk (UDim.d_scale ux) (add (UDim.d_offset ux) d))
                 (UVector2.d_y mn))
    (URect.d_max a).

(** [d_dragPoint.x += d]. *)
Definition addDragPointX (fw : FrameWindow) (d : float) : FrameWindow :=
  mkFrameWindow (d_frameEnabled fw) (d_rollupEnabled fw) (d_rolledup fw)
    (d_sizingEnabled fw) (d_beingSized fw) (d_dragMovable fw) (d_borderSize fw)
    (vec2.mk (add (vec2.x (d_dragPoint fw)) d) (vec2.y (d_dragPoint fw)))
    (d_area fw) (d_pixelSize fw) (d_minSize fw) (d_maxSize fw)
    (d_horizontalAlignment fw) (d_verticalAlignment fw).

Section WithElement.

(** Queries answered by the [Element] and [Window] bases and by the virtual
    [getSizingRect], none of which is defined in this translation unit. *)
Variable getSizingRect : FrameWindow -> Rectf.t.
Variable getRootContainerSize : FrameWindow -> Sizef.t.
Variable getBasePixelSize : FrameWindow -> Sizef.t.

(** [FrameWindow::getSizingBorderAtPoint]. *)
Definition getSizingBorderAtPoint (fw : FrameWindow) (pt : vec2.t)
  : SizingLocation.t :=
  let frame := getSizingRect fw in
  if isSizingEnabled fw && isFrameEnabled fw then
    if isPointInRectf frame pt then
      let min_x := add (vec2.x (Rectf.d_min frame)) (d_borderSize fw) in
      let min_y := add (vec2.y (Rectf.d_min frame)) (d_borderSize fw) in
      let max_x := sub (vec2.x (Rectf.d_max frame)) (d_borderSize fw) in
      let max_y := sub (vec2.y (Rectf.d_max frame)) (d_borderSize fw) in
      let top := ltb (vec2.y pt) min_y in
      let bottom := geb (vec2.y pt) max_y in
      let left := ltb (vec2.x pt) min_x in
      let right := geb (vec2.x pt) max_x in
      if top && left then SizingLocation.TopLeft
      else if top && right then SizingLocation.TopRight
      else if bottom && left then SizingLocation.BottomLeft
      else if bottom && right then SizingLocation.BottomRight
      else if top then SizingLocation.Top
      else if bottom then SizingLocation.Bottom
      else if left then SizingLocation.Left
      else if right then SizingLocation.Right
      else SizingLocation.Invalid
    else SizingLocation.Invalid
  else SizingLocation.Invalid.

(** [FrameWindow::moveRightEdge]: the new [outArea] and the window with its
    drag point moved. *)
Definition moveRightEdge (delta : float) (outArea : URect.t) (fw : FrameWindow)
  : URect.t * FrameWindow :=
  let newWidth := add (Sizef.d_width (d_pixelSize fw)) delta in
  let rootWidth := Sizef.d_width (getRootContainerSize fw) in
  let maxWidth := asAbsolute (USize.d_width (d_maxSize fw)) rootWidth in
  let minWidth := asAbsolute (USize.d_width (d_minSize fw)) rootWidth in
  let newWidth :=
    if neqb maxWidth (of_Z 0) && gtb newWidth maxWidth then maxWidth
    else if ltb newWidth minWidth then minWidth
    else newWidth in
  let unlimitedWidth :=
    asAbsolute (USize.d_width (getSize fw))
               (Sizef.d_width (getBasePixelSize fw)) in
  if eqb unlimitedWidth newWidth then (outArea, fw)
  else
    let adjustment := sub newWidth unlimitedWidth in
    let outArea := addMaxXOffset outArea adjustment in
    let outArea :=
      match d_horizontalAlignment fw with
      | HorizontalAlignment.Right =>
          addMinXOffset (addMaxXOffset outArea adjustment) adjustment
      | HorizontalAlignment.Centre =>
          addMinXOffset (addMaxXOffset outArea (mul adjustment half))
                        (mul adjustment half)
      | HorizontalAlignment.Left => outArea
      end in
    (outArea,
     addDragPointX fw (sub newWidth (Sizef.d_width (d_pixelSize fw)))).

(** The sizing rectangle moved in by the border thickness on every side:
    the "inner edge" of [getSizingBorderAtPoint]. *)
Definition innerSizingRect (fw : FrameWindow) : Rectf.t :=
  let frame := getSizingRect fw in
  Rectf.mk
    (vec2.mk (add (vec2.x (Rectf.d_min frame)) (d_borderSize fw))
             (add (vec2.y (Rectf.d_min frame)) (d_borderSize fw)))
    (vec2.mk (sub (vec2.x (Rectf.d_max frame)) (d_borderSize fw))
             (sub (vec2.y (Rectf.d_max frame)) (d_borderSize fw))).

(** The four edge tests of [getSizingBorderAtPoint]. *)
Definition onTop (fw : FrameWindow) (pt : vec2.t) : bool :=
  ltb (vec2.y pt) (vec2.y (Rectf.d_min (innerSizingRect fw))).
Definition onBottom (fw : FrameWindow) (pt : vec2.t) : bool :=
  geb (vec2.y pt) (vec2.y (Rectf.d_max (innerSizingRect fw))).
Definition onLeft (fw : FrameWindow) (pt : vec2.t) : bool :=
  ltb (vec2.x pt) (vec2.x (Rectf.d_min (innerSizingRect fw))).
Definition onRight (fw : FrameWindow) (pt : vec2.t) : bool :=
  geb (vec2.x pt) (vec2.x (Rectf.d_max (innerSizingRect fw))).

(** The width, in pixels, that an area has for the window [fw]: the
    computation the edge functions call "what our size would be without
    limitations". *)
Definition areaPixelWidth (fw : FrameWindow) (a : URect.t) : float :=
  asAbsolute (USize.d_width (URect.getSize a))
             (Sizef.d_width (getBasePixelSize fw)).

End WithElement.

(** The order in which the spec lists the zone tests: the four corners
    (top/left, top/right, bottom/left, bottom/right), then the single edges. *)
Definition zonesByPriority (top bottom left right : bool)
  : list (bool * SizingLocation.t) :=
  [ (top && left, SizingLocation.TopLeft);
    (top && right, SizingLocation.TopRight);
    (bottom && left, SizingLocation.BottomLeft);
    (bottom && right, SizingLocation.BottomRight);
    (top, SizingLocation.Top);
    (bottom, SizingLocation.Bottom);
    (left, SizingLocation.Left);
    (right, SizingLocation.Right) ]%bool.

(** The zone of the first test that succeeds, [Invalid] when none does. *)
Definition firstZone (l : list (bool * SizingLocation.t)) : SizingLocation.t :=
  match find fst l with
  | Some (_, z) => z
  | None => SizingLocation.Invalid
  end.

(** The point [(a, b)] with whole-pixel co-ordinates. *)
Definition pixel (a b : Z) : vec2.t := vec2.mk (of_Z a) (of_Z b).

(** [cegui_absdim(v)]: a dimension with no relative part. *)
Definition absdim (v : Z) : UDim.t := UDim.mk (of_Z 0) (of_Z v).

(** A frame window as its constructor leaves it (roll-up and drag-moving
    enabled, not rolled up, not being sized, border 8.0), 100 pixels wide
    and high at the origin, with minimum size 50 and maximum size 300; the
    sizing flag, the frame flag and the alignment are left open. *)
Definition sampleFrame (sizing frame : bool) (al : HorizontalAlignment.t)
  : FrameWindow :=
  mkFrameWindow frame true false sizing false true DefaultSizingBorderSize
    (pixel 99 50)
    (URect.mk (UVector2.mk (absdim 0) (absdim 0))
              (UVector2.mk (absdim 100) (absdim 100)))
    (Sizef.mk (of_Z 100) (of_Z 100))
    (USize.mk (absdim 50) (absdim 50))
    (USize.mk (absdim 300) (absdim 300))
    al VerticalAlignment.Top.

(** Stand-in for [getSizingRect]: the rectangle from (0,0) to (200,100). *)
Definition sizingRect200x100 (_ : FrameWindow) : Rectf.t :=
  Rectf.mk (pixel 0 0) (pixel 200 100).

(** Stand-in for [getRootContainerSize] and [getBasePixelSize]: 800 x 600. *)
Definition size800x600 (_ : FrameWindow) : Sizef.t :=
  Sizef.mk (of_Z 800) (of_Z 600).

End FrameWindowM.

(** ** src/widgets/Titlebar.cpp *)

Module TitlebarM.

Import Float32.
Import FrameWindowM.

(** [enum class CursorInputSource]. *)
Module CursorInputSource.
Inductive t : Type := NotSpecified | Left | Right | Middle.
Definition eqb (a b : t) : bool :=
  match a, b with
  | NotSpecified, NotSpecified | Left, Left | Right, Right | Middle, Middle
      => true
  | _, _ => false
  end.
End CursorInputSource.

(** [CursorInputEventArgs]: [handled] is an [unsigned int] counter. *)
Record CursorInputEventArgs : Type := mkArgs {
  position : vec2.t;
  source : CursorInputSource.t;
  handled : Z
}.

(** [++e.handled]. *)
Definition incrHandled (e : CursorInputEventArgs) : CursorInputEventArgs :=
  mkArgs (position e) (source e) ((handled e + 1) mod 2 ^ 32).

(** What the title bar sees of the element [d_parent] points to: the result
    of [dynamic_cast<FrameWindow*>(d_parent)], and the inner clipping
    rectangle of [d_parent->getParentElement()] when there is a grand-parent. *)
Record ParentElement : Type := mkParent {
  asFrameWindow : option FrameWindow;
  grandParentInnerRectClipper : option Rectf.t
}.

(** The members of [Titlebar]. *)
Record Titlebar : Type := mkTitlebar {
  d_dragging : bool;
  d_dragEnabled : bool;
  d_dragPoint : vec2.t;
  d_oldCursorArea : Rectf.t;
  d_parent : option ParentElement
}.

(** The title bar and what it shares with the GUI context: the cursor's
    constraint area and whether this window holds the input capture. *)
Record World : Type := mkWorld {
  titlebar : Titlebar;
  cursorConstraintArea : Rectf.t;
  capturedByThis : bool
}.

Section WithWindow.

(** The [Window] base class and helpers defined in other translation units:
    the base handler [Window::onCursorPressHold], [Window::captureInput],
    [CoordConverter::screenToWindow] for the frame window and for the title
    bar itself, [Rectf::getIntersection], [getRootContainerSize] and the
    frame window's virtual [getSizingRect]. *)
Variable Window_onCursorPressHold :
  CursorInputEventArgs -> World -> CursorInputEventArgs * World.
Variable captureInput : World -> bool * World.
Variable screenToFrameWindow : FrameWindow -> vec2.t -> vec2.t.
Variable screenToWindow : World -> vec2.t -> vec2.t.
Variable getIntersection : Rectf.t -> Rectf.t -> Rectf.t.
Variable getRootContainerSize : World -> Sizef.t.
Variable getSizingRect : FrameWindow -> Rectf.t.

(** The test that makes the handler return early: the parent is a frame
    window with sizing enabled and the point lies on its sizing border. *)
Definition onParentSizingBorder (e : CursorInputEventArgs) (w : World) : bool :=
  match d_parent (titlebar w) with
  | Some p =>
      match asFrameWindow p with
      | Some frameWnd =>
          if isSizingEnabled frameWnd then
            let localCursorPos := screenToFrameWindow frameWnd (position e) in
            negb (SizingLocation.eqb
                    (getSizingBorderAtPoint getSizingRect frameWnd localCursorPos)
                    SizingLocation.Invalid)
          else false
      | None => false
      end
  | None => false
  end.

(** The body executed once [captureInput] has succeeded; [p] is the parent
    that [d_parent] was tested to point to. *)
Definition startDragging (e : CursorInputEventArgs) (w : World)
    (p : ParentElement) : World :=
  let old := cursorConstraintArea w in
  let constrainArea :=
    match grandParentInnerRectClipper p with
    | Some clipper => getIntersection clipper old
    | None =>
        let sz := getRootContainerSize w in
        let screen :=
          Rectf.mk (vec2.mk (of_Z 0) (of_Z 0))
                   (vec2.mk (Sizef.d_width sz) (Sizef.d_height sz)) in
        getIntersection screen old
    end in
  mkWorld
    (mkTitlebar true (d_dragEnabled (titlebar w))
       (screenToWindow w (position e)) old (d_parent (titlebar w)))
    constrainArea (capturedByThis w).

(** [Titlebar::onCursorPressHold]. *)
Definition onCursorPressHold (e : CursorInputEventArgs) (w : World)
  : CursorInputEventArgs * World :=
  let '(e, w) := Window_onCursorPressHold e w in
  if CursorInputSource.eqb (source e) CursorInputSource.Left then
    if onParentSizingBorder e w then (e, w)
    else
      let w :=
        match d_parent (titlebar w) with
        | Some p =>
            if d_dragEnabled (titlebar w) then
              let '(ok, w) := captureInput w in
              if ok then startDragging e w p else w
            else w
        | None => w
        end in
      (incrHandled e, w)
  else (e, w).

End WithWindow.

(** A title bar that is not being dragged, with dragging enabled, as the
    constructor leaves it. *)
Definition idleTitlebar (p : option ParentElement) : Titlebar :=
  mkTitlebar false true (pixel 0 0) (Rectf.mk (pixel 0 0) (pixel 0 0)) p.

(** Such a title bar on an 800 x 600 screen, holding no capture. *)
Definition idleWorld (p : option ParentElement) : World :=
  mkWorld (idleTitlebar p) (Rectf.mk (pixel 0 0) (pixel 800 600)) false.

(** The title bar of a sizing-enabled frame window that has no parent. *)
Definition framedWorld : World :=
  idleWorld (Some (mkParent
                     (Some (sampleFrame true true HorizontalAlignment.Left))
                     None)).

(** A left press at the pixel [(a, b)], not handled yet. *)
Definition pressAt (a b : Z) : CursorInputEventArgs :=
  mkArgs (pixel a b) CursorInputSource.Left 0.

(** Stand-in for [Window::onCursorPressHold]: base-class processing that
    changes nothing. *)
Definition baseOnly (e : CursorInputEventArgs) (w : World)
  : CursorInputEventArgs * World := (e, w).

(** Stand-in for [Window::captureInput]: the capture always succeeds. *)
Definition captureAlways (w : World) : bool * World :=
  (true, mkWorld (titlebar w) (cursorConstraintArea w) true).

(** Stand-in for [CoordConverter::screenToWindow]: a window at the screen
    origin. *)
Definition atOrigin {A : Type} (_ : A) (p : vec2.t) : vec2.t := p.

(** Stand-in for [Rectf::getIntersection]: the part two rectangles share,
    the empty rectangle at the origin when they share none. *)
Definition intersection (a b : Rectf.t) : Rectf.t :=
  let fmax (u v : float) := if ltb u v then v else u in
  let fmin (u v : float) := if ltb u v then u else v in
  if gtb (vec2.x (Rectf.d_max a)) (vec2.x (Rectf.d_min b))
     && ltb (vec2.x (Rectf.d_min a)) (vec2.x (Rectf.d_max b))
     && gtb (vec2.y (Rectf.d_max a)) (vec2.y (Rectf.d_min b))
     && ltb (vec2.y (Rectf.d_min a)) (vec2.y (Rectf.d_max b))
  then
    Rectf.mk
      (vec2.mk (fmax (vec2.x (Rectf.d_min a)) (vec2.x (Rectf.d_min b)))
               (fmax (vec2.y (Rectf.d_min a)) (vec2.y (Rectf.d_min b))))
      (vec2.mk (fmin (vec2.x (Rectf.d_max a)) (vec2.x (Rectf.d_max b)))
               (fmin (vec2.y (Rectf.d_max a)) (vec2.y (Rectf.d_max b))))
  else Rectf.mk (pixel 0 0) (pixel 0 0).

(** Stand-in for [getRootContainerSize]: 800 x 600. *)
Definition root800x600 (_ : World) : Sizef.t := Sizef.mk (of_Z 800) (of_Z 600).

End TitlebarM.

(** ** samples/Inventory/InventoryItem.cpp *)

Module Inventory.

Import Float32.
Import FrameWindowM.

(** [argb_t]: a 32-bit colour, alpha in the top byte. *)
Definition argb_t : Type := Z.

(** The alpha byte and the RGB part of a colour. *)
Definition alphaOf (c : argb_t) : Z := Z.land (Z.shiftr c 24) 0xFF.
Definition rgbOf (c : argb_t) : Z := Z.land c 0xFFFFFF.

(** Modelled from the spec: the grid type of [InventoryBase::d_content]
    (InventoryBase.h is absent) is "a width x height boolean occupancy grid";
    cells are kept row by row. *)
Record BoolArray2D : Type := mkGrid {
  width : Z;
  height : Z;
  d_cells : list bool
}.

(** Modelled from the spec: [elementAtLocation] (InventoryBase.h is absent)
    tells whether the cell in column [x] of row [y] is solid; the loops below
    only ask for cells inside the grid. *)
Definition elementAtLocation (g : BoolArray2D) (x y : Z) : bool :=
  if (0 <=? x) && (x <? width g) && (0 <=? y) && (y <? height g)
  then nth (Z.to_nat (y * width g + x)) (d_cells g) false
  else false.

(** What [InventoryItem] calls of the class [InventoryReceiver], which is
    absent: its cell size, the grid cell of a pixel position on either axis,
    and whether an item of a given shape fits with its top-left cell at a
    location. *)
Record InventoryReceiver : Type := mkReceiver {
  receiverSquarePixelSize : Sizef.t;
  gridXLocationFromPixelPosition : float -> Z;
  gridYLocationFromPixelPosition : float -> Z;
  itemWillFitAtLocation : BoolArray2D -> Z -> Z -> bool
}.

(** The window [d_dropTarget] points to: an [InventoryReceiver] or a window
    of some other class. *)
Inductive TargetWindow : Type :=
| ReceiverWindow (r : InventoryReceiver)
| OtherWindow.

(** [dynamic_cast<InventoryReceiver*>(d_dropTarget)]. *)
Definition asInventoryReceiver (t : option TargetWindow)
  : option InventoryReceiver :=
  match t with
  | Some (ReceiverWindow r) => Some r
  | _ => None
  end.

(** [Image]. *)
Record Image : Type := mkImage { imageName : string }.

(** The [ImageRenderSettings] handed to [Image::createRenderGeometry]
    together with the image: the destination area and the colour; each call
    is one piece of geometry. *)
Record ImageRenderSettings : Type := mkSettings {
  renderedImage : Image;
  d_destArea : Rectf.t;
  d_multiplyColours : argb_t
}.

(** The members of [InventoryItem] and of its bases [DragContainer] and
    [Window] that the functions below read or write; [userStringBlockImage]
    is the user string "BlockImage", [None] when it is not defined. *)
Record InventoryItem : Type := mkItem {
  d_validDropTarget : bool;
  d_receiverLocationX : Z;
  d_receiverLocationY : Z;
  d_content : BoolArray2D;
  d_dragging : bool;
  d_dropTarget : option TargetWindow;
  userStringBlockImage : option string;
  d_needsRedraw : bool
}.

(** [ElementEventArgs]. *)
Record ElementEventArgs : Type := mkElementArgs { elementHandled : Z }.

(** [DragDropEventArgs]: [window] is the new target. *)
Record DragDropEventArgs : Type := mkDragDropArgs {
  window : option TargetWindow;
  dragDropHandled : Z
}.

(** [InventoryItem::InventoryItem]: no valid target, location (-1,-1). *)
Definition newItem (content : BoolArray2D) : InventoryItem :=
  mkItem false (-1) (-1) content false None None false.

(** [d_validDropTarget = v]. *)
Definition set_validDropTarget (v : bool) (it : InventoryItem) : InventoryItem :=
  mkItem v (d_receiverLocationX it) (d_receiverLocationY it) (d_content it)
    (d_dragging it) (d_dropTarget it) (userStringBlockImage it)
    (d_needsRedraw it).

(** [InventoryItem::setLocationOnReceiver]. *)
Definition setLocationOnReceiver (x y : Z) (it : InventoryItem) : InventoryItem :=
  mkItem (d_validDropTarget it) x y (d_content it)
    (d_dragging it) (d_dropTarget it) (userStringBlockImage it)
    (d_needsRedraw it).

(** [Window::invalidate]: the cached geometry must be rebuilt. *)
Definition invalidate (it : InventoryItem) : InventoryItem :=
  mkItem (d_validDropTarget it) (d_receiverLocationX it)
    (d_receiverLocationY it) (d_content it) (d_dragging it) (d_dropTarget it)
    (userStringBlockImage it) true.

(** [InventoryItem::isSolidAtLocation]. *)
Definition isSolidAtLocation (it : InventoryItem) (x y : Z) : bool :=
  elementAtLocation (d_content it) x y.

(** [InventoryItem::currentDropTargetIsValid]. *)
Definition currentDropTargetIsValid (it : InventoryItem) : bool :=
  d_validDropTarget it.

(** Modelled from the spec: [Rectf::offset] (Rect.h is absent) moves both
    corners of a rectangle by a vector. *)
Definition offset (r : Rectf.t) (v : vec2.t) : Rectf.t :=
  Rectf.mk
    (vec2.mk (add (vec2.x (Rectf.d_min r)) (vec2.x v))
             (add (vec2.y (Rectf.d_min r)) (vec2.y v)))
    (vec2.mk (add (vec2.x (Rectf.d_max r)) (vec2.x v))
             (add (vec2.y (Rectf.d_max r)) (vec2.y v))).

(** Modelled from the spec: [Rectf::left] and [Rectf::top] (Rect.h is
    absent) are the co-ordinates of the minimum corner. *)
Definition left (r : Rectf.t) : float := vec2.x (Rectf.d_min r).
Definition top (r : Rectf.t) : float := vec2.y (Rectf.d_min r).

(** Modelled from the spec: the constructor [Rectf(position, size)] (Rect.h
    is absent). *)
Definition rectOfPosSize (pos : vec2.t) (sz : Sizef.t) : Rectf.t :=
  Rectf.mk pos (vec2.mk (add (vec2.x pos) (Sizef.d_width sz))
                        (add (vec2.y pos) (Sizef.d_height sz))).

(** The integers [0, 1, ..., n-1] of a [for] loop. *)
Definition upto (n : Z) : list Z := map Z.of_nat (seq 0 (Z.to_nat n)).

(** The two tints of [populateGeometryBuffer], and the one an item gets:
    red while it is dragged over a target that is not valid, green
    otherwise. *)
Definition tintGreen : argb_t := 0xFF00FF00.
Definition tintRed : argb_t := 0xFFFF0000.
Definition tintOf (it : InventoryItem) : argb_t :=
  if d_dragging it && negb (currentDropTargetIsValid it)
  then tintRed else tintGreen.

Section WithBases.

(** Defined in other translation units: the handlers of the base class
    [DragContainer], [Element::getUnclippedOuterRect],
    [InventoryBase::squarePixelSize] of the item itself, and
    [PropertyHelper<Image*>::fromString]. *)
Variable DragContainer_onMoved : ElementEventArgs -> InventoryItem -> InventoryItem.
Variable DragContainer_onDragDropTargetChanged :
  DragDropEventArgs -> InventoryItem -> InventoryItem.
Variable getUnclippedOuterRect : InventoryItem -> Rectf.t.
Variable squarePixelSize : InventoryItem -> Sizef.t.
Variable imageFromString : string -> option Image.

(** The grid cell under the item's offset position: the item's top-left
    corner moved by half a receiver cell. *)
Definition cellUnderItem (receiver : InventoryReceiver) (it : InventoryItem)
  : Z * Z :=
  let square_size := receiverSquarePixelSize receiver in
  let area := getUnclippedOuterRect it in
  let area :=
    offset area (vec2.mk (mul half (Sizef.d_width square_size))
                         (mul half (Sizef.d_height square_size))) in
  (gridXLocationFromPixelPosition receiver (left area),
   gridYLocationFromPixelPosition receiver (top area)).

(** [InventoryItem::onMoved]. *)
Definition onMoved (e : ElementEventArgs) (it : InventoryItem) : InventoryItem :=
  let it := invalidate it in
  let it := DragContainer_onMoved e it in
  match asInventoryReceiver (d_dropTarget it) with
  | Some receiver =>
      let '(x, y) := cellUnderItem receiver it in
      set_validDropTarget (itemWillFitAtLocation receiver (d_content it) x y) it
  | None => set_validDropTarget false it
  end.

(** [InventoryItem::onDragDropTargetChanged]. *)
Definition onDragDropTargetChanged (e : DragDropEventArgs) (it : InventoryItem)
  : InventoryItem :=
  let it := DragContainer_onDragDropTargetChanged e it in
  let it :=
    set_validDropTarget
      (match asInventoryReceiver (d_dropTarget it) with
       | Some _ => true
       | None => false
       end) it in
  invalidate it.

(** [InventoryItem::populateGeometryBuffer]: the render requests appended, in
    order, one per solid cell.  When the item is dragged over a valid target
    the cell size is the receiver's ([d_dropTarget] is then cast without a
    check; any other target is given the item's own cell size here). *)
Definition populateGeometryBuffer (it : InventoryItem)
  : list ImageRenderSettings :=
  match userStringBlockImage it with
  | None => []
  | Some name =>
      match imageFromString name with
      | None => []
      | Some img =>
          let square_size :=
            if d_dragging it && currentDropTargetIsValid it then
              match asInventoryReceiver (d_dropTarget it) with
              | Some receiver => receiverSquarePixelSize receiver
              | None => squarePixelSize it
              end
            else squarePixelSize it in
          let colour : argb_t :=
            if d_dragging it && negb (currentDropTargetIsValid it)
            then 0xFFFF0000 else 0xFF00FF00 in
          flat_map (fun y =>
            flat_map (fun x =>
              if elementAtLocation (d_content it) x y then
                [ mkSettings img
                    (rectOfPosSize
                       (vec2.mk
                          (add (mul (of_Z x) (Sizef.d_width square_size)) (of_Z 1))
                          (add (mul (of_Z y) (Sizef.d_height square_size)) (of_Z 1)))
                       (Sizef.mk (sub (Sizef.d_width square_size) (of_Z 2))
                                 (sub (Sizef.d_height square_size) (of_Z 2))))
                    colour ]
              else [])
              (upto (width (d_content it))))
            (upto (height (d_content it)))
      end
  end.

End WithBases.

(** Modelled from the spec: a receiver grid (InventoryReceiver.cpp is
    absent) whose cells are free or occupied, standing at the screen origin
    with square cells of [cellSize] pixels. *)
Record ReceiverGrid : Type := mkReceiverGrid {
  occupied : BoolArray2D;
  cellSize : Z
}.

(** Modelled from the spec: the grid cell of a pixel position on a receiver
    standing at the origin (InventoryBase.cpp is absent): the position
    divided by the cell size, -1 before the grid. *)
Definition gridLocation (cell : Z) (pixel_location : float) : Z :=
  if ltb pixel_location (of_Z 0) then -1
  else truncate (div pixel_location (of_Z cell)).

(** Modelled from the spec: [InventoryReceiver::itemWillFitAtLocation]
    (InventoryReceiver.cpp is absent): an item placed over "free cells at
    the target location" fits; one that would "overlap an occupied cell", or
    leave the grid, does not. *)
Definition fitsOnGrid (g : ReceiverGrid) (item : BoolArray2D) (x y : Z) : bool :=
  (0 <=? x) && (0 <=? y)
  && (x + width item <=? width (occupied g))
  && (y + height item <=? height (occupied g))
  && forallb (fun iy =>
       forallb (fun ix =>
         negb (elementAtLocation (occupied g) (x + ix) (y + iy)
               && elementAtLocation item ix iy))
         (upto (width item)))
       (upto (height item)).

(** The receiver that such a grid is. *)
Definition receiverOfGrid (g : ReceiverGrid) : InventoryReceiver :=
  mkReceiver (Sizef.mk (of_Z (cellSize g)) (of_Z (cellSize g)))
    (gridLocation (cellSize g)) (gridLocation (cellSize g)) (fitsOnGrid g).

(** The item of the example: a fully solid 2 x 2 grid. *)
Definition solid2x2 : BoolArray2D := mkGrid 2 2 [true; true; true; true].

(** The receiver of the example: 4 x 4 cells of 32 pixels, cell (2,2)
    occupied, all others free. *)
Definition sampleGrid : ReceiverGrid :=
  mkReceiverGrid
    (mkGrid 4 4 [false; false; false; false;
                 false; false; false; false;
                 false; false; true;  false;
                 false; false; false; false])
    32.

(** A dragged 2 x 2 item over the sample receiver, with a block image. *)
Definition draggedItem : InventoryItem :=
  mkItem false (-1) (-1) solid2x2 true
    (Some (ReceiverWindow (receiverOfGrid sampleGrid)))
    (Some "BlockImage"%string) false.

(** A receiver that never has room. *)
Definition fullReceiver : InventoryReceiver :=
  mkReceiver (Sizef.mk (of_Z 32) (of_Z 32))
    (gridLocation 32) (gridLocation 32) (fun _ _ _ => false).

(** Stand-in for [DragContainer::onMoved]: leaves the item as it is. *)
Definition baseKeeps (_ : ElementEventArgs) (it : InventoryItem)
  : InventoryItem := it.

(** Stand-in for [DragContainer::onDragDropTargetChanged]: installs the
    window of the event as the new drop target. *)
Definition baseInstallsTarget (e : DragDropEventArgs) (it : InventoryItem)
  : InventoryItem :=
  mkItem (d_validDropTarget it) (d_receiverLocationX it)
    (d_receiverLocationY it) (d_content it) (d_dragging it) (window e)
    (userStringBlockImage it) (d_needsRedraw it).

(** Stand-in for [getUnclippedOuterRect]: a 64 x 64 item whose top-left
    corner is at the pixel [(a, b)]. *)
Definition outerRectAt (a b : Z) (_ : InventoryItem) : Rectf.t :=
  Rectf.mk (pixel a b) (pixel (a + 64) (b + 64)).

(** Stand-in for the item's own [squarePixelSize]: 32-pixel cells. *)
Definition squares32 (_ : InventoryItem) : Sizef.t :=
  Sizef.mk (of_Z 32) (of_Z 32).

(** Stand-in for [PropertyHelper<Image*>::fromString]: every name is an
    image. *)
Definition anyImage (name : string) : option Image := Some (mkImage name).

End Inventory.

(** ** src/RendererModules/OpenGL/GL3Renderer.cpp *)

Module GL3Renderer.

Import Float32.
Import FrameWindowM.
Local Open Scope string_scope.

(** The OpenGL enumerators this translation unit passes on. *)
Inductive GLenum : Type :=
| GL_ZERO | GL_ONE
| GL_SRC_ALPHA | GL_ONE_MINUS_SRC_ALPHA | GL_ONE_MINUS_DST_ALPHA
| GL_ARRAY_BUFFER | GL_DYNAMIC_DRAW.

(** [GLuint] is an unsigned 32-bit integer. *)
Definition GLuint : Type := Z.

(** The conversion of a [std::size_t] to [GLuint]. *)
Definition GLuint_of (z : Z) : GLuint := z mod 2 ^ 32.

(** Multiplication of two [std::size_t], unsigned 64-bit integers. *)
Definition size_t_mul (a b : Z) : Z := (a * b) mod 2 ^ 64.

(** [sizeof(float)]. *)
Definition sizeof_float : Z := 4.

(** Modelled from the spec: [enum class BlendMode] is declared in
    Renderer.h, which is absent; the spec names the two modes Normal and
    RttPremultiplied; [Invalid] stands for a renderer whose blend mode has
    not been set up yet. *)
Inductive BlendMode : Type := Invalid | Normal | RttPremultiplied.

(** [operator==] on the enumeration. *)
Definition BlendMode_eqb (a b : BlendMode) : bool :=
  match a, b with
  | Invalid, Invalid | Normal, Normal | RttPremultiplied, RttPremultiplied
      => true
  | _, _ => false
  end.

(** What the renderer asks of OpenGL, in the order it asks: calls on the
    state-change wrapper [d_openGLStateChanger] and direct [gl...] calls. *)
Inductive GLCall : Type :=
| StateChanger_blendFunc (sfactor dfactor : GLenum)
| StateChanger_blendFuncSeparate
    (sfactorRGB dfactorRGB sfactorAlpha dfactorAlpha : GLenum)
| StateChanger_bindBuffer (target : GLenum) (buffer : GLuint)
| glBufferData (target : GLenum) (size : Z) (data : list float) (usage : GLenum)
| glBufferSubData (target : GLenum) (offset size : Z) (data : list float).

(** Is the call a [glBufferSubData]? *)
Definition isBufferSubData (c : GLCall) : bool :=
  match c with glBufferSubData _ _ _ _ => true | _ => false end.

(** Is the call a [glBufferData]? *)
Definition isBufferData (c : GLCall) : bool :=
  match c with glBufferData _ _ _ _ => true | _ => false end.

(** The members of [OpenGL3Renderer] (and of [OpenGLRendererBase]) used
    below; [d_displaySize] is [None] when the renderer was not given one. *)
Record OpenGL3Renderer : Type := mkRenderer {
  d_rendererID : string;
  d_displaySize : option Sizef.t;
  d_activeBlendMode : BlendMode;
  d_verticesSolidVBO : GLuint;
  d_verticesSolidVBOSize : GLuint;
  d_verticesTexturedVBO : GLuint;
  d_verticesTexturedVBOSize : GLuint;
  d_vertex_data_solid : list float;
  d_vertex_data_textured : list float
}.

(** [d_activeBlendMode = mode]. *)
Definition set_activeBlendMode (mode : BlendMode) (r : OpenGL3Renderer)
  : OpenGL3Renderer :=
  mkRenderer (d_rendererID r) (d_displaySize r) mode (d_verticesSolidVBO r)
    (d_verticesSolidVBOSize r) (d_verticesTexturedVBO r)
    (d_verticesTexturedVBOSize r) (d_vertex_data_solid r)
    (d_vertex_data_textured r).

(** [OpenGL3Renderer::setupRenderingBlendMode]: the renderer afterwards and
    the calls made. *)
Definition setupRenderingBlendMode (mode : BlendMode) (force : bool)
    (r : OpenGL3Renderer) : OpenGL3Renderer * list GLCall :=
  if BlendMode_eqb (d_activeBlendMode r) mode && negb force then (r, [])
  else
    let r := set_activeBlendMode mode r in
    if BlendMode_eqb (d_activeBlendMode r) RttPremultiplied then
      (r, [StateChanger_blendFunc GL_ONE GL_ONE_MINUS_SRC_ALPHA])
    else
      (r, [StateChanger_blendFuncSeparate GL_SRC_ALPHA GL_ONE_MINUS_SRC_ALPHA
             GL_ONE_MINUS_DST_ALPHA GL_ONE]).

(** [vertex_data.size() * sizeof(float)]. *)
Definition byteSize (vertex_data : list float) : Z :=
  size_t_mul (Z.of_nat (List.length vertex_data)) sizeof_float.

(** [OpenGL3Renderer::uploadVertexData]: the calls made and the new value of
    the reference parameter [vbo_max_size]. *)
Definition uploadVertexData (vertex_data : list float) (vbo_id : GLuint)
    (vbo_max_size : GLuint) : list GLCall * GLuint :=
  match vertex_data with
  | [] => ([], vbo_max_size)
  | _ :: _ =>
      if (byteSize vertex_data >? vbo_max_size)%Z then
        ([StateChanger_bindBuffer GL_ARRAY_BUFFER vbo_id;
          glBufferData GL_ARRAY_BUFFER (byteSize vertex_data) vertex_data
            GL_DYNAMIC_DRAW],
         GLuint_of (byteSize vertex_data))
      else
        ([StateChanger_bindBuffer GL_ARRAY_BUFFER vbo_id;
          glBufferSubData GL_ARRAY_BUFFER 0 (byteSize vertex_data) vertex_data],
         vbo_max_size)
  end.

(** What [addGeometry] uses of a geometry buffer: [getVertexData()],
    [getVertexAttributeElementCount()], and the member
    [d_verticesVBOPosition] of GL3GeometryBuffer.h. *)
Record OpenGL3GeometryBuffer : Type := mkBuffer {
  getVertexData : list float;
  getVertexAttributeElementCount : Z;
  d_verticesVBOPosition : Z
}.

(** [destBuffer.size() / element_count], a division in [std::size_t]: the
    element count is converted to it, a negative one by adding 2^64, and
    the division has no value ([None]) when the divisor is 0. *)
Definition size_t_div (size element_count : Z) : option Z :=
  let divisor :=
    if (element_count <? 0)%Z then (element_count + 2 ^ 64)%Z
    else element_count in
  if (divisor =? 0)%Z then None else Some (size / divisor)%Z.

(** [OpenGL3Renderer::addGeometry]: the solid and the textured vertex data
    and the buffers, each with its position in the shared buffer recorded.
    There is no result when the division for a buffer has none. *)
Fixpoint addGeometry (buffers : list OpenGL3GeometryBuffer)
    (solid textured : list float)
  : option (list float * list float * list OpenGL3GeometryBuffer) :=
  match buffers with
  | [] => Some (solid, textured, [])
  | buffer :: rest =>
      let data := getVertexData buffer in
      match data with
      | [] =>
          match addGeometry rest solid textured with
          | Some (s, t, bs) => Some (s, t, buffer :: bs)
          | None => None
          end
      | _ :: _ =>
          let element_count := getVertexAttributeElementCount buffer in
          if (element_count =? 9)%Z then
            match size_t_div (Z.of_nat (List.length textured))
                    element_count with
            | Some position =>
                match addGeometry rest solid (textured ++ data) with
                | Some (s, t, bs) =>
                    Some (s, t, mkBuffer data element_count position :: bs)
                | None => None
                end
            | None => None
            end
          else
            match size_t_div (Z.of_nat (List.length solid))
                    element_count with
            | Some position =>
                match addGeometry rest (solid ++ data) textured with
                | Some (s, t, bs) =>
                    Some (s, t, mkBuffer data element_count position :: bs)
                | None => None
                end
            | None => None
            end
      end
  end.

(** [OpenGL3Renderer::uploadBuffers(const std::vector<GeometryBuffer*>&)]:
    the renderer and the buffers afterwards, and the calls made; no result
    when [addGeometry] has none. *)
Definition uploadBuffers (buffers : list OpenGL3GeometryBuffer)
    (r : OpenGL3Renderer)
  : option (OpenGL3Renderer * list OpenGL3GeometryBuffer * list GLCall) :=
  match addGeometry buffers [] [] with
  | None => None
  | Some (solid, textured, positioned) =>
      let upSolid :=
        uploadVertexData solid (d_verticesSolidVBO r)
          (d_verticesSolidVBOSize r) in
      let upTextured :=
        uploadVertexData textured (d_verticesTexturedVBO r)
          (d_verticesTexturedVBOSize r) in
      Some (mkRenderer (d_rendererID r) (d_displaySize r)
              (d_activeBlendMode r)
              (d_verticesSolidVBO r) (snd upSolid)
              (d_verticesTexturedVBO r) (snd upTextured)
              solid textured,
            positioned, (fst upSolid ++ fst upTextured)%list)
  end.

(** The exceptions thrown in this translation unit. *)
Inductive Exception : Type :=
| InvalidRequestException (message : string)
| RendererException (message : string).

(** [OpenGLInfo]: what [init] asks about the GL context. *)
Record OpenGLInfo : Type := mkInfo {
  isUsingOpenglEs : bool;
  isUsingDesktopOpengl : bool;
  verMajor : Z
}.

(** [DefaultResourceProvider], as its default constructor leaves it. *)
Record DefaultResourceProvider : Type := mkDefaultResourceProvider { }.

(** The [System] singleton: the renderer and resource provider it was
    created with. *)
Record System : Type := mkSystem {
  getRenderer : OpenGL3Renderer;
  getResourceProvider : DefaultResourceProvider
}.

(** The process-wide state: [System::getSingletonPtr()] and the GL context. *)
Record Process : Type := mkProcess {
  getSingletonPtr : option System;
  openGLInfo : OpenGLInfo
}.

(** A computation that returns a value or throws, and leaves a process
    state behind either way. *)
Definition Throws (A : Type) : Type := Process -> (Exception + A) * Process.

Definition ret {A : Type} (a : A) : Throws A := fun p => (inr a, p).
Definition throw {A : Type} (e : Exception) : Throws A := fun p => (inl e, p).
Definition bind {A B : Type} (m : Throws A) (k : A -> Throws B) : Throws B :=
  fun p =>
    match m p with
    | (inl e, p') => (inl e, p')
    | (inr a, p') => k a p'
    end.

Notation "x <- m ;; k" := (bind m (fun x => k))
  (at level 61, m at next level, right associativity).
Notation "m ;;; k" := (bind m (fun _ => k))
  (at level 61, right associativity).

(** The constructors [OpenGL3Renderer()] and [OpenGL3Renderer(display_size)]
    with [OpenGL3Renderer::init], which both run: the renderer object, or the
    exception that aborts its construction. *)
Definition init (display_size : option Sizef.t) : Throws OpenGL3Renderer :=
  fun p =>
    let info := openGLInfo p in
    if isUsingOpenglEs info && (verMajor info <? 2)%Z then
      (inl (RendererException
              "Only version 2 and up of OpenGL ES is supported by this type of renderer."),
       p)
    else
      (inr (mkRenderer
              ((if isUsingDesktopOpengl info
                then "CEGUI::OpenGL3Renderer - Official OpenGL 3.2 core based renderer module."
                else "CEGUI::OpenGL3Renderer - OpenGL ES 2 renderer module.")
               ++ "  TextureTarget support enabled via FBO OGL 3.2 core implementation.")
              display_size Invalid 0 0 0 0 [] []),
       p).

(** Modelled from the spec: [System::create] (System.cpp is absent) installs
    the renderer and the resource provider "into a global System
    singleton". *)
Definition System_create (renderer : OpenGL3Renderer)
    (rp : DefaultResourceProvider) : Throws unit :=
  fun p => (inr tt, mkProcess (Some (mkSystem renderer rp)) (openGLInfo p)).

(** Modelled from the spec: [System::destroy] (System.cpp is absent) tears
    the singleton down. *)
Definition System_destroy : Throws unit :=
  fun p => (inr tt, mkProcess None (openGLInfo p)).

Section WithSystem.

(** The compiled-in ABI version [CEGUI_VERSION_ABI], and the failure that the
    ABI check raises on a mismatch. *)
Variable CEGUI_VERSION_ABI : Z.
Variable versionMismatch : Z -> Z -> Exception.

(** Modelled from the spec: [System::performVersionTest] (System.cpp is
    absent): every entry point performs "an ABI version compatibility check
    against the caller's compiled-in version before doing anything else", and
    "fail[s] fast if mismatched". *)
Definition performVersionTest (expected received : Z) : Throws unit :=
  if (expected =? received)%Z then ret tt
  else throw (versionMismatch expected received).

(** [OpenGL3Renderer::create(const int abi)]. *)
Definition create (abi : Z) : Throws OpenGL3Renderer :=
  performVersionTest CEGUI_VERSION_ABI abi ;;;
  init None.

(** [OpenGL3Renderer::create(const Sizef& display_size, const int abi)]. *)
Definition create_size (display_size : Sizef.t) (abi : Z)
  : Throws OpenGL3Renderer :=
  performVersionTest CEGUI_VERSION_ABI abi ;;;
  init (Some display_size).

(** [OpenGL3Renderer::destroy]: [delete &renderer]. *)
Definition destroy (renderer : OpenGL3Renderer) : Throws unit := ret tt.

(** [OpenGL3Renderer::bootstrapSystem(const int abi)]; the inner [create()]
    is called with its default argument, the compiled-in version. *)
Definition bootstrapSystem (abi : Z) : Throws OpenGL3Renderer :=
  performVersionTest CEGUI_VERSION_ABI abi ;;;
  (fun p =>
     match getSingletonPtr p with
     | Some _ =>
         throw (InvalidRequestException
                  "CEGUI::System object is already initialised.") p
     | None =>
         (renderer <- create CEGUI_VERSION_ABI ;;
          let rp := mkDefaultResourceProvider in
          System_create renderer rp ;;;
          ret renderer) p
     end).

(** [OpenGL3Renderer::bootstrapSystem(const Sizef& display_size,
    const int abi)]. *)
Definition bootstrapSystem_size (display_size : Sizef.t) (abi : Z)
  : Throws OpenGL3Renderer :=
  performVersionTest CEGUI_VERSION_ABI abi ;;;
  (fun p =>
     match getSingletonPtr p with
     | Some _ =>
         throw (InvalidRequestException
                  "CEGUI::System object is already initialised.") p
     | None =>
         (renderer <- create_size display_size CEGUI_VERSION_ABI ;;
          let rp := mkDefaultResourceProvider in
          System_create renderer rp ;;;
          ret renderer) p
     end).

(** [OpenGL3Renderer::destroySystem]. *)
Definition destroySystem : Throws unit :=
  fun p =>
    match getSingletonPtr p with
    | None =>
        throw (InvalidRequestException
                 "CEGUI::System object is not created or was already destroyed.") p
    | Some sys =>
        (let renderer := getRenderer sys in
         System_destroy ;;;
         destroy renderer) p
    end.

End WithSystem.

(** GL contexts for the examples: desktop OpenGL 3, and OpenGL ES 1. *)
Definition desktopGL : OpenGLInfo := mkInfo false true 3.
Definition openGLES1 : OpenGLInfo := mkInfo true false 1.

(** A renderer whose two shared buffers, numbered 1 and 2, are still
    empty. *)
Definition freshRenderer : OpenGL3Renderer :=
  mkRenderer "CEGUI::OpenGL3Renderer" None Invalid 1 0 2 0 [] [].

(** Stand-in for [CEGUI_VERSION_ABI]. *)
Definition sampleABI : Z := 208.

(** Stand-in for the failure of the ABI check. *)
Definition sampleMismatch (_ _ : Z) : Exception :=
  InvalidRequestException "Version mismatch detected!".

(** A vertex component. *)
Definition sampleVertex : float := of_Z 1.

End GL3Renderer.

(** ** include/CEGUI/Window.h: enablement, activation, draw mask *)

Module WindowFlags.

(** A window with the chain of its ancestors, as in [WindowCore], carrying
    the members the accessors below read: [d_enabled], [d_active],
    [d_drawModeMask] (a [std::uint32_t]) and the parent pointer. *)
#[warnings="-register-all"] Inductive Window : Type :=
| mkWindow (d_enabled d_active : bool) (d_drawModeMask : Z)
           (d_parent : option Window).

Definition d_enabled (w : Window) : bool :=
  match w with mkWindow en _ _ _ => en end.

Definition d_active (w : Window) : bool :=
  match w with mkWindow _ ac _ _ => ac end.

Definition d_drawModeMask (w : Window) : Z :=
  match w with mkWindow _ _ m _ => m end.

Definition d_parent (w : Window) : option Window :=
  match w with mkWindow _ _ _ p => p end.

(** [Window::getParent]. *)
Definition getParent (w : Window) : option Window := d_parent w.

(** [Window::isDisabled]. *)
Definition isDisabled (w : Window) : bool := negb (d_enabled w).

(** [Window::isEffectiveDisabled]:
    [!d_enabled || (d_parent && getParent()->isEffectiveDisabled())]. *)
Fixpoint isEffectiveDisabled (w : Window) : bool :=
  match w with
  | mkWindow en _ _ p =>
      negb en || match p with
                 | None => false
                 | Some parent => isEffectiveDisabled parent
                 end
  end.

(** [Window::isActive]:
    [d_active && (!d_parent || getParent()->isActive())]. *)
Fixpoint isActive (w : Window) : bool :=
  match w with
  | mkWindow _ ac _ p =>
      ac && match p with
            | None => true
            | Some parent => isActive parent
            end
  end.

(** [Window::getDrawModeMask]. *)
Definition getDrawModeMask (w : Window) : Z := d_drawModeMask w.

(** [Window::checkIfDrawMaskAllowsDrawing]:
    [(getDrawModeMask() & drawModeMask) != 0]. *)
Definition checkIfDrawMaskAllowsDrawing (w : Window) (drawModeMask : Z) : bool :=
  negb (Z.land (getDrawModeMask w) drawModeMask =? 0).

(** The window itself followed by its ancestors, nearest first. *)
Fixpoint selfAndAncestors (w : Window) : list Window :=
  match w with
  | mkWindow _ _ _ None => [w]
  | mkWindow _ _ _ (Some parent) => w :: selfAndAncestors parent
  end.

(** Induction along the parent chain. *)
Fixpoint Window_chain_ind (P : Window -> Prop)
    (Hroot : forall en ac m, P (mkWindow en ac m None))
    (Hchild : forall en ac m parent,
        P parent -> P (mkWindow en ac m (Some parent)))
    (w : Window) {struct w} : P w :=
  match w with
  | mkWindow en ac m None => Hroot en ac m
  | mkWindow en ac m (Some parent) =>
      Hchild en ac m parent (Window_chain_ind P Hroot Hchild parent)
  end.

(** A dialog that is disabled and inactive, with an enabled, locally active
    button on it; the root is enabled and active. *)
Definition sample_sheet : Window := mkWindow true true 0xFFFFFFFF None.
Definition sample_dialog : Window := mkWindow false false 1 (Some sample_sheet).
Definition sample_ok : Window := mkWindow true true 6 (Some sample_dialog).

End WindowFlags.

(** ** src/widgets/FrameWindow.cpp: roll-up, the four edges, sizing by drag *)

Module FrameWindowState.

Import Float32.
Import FrameWindowM.

(** [FrameWindow::EventNamespace] and the event names. *)
Definition EventNamespace : string := "FrameWindow".
Definition EventRollupToggled : string := "RollupToggled".
Definition EventCloseClicked : string := "CloseClicked".
Definition EventDragSizingStarted : string := "DragSizingStarted".
Definition EventDragSizingEnded : string := "DragSizingEnded".

(** Calls that the functions below make on the [Window] base, which is
    defined in another translation unit; they are recorded in the order in
    which they are made. *)
Inductive WindowCall : Type :=
| invalidate (recursive : bool)
| notifyScreenAreaChanged (adjust_size_to_content forceLayoutChildren : bool)
| fireEvent (name eventNamespace : string).

Definition isFireEvent (name : string) (c : WindowCall) : bool :=
  match c with
  | fireEvent n _ => String.eqb n name
  | _ => false
  end.

(** [d_rolledup = v]. *)
Definition set_rolledup (v : bool) (fw : FrameWindow) : FrameWindow :=
  mkFrameWindow (d_frameEnabled fw) (d_rollupEnabled fw) v
    (d_sizingEnabled fw) (d_beingSized fw) (d_dragMovable fw) (d_borderSize fw)
    (d_dragPoint fw) (d_area fw) (d_pixelSize fw) (d_minSize fw) (d_maxSize fw)
    (d_horizontalAlignment fw) (d_verticalAlignment fw).

(** [d_rollupEnabled = v]. *)
Definition set_rollupEnabled (v : bool) (fw : FrameWindow) : FrameWindow :=
  mkFrameWindow (d_frameEnabled fw) v (d_rolledup fw)
    (d_sizingEnabled fw) (d_beingSized fw) (d_dragMovable fw) (d_borderSize fw)
    (d_dragPoint fw) (d_area fw) (d_pixelSize fw) (d_minSize fw) (d_maxSize fw)
    (d_horizontalAlignment fw) (d_verticalAlignment fw).

(** [d_beingSized = v]. *)
Definition set_beingSized (v : bool) (fw : FrameWindow) : FrameWindow :=
  mkFrameWindow (d_frameEnabled fw) (d_rollupEnabled fw) (d_rolledup fw)
    (d_sizingEnabled fw) v (d_dragMovable fw) (d_borderSize fw)
    (d_dragPoint fw) (d_area fw) (d_pixelSize fw) (d_minSize fw) (d_maxSize fw)
    (d_horizontalAlignment fw) (d_verticalAlignment fw).

(** [d_dragPoint = p]. *)
Definition set_dragPoint (p : vec2.t) (fw : FrameWindow) : FrameWindow :=
  mkFrameWindow (d_frameEnabled fw) (d_rollupEnabled fw) (d_rolledup fw)
    (d_sizingEnabled fw) (d_beingSized fw) (d_dragMovable fw) (d_borderSize fw)
    p (d_area fw) (d_pixelSize fw) (d_minSize fw) (d_maxSize fw)
    (d_horizontalAlignment fw) (d_verticalAlignment fw).

(** The constructor: the flags and the border size it assigns; the members
    of the [Element] base are the ones the base constructor gave. *)
Definition construct (dragPoint : vec2.t) (area : URect.t) (pixelSize : Sizef.t)
    (minSize maxSize : USize.t) (ha : HorizontalAlignment.t)
    (va : VerticalAlignment.t) : FrameWindow :=
  mkFrameWindow true true false true false true DefaultSizingBorderSize
    dragPoint area pixelSize minSize maxSize ha va.

(** Modelled from the spec: [FrameWindow::isRollupEnabled] is declared in
    FrameWindow.h, which is absent; it reports the "rollup-enabled" flag,
    the one [setRollupEnabled] assigns. *)
Definition isRollupEnabled (fw : FrameWindow) : bool := d_rollupEnabled fw.

(** Modelled from the spec: [FrameWindow::isRolledup] is declared in
    FrameWindow.h, which is absent; it reports the "rolled-up" flag, the one
    [toggleRollup] flips. *)
Definition isRolledup (fw : FrameWindow) : bool := d_rolledup fw.

(** [FrameWindow::onRollupToggled]: the calls it makes, for the window as
    it is when the handler runs. *)
Definition onRollupToggled (fw : FrameWindow) : list WindowCall :=
  [ invalidate (negb (d_rolledup fw));
    notifyScreenAreaChanged false false;
    fireEvent EventRollupToggled EventNamespace ].

(** [FrameWindow::toggleRollup]. *)
Definition toggleRollup (fw : FrameWindow) : FrameWindow * list WindowCall :=
  if isRollupEnabled fw then
    let fw := set_rolledup (xorb (d_rolledup fw) true) fw in
    (fw, onRollupToggled fw)
  else (fw, []).

(** [FrameWindow::setRolledup]. *)
Definition setRolledup (val : bool) (fw : FrameWindow)
  : FrameWindow * list WindowCall :=
  if negb (Bool.eqb val (isRolledup fw)) then toggleRollup fw else (fw, []).

(** [FrameWindow::setRollupEnabled]. *)
Definition setRollupEnabled (setting : bool) (fw : FrameWindow)
  : FrameWindow * list WindowCall :=
  let '(fw, calls) :=
    if Bool.eqb setting false && isRolledup fw then toggleRollup fw
    else (fw, []) in
  (set_rollupEnabled setting fw, calls).

(** [FrameWindow::onCloseClicked] and [FrameWindow::closeClickHandler]: the
    handler fires the event and reports the click as handled. *)
Definition onCloseClicked : list WindowCall :=
  [ fireEvent EventCloseClicked EventNamespace ].

Definition closeClickHandler : bool * list WindowCall := (true, onCloseClicked).

(** A call of the roll-up interface, and a client that makes such calls one
    after the other. *)
Inductive RollupCall : Type :=
| call_toggleRollup
| call_setRolledup (val : bool)
| call_setRollupEnabled (setting : bool).

Definition perform (c : RollupCall) (fw : FrameWindow)
  : FrameWindow * list WindowCall :=
  match c with
  | call_toggleRollup => toggleRollup fw
  | call_setRolledup val => setRolledup val fw
  | call_setRollupEnabled setting => setRollupEnabled setting fw
  end.

Fixpoint performAll (cs : list RollupCall) (fw : FrameWindow)
  : FrameWindow * list WindowCall :=
  match cs with
  | [] => (fw, [])
  | c :: cs =>
      let '(fw, calls) := perform c fw in
      let '(fw, more) := performAll cs fw in
      (fw, calls ++ more)
  end.

(** [outArea.d_max.d_x.d_offset -= d]. *)
Definition subMaxXOffset (a : URect.t) (d : float) : URect.t :=
  let mx := URect.d_max a in
  let ux := UVector2.d_x mx in
  URect.mk (URect.d_min a)
    (UVector2.mk (UDim.mk (UDim.d_scale ux) (sub (UDim.d_offset ux) d))
                 (UVector2.d_y mx)).

(** [outArea.d_max.d_y.d_offset += d]. *)
Definition addMaxYOffset (a : URect.t) (d : float) : URect.t :=
  let mx := URect.d_max a in
  let uy := UVector2.d_y mx in
  URect.mk (URect.d_min a)
    (UVector2.mk (UVector2.d_x mx)
                 (UDim.mk (UDim.d_scale uy) (add (UDim.d_offset uy) d))).

(** [outArea.d_max.d_y.d_offset -= d]. *)
Definition subMaxYOffset (a : URect.t) (d : float) : URect.t :=
  let mx := URect.d_max a in
  let uy := UVector2.d_y mx in
  URect.mk (URect.d_min a)
    (UVector2.mk (UVector2.d_x mx)
                 (UDim.mk (UDim.d_scale uy) (sub (UDim.d_offset uy) d))).

(** [outArea.d_min.d_y.d_offset += d]. *)
Definition addMinYOffset (a : URect.t) (d : float) : URect.t :=
  let mn := URect.d_min a in
  let uy := UVector2.d_y mn in
  URect.mk
    (UVector2.mk (UVector2.d_x mn)
                 (UDim.mk (UDim.d_scale uy) (add (UDim.d_offset uy) d)))
    (URect.d_max a).

(** [d_dragPoint.y += d]. *)
Definition addDragPointY (fw : FrameWindow) (d : float) : FrameWindow :=
  mkFrameWindow (d_frameEnabled fw) (d_rollupEnabled fw) (d_rolledup fw)
    (d_sizingEnabled fw) (d_beingSized fw) (d_dragMovable fw) (d_borderSize fw)
    (vec2.mk (vec2.x (d_dragPoint fw)) (add (vec2.y (d_dragPoint fw)) d))
    (d_area fw) (d_pixelSize fw) (d_minSize fw) (d_maxSize fw)
    (d_horizontalAlignment fw) (d_verticalAlignment fw).

Section WithElement.

(** Queries answered by the [Element] base. *)
Variable getRootContainerSize : FrameWindow -> Sizef.t.
Variable getBasePixelSize : FrameWindow -> Sizef.t.

(** [FrameWindow::moveLeftEdge]: the new [outArea]. *)
Definition moveLeftEdge (delta : float) (outArea : URect.t) (fw : FrameWindow)
  : URect.t :=
  let newWidth := sub (Sizef.d_width (d_pixelSize fw)) delta in
  let rootWidth := Sizef.d_width (getRootContainerSize fw) in
  let maxWidth := asAbsolute (USize.d_width (d_maxSize fw)) rootWidth in
  let minWidth := asAbsolute (USize.d_width (d_minSize fw)) rootWidth in
  let newWidth :=
    if neqb maxWidth (of_Z 0) && gtb newWidth maxWidth then maxWidth
    else if ltb newWidth minWidth then minWidth
    else newWidth in
  let unlimitedWidth :=
    asAbsolute (USize.d_width (getSize fw))
               (Sizef.d_width (getBasePixelSize fw)) in
  if eqb unlimitedWidth newWidth then outArea
  else
    let adjustment := sub unlimitedWidth newWidth in
    match d_horizontalAlignment fw with
    | HorizontalAlignment.Right => subMaxXOffset outArea adjustment
    | HorizontalAlignment.Centre =>
        addMinXOffset (subMaxXOffset outArea (mul adjustment half))
                      (mul adjustment half)
    | HorizontalAlignment.Left => addMinXOffset outArea adjustment
    end.

(** [FrameWindow::moveTopEdge]: the new [outArea]. *)
Definition moveTopEdge (delta : float) (outArea : URect.t) (fw : FrameWindow)
  : URect.t :=
  let newHeight := sub (Sizef.d_height (d_pixelSize fw)) delta in
  let rootHeight := Sizef.d_height (getRootContainerSize fw) in
  let maxHeight := asAbsolute (USize.d_height (d_maxSize fw)) rootHeight in
  let minHeight := asAbsolute (USize.d_height (d_minSize fw)) rootHeight in
  let newHeight :=
    if neqb maxHeight (of_Z 0) && gtb newHeight maxHeight then maxHeight
    else if ltb newHeight minHeight then minHeight
    else newHeight in
  let unlimitedHeight :=
    asAbsolute (USize.d_height (getSize fw))
               (Sizef.d_height (getBasePixelSize fw)) in
  if eqb unlimitedHeight newHeight then outArea
  else
    let adjustment := sub unlimitedHeight newHeight in
    match d_verticalAlignment fw with
    | VerticalAlignment.Bottom => subMaxYOffset outArea adjustment
    | VerticalAlignment.Centre =>
        addMinYOffset (subMaxYOffset outArea (mul adjustment half))
                      (mul adjustment half)
    | VerticalAlignment.Top => addMinYOffset outArea adjustment
    end.

(** [FrameWindow::moveBottomEdge]: the new [outArea] and the window with its
    drag point moved. *)
Definition moveBottomEdge (delta : float) (outArea : URect.t) (fw : FrameWindow)
  : URect.t * FrameWindow :=
  let newHeight := add (Sizef.d_height (d_pixelSize fw)) delta in
  let rootHeight := Sizef.d_height (getRootContainerSize fw) in
  let maxHeight := asAbsolute (USize.d_height (d_maxSize fw)) rootHeight in
  let minHeight := asAbsolute (USize.d_height (d_minSize fw)) rootHeight in
  let newHeight :=
    if neqb maxHeight (of_Z 0) && gtb newHeight maxHeight then maxHeight
    else if ltb newHeight minHeight then minHeight
    else newHeight in
  let unlimitedHeight :=
    asAbsolute (USize.d_height (getSize fw))
               (Sizef.d_height (getBasePixelSize fw)) in
  if eqb unlimitedHeight newHeight then (outArea, fw)
  else
    let adjustment := sub newHeight unlimitedHeight in
    let outArea := addMaxYOffset outArea adjustment in
    let outArea :=
      match d_verticalAlignment fw with
      | VerticalAlignment.Bottom =>
          addMinYOffset (addMaxYOffset outArea adjustment) adjustment
      | VerticalAlignment.Centre =>
          addMinYOffset (addMaxYOffset outArea (mul adjustment half))
                        (mul adjustment half)
      | VerticalAlignment.Top => outArea
      end in
    (outArea,
     addDragPointY fw (sub newHeight (Sizef.d_height (d_pixelSize fw)))).

End WithElement.

(** Two areas that differ at most in the pixel offsets of their left and
    right edges: the vertical extent and the relative scales agree. *)
Definition sameButXOffsets (a b : URect.t) : Prop :=
  UVector2.d_y (URect.d_min a) = UVector2.d_y (URect.d_min b) /\
  UVector2.d_y (URect.d_max a) = UVector2.d_y (URect.d_max b) /\
  UDim.d_scale (UVector2.d_x (URect.d_min a))
    = UDim.d_scale (UVector2.d_x (URect.d_min b)) /\
  UDim.d_scale (UVector2.d_x (URect.d_max a))
    = UDim.d_scale (UVector2.d_x (URect.d_max b)).

(** Two areas that differ at most in the pixel offsets of their top and
    bottom edges. *)
Definition sameButYOffsets (a b : URect.t) : Prop :=
  UVector2.d_x (URect.d_min a) = UVector2.d_x (URect.d_min b) /\
  UVector2.d_x (URect.d_max a) = UVector2.d_x (URect.d_max b) /\
  UDim.d_scale (UVector2.d_y (URect.d_min a))
    = UDim.d_scale (UVector2.d_y (URect.d_min b)) /\
  UDim.d_scale (UVector2.d_y (URect.d_max a))
    = UDim.d_scale (UVector2.d_y (URect.d_max b)).

(** The sizing cursors of a frame window, [const Image*] members that the
    constructor sets to [nullptr]; an image is known by its name. *)
Record SizingCursors : Type := mkSizingCursors {
  d_nsSizingCursor : option string;
  d_ewSizingCursor : option string;
  d_nwseSizingCursor : option string;
  d_neswSizingCursor : option string
}.

(** [WindowEventArgs]: [handled] is an [unsigned int] counter. *)
Definition incrWindowHandled (handled : Z) : Z := (handled + 1) mod 2 ^ 32.

(** Which window the GUI context reports under the cursor, as far as
    [onCursorMove] tells them apart. *)
Inductive WindowUnderCursor : Type :=
| ThisWindow | ItsTitlebar | AnotherWindow.

(** The frame window and what it shares with the GUI context: the image of
    the cursor, whether this window holds the input capture, and the calls
    made on the [Window] base so far. *)
Record World : Type := mkWorld {
  frame : FrameWindow;
  cursors : SizingCursors;
  cursorImage : option string;
  capturedByThis : bool;
  calls : list WindowCall
}.

Definition set_frame (fw : FrameWindow) (w : World) : World :=
  mkWorld fw (cursors w) (cursorImage w) (capturedByThis w) (calls w).

Definition set_cursorImage (img : option string) (w : World) : World :=
  mkWorld (frame w) (cursors w) img (capturedByThis w) (calls w).

Definition addCalls (cs : list WindowCall) (w : World) : World :=
  mkWorld (frame w) (cursors w) (cursorImage w) (capturedByThis w)
          (calls w ++ cs).

(** [Window::isCapturedByThis]: [getCaptureWindow() == this]. *)
Definition isCapturedByThis (w : World) : bool := capturedByThis w.

(** [FrameWindow::onDragSizingStarted] and [FrameWindow::onDragSizingEnded]. *)
Definition onDragSizingStarted (w : World) : World :=
  addCalls [fireEvent EventDragSizingStarted EventNamespace] w.

Definition onDragSizingEnded (w : World) : World :=
  addCalls [fireEvent EventDragSizingEnded EventNamespace] w.

(** The cursor events are the ones the title bar receives. *)
Module CursorInputSource := TitlebarM.CursorInputSource.
Abbreviation CursorInputEventArgs := TitlebarM.CursorInputEventArgs.
Abbreviation position := TitlebarM.position.
Abbreviation source := TitlebarM.source.
Abbreviation handled := TitlebarM.handled.
Abbreviation incrHandled := TitlebarM.incrHandled.

Section WithWindow.

(** The [Window] and [Element] bases, the GUI context and the helpers
    defined in other translation units: the base handlers, the window under
    the cursor, [CoordConverter::screenToWindow], [Element::setArea],
    [Window::captureInput], [Window::releaseInput],
    [Window::getActualCursor], the virtual [getSizingRect], and the four
    predicates on sizing locations that FrameWindow.h declares. *)
Variable Window_onCursorMove :
  CursorInputEventArgs -> World -> CursorInputEventArgs * World.
Variable Window_onCursorPressHold :
  CursorInputEventArgs -> World -> CursorInputEventArgs * World.
Variable Window_onCursorActivate :
  CursorInputEventArgs -> World -> CursorInputEventArgs * World.
Variable Window_onCaptureLost : Z -> World -> Z * World.
Variable Window_isHit : World -> vec2.t -> bool.
Variable getWindowContainingCursor : World -> WindowUnderCursor.
Variable screenToWindow : World -> vec2.t -> vec2.t.
Variable setArea : UVector2.t -> USize.t -> bool -> World -> World.
Variable captureInput : World -> bool * World.
Variable releaseInput : World -> World.
Variable getActualCursor : World -> option string.
Variable getSizingRect : FrameWindow -> Rectf.t.
Variable getRootContainerSize : FrameWindow -> Sizef.t.
Variable getBasePixelSize : FrameWindow -> Sizef.t.
Variable isLeftSizingLocation : SizingLocation.t -> bool.
Variable isRightSizingLocation : SizingLocation.t -> bool.
Variable isTopSizingLocation : SizingLocation.t -> bool.
Variable isBottomSizingLocation : SizingLocation.t -> bool.

(** [FrameWindow::setCursorForSizingLocation]. *)
Definition setCursorForSizingLocation (location : SizingLocation.t) (w : World)
  : World :=
  match location with
  | SizingLocation.Top | SizingLocation.Bottom =>
      set_cursorImage (d_nsSizingCursor (cursors w)) w
  | SizingLocation.Left | SizingLocation.Right =>
      set_cursorImage (d_ewSizingCursor (cursors w)) w
  | SizingLocation.TopLeft | SizingLocation.BottomRight =>
      set_cursorImage (d_nwseSizingCursor (cursors w)) w
  | SizingLocation.TopRight | SizingLocation.BottomLeft =>
      set_cursorImage (d_neswSizingCursor (cursors w)) w
  | SizingLocation.Invalid => set_cursorImage (getActualCursor w) w
  end.

(** The branch of [onCursorMove] taken while the window is being sized:
    the edges named by the border zone of the drag point are moved in a
    copy of the area, which is then handed to [setArea]. *)
Definition dragSize (localCursorPos : vec2.t) (w : World)
  : SizingLocation.t * World :=
  let fw := frame w in
  let dragEdge := getSizingBorderAtPoint getSizingRect fw (d_dragPoint fw) in
  let newArea := d_area fw in
  let deltaX := sub (vec2.x localCursorPos) (vec2.x (d_dragPoint fw)) in
  let '(newArea, fw) :=
    if isLeftSizingLocation dragEdge then
      (moveLeftEdge getRootContainerSize getBasePixelSize deltaX newArea fw, fw)
    else if isRightSizingLocation dragEdge then
      moveRightEdge getRootContainerSize getBasePixelSize deltaX newArea fw
    else (newArea, fw) in
  let deltaY := sub (vec2.y localCursorPos) (vec2.y (d_dragPoint fw)) in
  let '(newArea, fw) :=
    if isTopSizingLocation dragEdge then
      (moveTopEdge getRootContainerSize getBasePixelSize deltaY newArea fw, fw)
    else if isBottomSizingLocation dragEdge then
      moveBottomEdge getRootContainerSize getBasePixelSize deltaY newArea fw
    else (newArea, fw) in
  (dragEdge,
   setArea (URect.d_min newArea) (URect.getSize newArea) true (set_frame fw w)).

(** [FrameWindow::onCursorMove]. *)
Definition onCursorMove (e : CursorInputEventArgs) (w : World)
  : CursorInputEventArgs * World :=
  let '(e, w) := Window_onCursorMove e w in
  match getWindowContainingCursor w with
  | AnotherWindow => (e, w)
  | ThisWindow | ItsTitlebar =>
      let w :=
        if isSizingEnabled (frame w) then
          let localCursorPos := screenToWindow w (position e) in
          let '(dragEdge, w) :=
            if d_beingSized (frame w) then dragSize localCursorPos w
            else
              (getSizingBorderAtPoint getSizingRect (frame w) localCursorPos,
               w) in
          setCursorForSizingLocation dragEdge w
        else w in
      (incrHandled e, w)
  end.

(** [FrameWindow::onCursorPressHold]. *)
Definition onCursorPressHold (e : CursorInputEventArgs) (w : World)
  : CursorInputEventArgs * World :=
  let '(e, w) := Window_onCursorPressHold e w in
  if CursorInputSource.eqb (source e) CursorInputSource.Left then
    if isSizingEnabled (frame w) then
      let localPos := screenToWindow w (position e) in
      if negb (SizingLocation.eqb
                 (getSizingBorderAtPoint getSizingRect (frame w) localPos)
                 SizingLocation.Invalid)
      then
        let '(ok, w) := captureInput w in
        if ok then
          let w :=
            set_frame (set_dragPoint localPos (set_beingSized true (frame w)))
                      w in
          (incrHandled e, onDragSizingStarted w)
        else (e, w)
      else (e, w)
    else (e, w)
  else (e, w).

(** [FrameWindow::onCursorActivate]. *)
Definition onCursorActivate (e : CursorInputEventArgs) (w : World)
  : CursorInputEventArgs * World :=
  let '(e, w) := Window_onCursorActivate e w in
  if CursorInputSource.eqb (source e) CursorInputSource.Left
     && isCapturedByThis w
  then (incrHandled e, releaseInput w)
  else (e, w).

(** [FrameWindow::onCaptureLost]; the argument is the [handled] counter of
    the [WindowEventArgs]. *)
Definition onCaptureLost (handled : Z) (w : World) : Z * World :=
  let '(handled, w) := Window_onCaptureLost handled w in
  let w := set_frame (set_beingSized false (frame w)) w in
  let w := onDragSizingEnded w in
  (incrWindowHandled handled, w).

(** [FrameWindow::isHit]. *)
Definition isHit (position : vec2.t) (w : World) : bool :=
  Window_isHit w position && negb (d_rolledup (frame w)).

End WithWindow.

(** A world around the sample frame window: no sizing cursor images, the
    default cursor showing, no capture held, nothing called yet. *)
Definition sampleWorld (fw : FrameWindow) : World :=
  mkWorld fw (mkSizingCursors None None None None) None false [].

(** Stand-in for the base handlers of cursor events: base-class processing
    that changes nothing. *)
Definition baseOnly (e : CursorInputEventArgs) (w : World)
  : CursorInputEventArgs * World := (e, w).

(** Stand-in for [Window::onCaptureLost]: base-class processing that changes
    nothing. *)
Definition baseCaptureLost (handled : Z) (w : World) : Z * World :=
  (handled, w).

(** Stand-in for [Window::captureInput]: the capture always succeeds. *)
Definition captureAlways (w : World) : bool * World :=
  (true, mkWorld (frame w) (cursors w) (cursorImage w) true (calls w)).

(** Stand-in for [getWindowContainingCursor]: the cursor is over this
    window. *)
Definition overThisWindow (_ : World) : WindowUnderCursor := ThisWindow.

(** Stand-in for [Element::setArea]: the frame window takes the area it is
    given. *)
Definition takeArea (pos : UVector2.t) (size : USize.t) (_ : bool) (w : World)
  : World :=
  let fw := frame w in
  let corner (p s : UDim.t) : UDim.t :=
    UDim.mk (add (UDim.d_scale p) (UDim.d_scale s))
            (add (UDim.d_offset p) (UDim.d_offset s)) in
  set_frame
    (mkFrameWindow (d_frameEnabled fw) (d_rollupEnabled fw) (d_rolledup fw)
       (d_sizingEnabled fw) (d_beingSized fw) (d_dragMovable fw)
       (d_borderSize fw) (d_dragPoint fw)
       (URect.mk pos
          (UVector2.mk (corner (UVector2.d_x pos) (USize.d_width size))
                       (corner (UVector2.d_y pos) (USize.d_height size))))
       (d_pixelSize fw) (d_minSize fw) (d_maxSize fw)
       (d_horizontalAlignment fw) (d_verticalAlignment fw))
    w.

(** Stand-in for [Window::getActualCursor]: the window has no cursor image
    of its own. *)
Definition noCursorImage (_ : World) : option string := None.

(** Stand-ins for the predicates on sizing locations: the zones that
    contain the named edge. *)
Definition hasLeftEdge (l : SizingLocation.t) : bool :=
  match l with
  | SizingLocation.Left | SizingLocation.TopLeft | SizingLocation.BottomLeft
      => true
  | _ => false
  end.

Definition hasRightEdge (l : SizingLocation.t) : bool :=
  match l with
  | SizingLocation.Right | SizingLocation.TopRight
  | SizingLocation.BottomRight => true
  | _ => false
  end.

Definition hasTopEdge (l : SizingLocation.t) : bool :=
  match l with
  | SizingLocation.Top | SizingLocation.TopLeft | SizingLocation.TopRight
      => true
  | _ => false
  end.

Definition hasBottomEdge (l : SizingLocation.t) : bool :=
  match l with
  | SizingLocation.Bottom | SizingLocation.BottomLeft
  | SizingLocation.BottomRight => true
  | _ => false
  end.

(** Stand-in for [Window::isHit]: every position hits. *)
Definition hitEverywhere (_ : World) (_ : vec2.t) : bool := true.

End FrameWindowState.

(** ** src/widgets/Titlebar.cpp: the other handlers, and the frame window's
       hold on its title bar *)

Module TitlebarState.

Import Float32.
Import FrameWindowM.
Import TitlebarM.

(** [d_dragging = v]. *)
Definition set_dragging (v : bool) (w : World) : World :=
  let t := titlebar w in
  mkWorld (mkTitlebar v (d_dragEnabled t) (d_dragPoint t) (d_oldCursorArea t)
                      (d_parent t))
          (cursorConstraintArea w) (capturedByThis w).

(** [d_dragEnabled = v]. *)
Definition set_dragEnabled (v : bool) (w : World) : World :=
  let t := titlebar w in
  mkWorld (mkTitlebar (d_dragging t) v (d_dragPoint t) (d_oldCursorArea t)
                      (d_parent t))
          (cursorConstraintArea w) (capturedByThis w).

(** [getGUIContext().getCursor().setConstraintArea(&area)]. *)
Definition setConstraintArea (area : Rectf.t) (w : World) : World :=
  mkWorld (titlebar w) area (capturedByThis w).

(** The frame window that [d_parent] points to is replaced by [fw]. *)
Definition set_parentFrame (fw : FrameWindow) (w : World) : World :=
  let t := titlebar w in
  match d_parent t with
  | Some p =>
      mkWorld (mkTitlebar (d_dragging t) (d_dragEnabled t) (d_dragPoint t)
                 (d_oldCursorArea t)
                 (Some (mkParent (Some fw) (grandParentInnerRectClipper p))))
              (cursorConstraintArea w) (capturedByThis w)
  | None => w
  end.

(** [dynamic_cast<FrameWindow*>(d_parent)]. *)
Definition parentFrame (w : World) : option FrameWindow :=
  match d_parent (titlebar w) with
  | Some p => asFrameWindow p
  | None => None
  end.

(** The constructor: the two flags it assigns. *)
Definition construct (dragPoint : vec2.t) (oldCursorArea : Rectf.t)
    (parent : option ParentElement) : Titlebar :=
  mkTitlebar false true dragPoint oldCursorArea parent.

(** [Titlebar::isDraggingEnabled], [Titlebar::isDragged] and
    [Titlebar::getDragPoint]. *)
Definition isDraggingEnabled (w : World) : bool := d_dragEnabled (titlebar w).
Definition isDragged (w : World) : bool := d_dragging (titlebar w).
Definition getDragPoint (w : World) : vec2.t := d_dragPoint (titlebar w).

(** Modelled from the spec: [UVector2::operator+] is declared in UVector.h,
    which is absent; the cursor delta is "added" to the position, dimension
    by dimension, scale to scale and offset to offset. *)
Definition UVector2_add (a b : UVector2.t) : UVector2.t :=
  let plus (u v : UDim.t) : UDim.t :=
    UDim.mk (add (UDim.d_scale u) (UDim.d_scale v))
            (add (UDim.d_offset u) (UDim.d_offset v)) in
  UVector2.mk (plus (UVector2.d_x a) (UVector2.d_x b))
              (plus (UVector2.d_y a) (UVector2.d_y b)).

(** Modelled from the spec: [cegui_absdim] (UDim.h is absent) makes a
    dimension of an absolute pixel "offset" alone, with no "parent-relative
    scale". *)
Definition cegui_absdim (v : float) : UDim.t := UDim.mk (of_Z 0) v.

(** Modelled from the spec: SemanticInputEvent.h is absent; of the semantic
    values only "select word", the double activation, is told apart from
    the others, which are numbered. *)
Inductive SemanticValue : Type :=
| SelectWord
| OtherSemanticValue (n : nat).

Definition isSelectWord (v : SemanticValue) : bool :=
  match v with SelectWord => true | OtherSemanticValue _ => false end.

(** [SemanticEventArgs]: the semantic value, the source in the payload and
    the [handled] counter. *)
Record SemanticEventArgs : Type := mkSemanticArgs {
  d_semanticValue : SemanticValue;
  payload_source : CursorInputSource.t;
  semanticHandled : Z
}.

(** [++e.handled]. *)
Definition incrSemanticHandled (e : SemanticEventArgs) : SemanticEventArgs :=
  mkSemanticArgs (d_semanticValue e) (payload_source e)
                 ((semanticHandled e + 1) mod 2 ^ 32).

(** The title bar's world together with the [d_enabled] member of its
    [Window] base and the calls that its parent frame window has made on
    its own base. *)
Record Context : Type := mkContext {
  world : World;
  d_enabled : bool;
  frameCalls : list FrameWindowState.WindowCall
}.

(** [Window::isDisabled]. *)
Definition isDisabled (c : Context) : bool := negb (d_enabled c).

Section WithWindow.

(** The [Window] and [Element] bases and the helpers defined in other
    translation units: the base handlers, [Window::releaseInput],
    [Titlebar::onDraggingModeChanged], [CoordConverter::screenToWindow] for
    the title bar, and the frame window's [getPosition] and [setPosition]. *)
Variable Window_onCursorMove :
  CursorInputEventArgs -> World -> CursorInputEventArgs * World.
Variable Window_onCursorActivate :
  CursorInputEventArgs -> World -> CursorInputEventArgs * World.
Variable Window_onSemanticInputEvent :
  SemanticEventArgs -> Context -> SemanticEventArgs * Context.
Variable Window_onCaptureLost : World -> World.
Variable releaseInput : World -> World.
Variable onDraggingModeChanged : World -> World.
Variable screenToWindow : World -> vec2.t -> vec2.t.
Variable getPosition : FrameWindow -> UVector2.t.
Variable setPosition : UVector2.t -> FrameWindow -> FrameWindow.

(** [Titlebar::setDraggingEnabled]. *)
Definition setDraggingEnabled (setting : bool) (w : World) : World :=
  if negb (Bool.eqb (d_dragEnabled (titlebar w)) setting) then
    let w := set_dragEnabled setting w in
    let w :=
      if negb (d_dragEnabled (titlebar w)) && d_dragging (titlebar w)
      then releaseInput w else w in
    onDraggingModeChanged w
  else w.

(** The position that [onCursorMove] asks the frame window to take. *)
Definition draggedPosition (e : CursorInputEventArgs) (w : World)
    (frameWnd : FrameWindow) : UVector2.t :=
  let p := screenToWindow w (position e) in
  let delta :=
    vec2.mk (sub (vec2.x p) (vec2.x (d_dragPoint (titlebar w))))
            (sub (vec2.y p) (vec2.y (d_dragPoint (titlebar w)))) in
  UVector2_add (getPosition frameWnd)
    (UVector2.mk (cegui_absdim (vec2.x delta)) (cegui_absdim (vec2.y delta))).

(** [Titlebar::onCursorMove]. *)
Definition onCursorMove (e : CursorInputEventArgs) (w : World)
  : CursorInputEventArgs * World :=
  let '(e, w) := Window_onCursorMove e w in
  if d_dragging (titlebar w)
     && match d_parent (titlebar w) with Some _ => true | None => false end
  then
    let w :=
      match parentFrame w with
      | Some frameWnd =>
          set_parentFrame
            (setPosition (draggedPosition e w frameWnd) frameWnd) w
      | None => w
      end in
    (incrHandled e, w)
  else (e, w).

(** [Titlebar::onCursorActivate]. *)
Definition onCursorActivate (e : CursorInputEventArgs) (w : World)
  : CursorInputEventArgs * World :=
  let '(e, w) := Window_onCursorActivate e w in
  if CursorInputSource.eqb (source e) CursorInputSource.Left
  then (incrHandled e, releaseInput w)
  else (e, w).

(** [Titlebar::onSemanticInputEvent]. *)
Definition onSemanticInputEvent (e : SemanticEventArgs) (c : Context)
  : SemanticEventArgs * Context :=
  let '(e, c) := Window_onSemanticInputEvent e c in
  if isDisabled c then (e, c)
  else if isSelectWord (d_semanticValue e)
          && CursorInputSource.eqb (payload_source e) CursorInputSource.Left
  then
    let c :=
      match parentFrame (world c) with
      | Some frameWnd =>
          let '(frameWnd, made) := FrameWindowState.toggleRollup frameWnd in
          mkContext (set_parentFrame frameWnd (world c)) (d_enabled c)
                    (frameCalls c ++ made)
      | None => c
      end in
    (incrSemanticHandled e, c)
  else (e, c).

(** [Titlebar::onCaptureLost]. *)
Definition onCaptureLost (w : World) : World :=
  let w := Window_onCaptureLost w in
  let w := set_dragging false w in
  setConstraintArea (d_oldCursorArea (titlebar w)) w.

(** [FrameWindow::setDragMovingEnabled], for the frame window [fw] and the
    world of the title bar that [getTitlebar] returns. *)
Definition setDragMovingEnabled (setting : bool) (fw : FrameWindow) (w : World)
  : FrameWindow * World :=
  if negb (Bool.eqb (d_dragMovable fw) setting) then
    (mkFrameWindow (d_frameEnabled fw) (d_rollupEnabled fw) (d_rolledup fw)
       (d_sizingEnabled fw) (d_beingSized fw) setting (d_borderSize fw)
       (FrameWindowM.d_dragPoint fw) (d_area fw) (d_pixelSize fw)
       (d_minSize fw) (d_maxSize fw)
       (d_horizontalAlignment fw) (d_verticalAlignment fw),
     setDraggingEnabled setting w)
  else (fw, w).

End WithWindow.

(** Stand-in for the handlers and notifications of the base class: nothing
    changes. *)
Definition unchanged (w : World) : World := w.

(** Stand-in for [Window::onSemanticInputEvent]: base-class processing that
    changes nothing. *)
Definition baseSemantic (e : SemanticEventArgs) (c : Context)
  : SemanticEventArgs * Context := (e, c).

(** Stand-in for [Window::releaseInput]: the capture is given up. *)
Definition releaseCapture (w : World) : World :=
  mkWorld (titlebar w) (cursorConstraintArea w) false.

(** Stand-ins for the frame window's [getPosition] and [setPosition]: the
    minimum corner of its area, and the area moved there with its size
    kept. *)
Definition areaPosition (fw : FrameWindow) : UVector2.t :=
  URect.d_min (d_area fw).

Definition moveArea (pos : UVector2.t) (fw : FrameWindow) : FrameWindow :=
  let size := URect.getSize (d_area fw) in
  mkFrameWindow (d_frameEnabled fw) (d_rollupEnabled fw) (d_rolledup fw)
    (d_sizingEnabled fw) (d_beingSized fw) (d_dragMovable fw) (d_borderSize fw)
    (FrameWindowM.d_dragPoint fw)
    (URect.mk pos
       (UVector2_add pos
          (UVector2.mk (USize.d_width size) (USize.d_height size))))
    (d_pixelSize fw) (d_minSize fw) (d_maxSize fw)
    (d_horizontalAlignment fw) (d_verticalAlignment fw).

(** A double activation from the left source, not handled yet. *)
Definition doubleActivation : SemanticEventArgs :=
  mkSemanticArgs SelectWord CursorInputSource.Left 0.

(** The enabled title bar of the sample frame window. *)
Definition framedContext : Context := mkContext framedWorld true [].

End TitlebarState.

(** ** samples/Inventory/InventoryItem.cpp: the layout of an item and its
       hit test *)

Module InventoryLayout.

Import Float32.
Import FrameWindowM.
Import Inventory.

(** The list [l] with its element number [n] replaced by [v]. *)
Fixpoint setNth (n : nat) (v : bool) (l : list bool) : list bool :=
  match l, n with
  | [], _ => []
  | _ :: l, O => v :: l
  | b :: l, S n => b :: setNth n v l
  end.

(** Modelled from the spec: [setElementAtLocation] (InventoryBase.h is
    absent) stores a value in the cell in column [x] of row [y] of the
    "width x height boolean occupancy grid"; the loop below only names
    cells inside the grid. *)
Definition setElementAtLocation (g : BoolArray2D) (x y : Z) (value : bool)
  : BoolArray2D :=
  if (0 <=? x) && (x <? width g) && (0 <=? y) && (y <? height g)
  then mkGrid (width g) (height g)
              (setNth (Z.to_nat (y * width g + x)) value (d_cells g))
  else g.

(** [d_content = g]. *)
Definition set_content (g : BoolArray2D) (it : InventoryItem) : InventoryItem :=
  mkItem (d_validDropTarget it) (d_receiverLocationX it)
    (d_receiverLocationY it) g (d_dragging it) (d_dropTarget it)
    (userStringBlockImage it) (d_needsRedraw it).

(** The body of the inner loop of [setItemLayout]:
    [d_content.setElementAtLocation(x, y, *layout++)]; the state is the grid
    and what the pointer [layout] still has in front of it. *)
Definition storeNext (y x : Z) (st : BoolArray2D * list bool)
  : BoolArray2D * list bool :=
  (setElementAtLocation (fst st) x y (hd false (snd st)), tl (snd st)).

(** [InventoryItem::setItemLayout]: row after row, and in each row column
    after column, the next value of [layout] is stored. *)
Definition setItemLayout (layout : list bool) (it : InventoryItem)
  : InventoryItem :=
  let rows (st : BoolArray2D * list bool) (y : Z) :=
    fold_left (fun st x => storeNext y x st) (upto (width (fst st))) st in
  set_content
    (fst (fold_left rows (upto (height (d_content it)))
                    (d_content it, layout)))
    it.

(** [InventoryItem::locationOnReceiverX] and
    [InventoryItem::locationOnReceiverY]. *)
Definition locationOnReceiverX (it : InventoryItem) : Z :=
  d_receiverLocationX it.
Definition locationOnReceiverY (it : InventoryItem) : Z :=
  d_receiverLocationY it.

Section WithBases.

(** Defined in other translation units: [DragContainer::isHit] and the two
    grid queries of [InventoryBase] for the item itself. *)
Variable DragContainer_isHit : InventoryItem -> vec2.t -> bool -> bool.
Variable itemGridXLocationFromPixelPosition : InventoryItem -> float -> Z.
Variable itemGridYLocationFromPixelPosition : InventoryItem -> float -> Z.

(** [InventoryItem::isHit]. *)
Definition isHit (it : InventoryItem) (position : vec2.t)
    (allow_disabled : bool) : bool :=
  if negb (DragContainer_isHit it position allow_disabled) then false
  else
    let gx := itemGridXLocationFromPixelPosition it (vec2.x position) in
    let gy := itemGridYLocationFromPixelPosition it (vec2.y position) in
    if (gx <? 0) || (gx >=? width (d_content it))
       || (gy <? 0) || (gy >=? height (d_content it))
    then false
    else elementAtLocation (d_content it) gx gy.

End WithBases.

(** A grid is well formed when it has one cell for each location. *)
Definition wellFormed (g : BoolArray2D) : Prop :=
  0 <= width g /\ 0 <= height g /\
  Z.of_nat (List.length (d_cells g)) = width g * height g.

(** The number of solid cells of a grid. *)
Definition solidCells (g : BoolArray2D) : nat :=
  List.length (filter (fun b : bool => b) (d_cells g)).

(** An item shaped like an L in a 2 x 3 grid, and the layout it is given. *)
Definition layoutL : list bool := [true; false; true; false; true; true].

Definition emptyItem2x3 : InventoryItem :=
  newItem (mkGrid 2 3 [false; false; false; false; false; false]).

(** Stand-in for [DragContainer::isHit]: every position hits. *)
Definition hitAnywhere (_ : InventoryItem) (_ : vec2.t) (_ : bool) : bool :=
  true.

(** Stand-in for the grid queries of the item: an item at the origin with
    cells of 32 pixels. *)
Definition itemGrid32 (_ : InventoryItem) (pixel_location : float) : Z :=
  gridLocation 32 pixel_location.

End InventoryLayout.

(** ** src/RendererModules/OpenGL/GL3Renderer.cpp: the frame around the
       rendering, and where the geometry lands in the shared buffers *)

Module GL3RendererFrame.

Import Float32.
Import FrameWindowM.
Import GL3Renderer.

(** The capabilities that the renderer switches on and off. *)
Inductive Capability : Type :=
| GL_SCISSOR_TEST | GL_BLEND | GL_CULL_FACE | GL_DEPTH_TEST.

Definition Capability_eqb (a b : Capability) : bool :=
  match a, b with
  | GL_SCISSOR_TEST, GL_SCISSOR_TEST | GL_BLEND, GL_BLEND
  | GL_CULL_FACE, GL_CULL_FACE | GL_DEPTH_TEST, GL_DEPTH_TEST => true
  | _, _ => false
  end.

(** What [beginRendering] and [endRendering] ask of OpenGL, in the order
    they ask; all but [glPolygonMode] go through the state-change wrapper.
    [blend] carries the calls of [setupRenderingBlendMode]. *)
Inductive FrameCall : Type :=
| StateChanger_reset
| StateChanger_enable (cap : Capability)
| StateChanger_disable (cap : Capability)
| StateChanger_activeTexture (texture_position : Z)
| StateChanger_bindTexture_2D (texture : GLuint)
| glPolygonMode_FRONT_AND_BACK_FILL
| StateChanger_useProgram (program : GLuint)
| StateChanger_bindVertexArray (vertexArray : GLuint)
| StateChanger_bindBuffer_ELEMENT_ARRAY (buffer : GLuint)
| blend (c : GLCall).

(** The renderer with the member [d_isStateResettingEnabled] of its base
    [OpenGLRendererBase]. *)
Record FrameRenderer : Type := mkFrameRenderer {
  renderer : OpenGL3Renderer;
  d_isStateResettingEnabled : bool
}.

Section WithOpenGLInfo.

(** Two queries of the [OpenGLInfo] singleton, which is defined in another
    translation unit. *)
Variable isPolygonModeSupported : bool.
Variable isVaoSupported : bool.

(** [OpenGL3Renderer::restoreChangedStatesToDefaults]. *)
Definition restoreChangedStatesToDefaults (isAfterRendering : bool)
  : list FrameCall :=
  [StateChanger_activeTexture 0; StateChanger_bindTexture_2D 0]
  ++ (if isPolygonModeSupported then [glPolygonMode_FRONT_AND_BACK_FILL]
      else [])
  ++ [StateChanger_disable GL_CULL_FACE; StateChanger_disable GL_DEPTH_TEST]
  ++ (if isAfterRendering
      then [StateChanger_disable GL_BLEND;
            StateChanger_disable GL_SCISSOR_TEST]
      else [])
  ++ [blend (StateChanger_blendFunc GL_ONE GL_ZERO);
      StateChanger_useProgram 0]
  ++ (if isVaoSupported then [StateChanger_bindVertexArray 0] else [])
  ++ [StateChanger_bindBuffer_ELEMENT_ARRAY 0;
      blend (StateChanger_bindBuffer GL_ARRAY_BUFFER 0)].

(** [OpenGL3Renderer::beginRendering]: the renderer afterwards and the calls
    made. *)
Definition beginRendering (r : FrameRenderer)
  : FrameRenderer * list FrameCall :=
  let resetCalls :=
    if d_isStateResettingEnabled r then restoreChangedStatesToDefaults false
    else [] in
  let '(r', blendCalls) := setupRenderingBlendMode Normal true (renderer r) in
  (mkFrameRenderer r' (d_isStateResettingEnabled r),
   [StateChanger_reset] ++ resetCalls
   ++ [StateChanger_enable GL_SCISSOR_TEST; StateChanger_enable GL_BLEND]
   ++ map blend blendCalls).

(** [OpenGL3Renderer::endRendering]: the calls made. *)
Definition endRendering (r : FrameRenderer) : list FrameCall :=
  (if d_isStateResettingEnabled r then restoreChangedStatesToDefaults true
   else [])
  ++ [StateChanger_bindVertexArray 0].

End WithOpenGLInfo.

(** Whether a capability is enabled in OpenGL after a sequence of calls,
    given whether it was before: the last [enable] or [disable] of it
    decides. *)
Definition enabledAfter (cap : Capability) (calls : list FrameCall)
    (before : bool) : bool :=
  fold_left
    (fun on c =>
       match c with
       | StateChanger_enable cap' => if Capability_eqb cap cap' then true else on
       | StateChanger_disable cap' =>
           if Capability_eqb cap cap' then false else on
       | _ => on
       end)
    calls before.

(** The blend function in force in OpenGL after a sequence of calls, given
    the one before: the last [blendFunc] or [blendFuncSeparate] decides. *)
Definition blendFunctionAfter (calls : list FrameCall) (before : GLCall)
  : GLCall :=
  fold_left
    (fun f c =>
       match c with
       | blend (StateChanger_blendFunc s d) => StateChanger_blendFunc s d
       | blend (StateChanger_blendFuncSeparate s d sa da) =>
           StateChanger_blendFuncSeparate s d sa da
       | _ => f
       end)
    calls before.

(** The blend function that [setupRenderingBlendMode] selects for
    [BlendMode::Normal]. *)
Definition normalBlendFunction : GLCall :=
  StateChanger_blendFuncSeparate GL_SRC_ALPHA GL_ONE_MINUS_SRC_ALPHA
    GL_ONE_MINUS_DST_ALPHA GL_ONE.

(** The [count] vertex components found at vertex number [position] of a
    shared buffer: what a geometry buffer draws from its recorded
    position. *)
Definition verticesAt (shared : list float) (position element_count : Z)
    (count : nat) : list float :=
  firstn count (skipn (Z.to_nat (position * element_count)) shared).

(** The shared buffer that a geometry buffer's vertices go to: the
    textured one for 9 components a vertex, the solid one otherwise. *)
Definition destinationOf (buffer : OpenGL3GeometryBuffer)
    (solid textured : list float) : list float :=
  if (getVertexAttributeElementCount buffer =? 9)%Z then textured else solid.

(** A geometry buffer holds whole vertices, of 9 components when it is
    textured and of [solidCount] components when it is not. *)
Definition wholeVertices (solidCount : Z) (buffer : OpenGL3GeometryBuffer)
  : Prop :=
  0 < solidCount /\
  (getVertexAttributeElementCount buffer = solidCount
   \/ getVertexAttributeElementCount buffer = 9) /\
  (Z.of_nat (List.length (getVertexData buffer))
     mod getVertexAttributeElementCount buffer = 0).

(** A geometry buffer for which the division of [addGeometry] has a value:
    it holds no data, or its vertices have at least one component. *)
Definition positiveElementCount (buffer : OpenGL3GeometryBuffer) : Prop :=
  getVertexData buffer = [] \/ 0 < getVertexAttributeElementCount buffer.

(** Is the geometry buffer a textured one? *)
Definition isTextured (buffer : OpenGL3GeometryBuffer) : bool :=
  (getVertexAttributeElementCount buffer =? 9)%Z.

(** A renderer with state resetting switched on, as its base class makes
    it. *)
Definition resettingRenderer : FrameRenderer :=
  mkFrameRenderer freshRenderer true.

(** Three geometry buffers: three solid vertices, three textured ones, one
    more solid one. *)
Definition sampleBuffers : list OpenGL3GeometryBuffer :=
  [mkBuffer (repeat sampleVertex 21) 7 0;
   mkBuffer (repeat (of_Z 2) 27) 9 0;
   mkBuffer (repeat (of_Z 3) 7) 7 0].

End GL3RendererFrame.

(** ** src/BoundSlot.cpp *)

Module BoundSlotM.

(** The members of [BoundSlot]: the group, the copy of the subscriber that
    the constructor allocates, and the event the slot is connected to,
    [None] once it is disconnected.  Subscribers and events, defined in
    other translation units, are known by a name. *)
Record BoundSlot : Type := mkBoundSlot {
  d_group : Z;
  d_subscriber : string;
  d_event : option string
}.

(** What a slot does to others: it asks its event to [unsubscribe] it,
    and it deletes its subscriber. *)
Inductive SlotCall : Type :=
| Event_unsubscribe (event : string) (group : Z) (subscriber : string)
| delete_subscriber (subscriber : string).

Definition isUnsubscribe (c : SlotCall) : bool :=
  match c with Event_unsubscribe _ _ _ => true | _ => false end.

(** [BoundSlot::BoundSlot]. *)
Definition construct (group : Z) (subscriber : string) (event : string)
  : BoundSlot :=
  mkBoundSlot group subscriber (Some event).

(** [BoundSlot::disconnect]: the slot afterwards and the calls made. *)
Definition disconnect (s : BoundSlot) : BoundSlot * list SlotCall :=
  match d_event s with
  | Some event =>
      (mkBoundSlot (d_group s) (d_subscriber s) None,
       [Event_unsubscribe event (d_group s) (d_subscriber s)])
  | None => (s, [])
  end.

(** [BoundSlot::~BoundSlot]: the calls made. *)
Definition destructor (s : BoundSlot) : list SlotCall :=
  let '(s, calls) := disconnect s in
  calls ++ [delete_subscriber (d_subscriber s)].

(** [disconnect] called [n] times in a row. *)
Fixpoint disconnectTimes (n : nat) (s : BoundSlot)
  : BoundSlot * list SlotCall :=
  match n with
  | O => (s, [])
  | S n =>
      let '(s, calls) := disconnect s in
      let '(s, more) := disconnectTimes n s in
      (s, calls ++ more)
  end.

End BoundSlotM.

(** ** samples/Widgets/Widgets.cpp: the log of fired events, widget type
       names, and the cache of created widgets *)

Module WidgetsSample.

(** A [CEGUI::String] is the sequence of its characters. *)
Definition String : Type := list ascii.

(** A string literal. *)
Definition lit (s : string) : String := list_ascii_of_string s.

Definition String_eqb (a b : String) : bool :=
  if list_eq_dec Ascii.ascii_dec a b then true else false.

(** [String::npos]: the largest value of [size_type], an unsigned 64-bit
    integer. *)
Definition npos : Z := 2 ^ 64 - 1.

(** Arithmetic in [size_type], and the conversion of an [int] to it. *)
Definition size_type_of (z : Z) : Z := z mod 2 ^ 64.

(** [static_cast<int>] of a [size_type], and its implicit conversion to
    [int]: the low 32 bits, read as a signed number. *)
Definition int_of (z : Z) : Z := (z + 2 ^ 31) mod 2 ^ 32 - 2 ^ 31.

(** Modelled from the spec: [String::length] and [String::substr]
    (String.h is absent) have the meaning they have for the standard
    string that "text content" is kept in: [substr(pos, n)] is the part
    that starts at [pos] and has [n] characters, fewer when the string ends
    before; a [pos] beyond the end is an error ([None]). *)
Definition length (s : String) : Z := Z.of_nat (List.length s).

Definition substr (s : String) (pos n : Z) : option String :=
  if pos >? length s then None
  else Some (firstn (Z.to_nat (Z.min n (length s - pos)))
                    (skipn (Z.to_nat pos) s)).

(** Modelled from the spec: [String::find_first_of] (String.h is absent)
    for a single character, with the standard meaning: the position of its
    first occurrence, [npos] when there is none ("parsed from the
    Skin/WidgetType ... naming convention", "trimmed at a line
    boundary"). *)
Fixpoint find_from (s : String) (c : ascii) (at_ : Z) : Z :=
  match s with
  | [] => npos
  | a :: s => if Ascii.eqb a c then at_ else find_from s c (at_ + 1)
  end.

Definition find_first_of (s : String) (c : ascii) : Z := find_from s c 0.

(** The newline and the slash. *)
Definition newline : ascii := ascii_of_nat 10.
Definition slash : ascii := ascii_of_nat 47.

(** The part of [logFiredEvent] between [getText] and [setText]: the
    message is appended, the last 2056 characters are kept, and when that
    many were there, what comes before the first line break among them is
    dropped.  [None] is an exception thrown by [substr]. *)
Definition appendToLog (eventsLog logMessage : String) : option String :=
  let eventsLog := eventsLog ++ logMessage in
  let pos := Z.max (int_of (size_type_of (length eventsLog - 2056))) 0 in
  let len := Z.min (int_of (length eventsLog)) 2056 in
  match substr eventsLog (size_type_of pos) (size_type_of len) with
  | None => None
  | Some eventsLog =>
      if len =? 2056 then
        let newlinePos := find_first_of eventsLog newline in
        if negb (newlinePos =? npos) then substr eventsLog newlinePos npos
        else Some eventsLog
      else Some eventsLog
  end.

(** What the sample shows of fired events: the text of the events log and
    the two indicator lights.  [itemSelected] tells whether the selector
    list has a selected item. *)
Record EventDisplay : Type := mkEventDisplay {
  eventsLogText : String;
  lightCursorMove : bool;
  lightUpdated : bool;
  itemSelected : bool
}.

(** [WidgetsSample::logFiredEvent]; the scrolling to the end is not
    modelled. *)
Definition logFiredEvent (logMessage : String) (d : EventDisplay)
  : option EventDisplay :=
  if negb (itemSelected d) then Some d
  else
    match appendToLog (eventsLogText d) logMessage with
    | None => None
    | Some text =>
        Some (mkEventDisplay text (lightCursorMove d) (lightUpdated d)
                             (itemSelected d))
    end.

(** [WidgetsSample::handleRenderingEnded]: both lights go off. *)
Definition handleRenderingEnded (d : EventDisplay) : bool * EventDisplay :=
  (true, mkEventDisplay (eventsLogText d) false false (itemSelected d)).

(** The classes of event arguments that [handleEvent] tells apart, in the
    order of its casts; an object of a class derived from one of them counts
    as the first that matches. *)
Inductive EventArgsKind : Type :=
| CursorInputEventArgs
| CursorEventArgs
| TextEventArgs (d_character : ascii)
| WindowEventArgs
| ActivationEventArgs
| DragDropEventArgs
| OtherEventArgs.

(** The text that [handleEvent] puts between the brackets. *)
Definition describe (args : EventArgsKind) : String :=
  match args with
  | CursorInputEventArgs => lit "CursorInputEvent"
  | CursorEventArgs => lit "CursorEvent"
  | TextEventArgs c => lit "TextEvent: '" ++ [c] ++ lit "'"
  | WindowEventArgs => lit "WindowEvent"
  | ActivationEventArgs => lit "ActivationEvent"
  | DragDropEventArgs => lit "DragDropEvent"
  | OtherEventArgs => []
  end.

(** The message that [EventHandlerObject::handleEvent] builds. *)
Definition logMessageOf (d_eventName : String) (args : EventArgsKind) : String :=
  lit "[colour='FFFFBBBB']" ++ d_eventName ++ lit "[colour='FFFFFFFF']"
  ++ lit " (" ++ describe args ++ lit ")" ++ [newline].

Section WithWindow.

(** [Window::EventCursorMove] and [Window::EventUpdated], which are defined
    in another translation unit. *)
Variable EventCursorMove : String.
Variable EventUpdated : String.

(** [WidgetsSample::handleWidgetEventFired]. *)
Definition handleWidgetEventFired (eventName logMessage : String)
    (d : EventDisplay) : option EventDisplay :=
  if String_eqb eventName EventCursorMove then
    Some (mkEventDisplay (eventsLogText d) true (lightUpdated d)
                         (itemSelected d))
  else if String_eqb eventName EventUpdated then
    Some (mkEventDisplay (eventsLogText d) (lightCursorMove d) true
                         (itemSelected d))
  else logFiredEvent logMessage d.

(** [EventHandlerObject::handleEvent]: the handler's result and the
    display afterwards. *)
Definition handleEvent (d_eventName : String) (args : EventArgsKind)
    (d : EventDisplay) : option (bool * EventDisplay) :=
  match handleWidgetEventFired d_eventName (logMessageOf d_eventName args) d
  with
  | None => None
  | Some d => Some (false, d)
  end.

End WithWindow.

(** The three statements of [initialiseAvailableWidgetsMap] that take a
    mapped window type apart: the group before the first slash and the name
    after it.  [None] is an exception thrown by [substr]. *)
Definition splitWindowType (falagardBaseType : String)
  : option (String * String) :=
  let slashPos := int_of (find_first_of falagardBaseType slash) in
  match substr falagardBaseType 0 (size_type_of slashPos) with
  | None => None
  | Some group =>
      match substr falagardBaseType (size_type_of (slashPos + 1))
                   (size_type_of (length falagardBaseType - 1)) with
      | None => None
      | Some name => Some (group, name)
      end
  end.

(** The first statements of [initMenubar]: the skin is what stands before
    the first slash of the menu bar's type. *)
Definition skinOfType (type : String) : option String :=
  substr type 0 (find_first_of type slash).

(** [WidgetsSample::getWidgetType]: the arguments are the texts of the
    selected items of the skin selector and of the widget selector, [None]
    where nothing is selected, and what the two reference parameters hold
    when the function is called; the result is the return value and what
    they hold afterwards. *)
Definition getWidgetType (skin_item widget_item : option String)
    (widgetName widgetTypeString : String) : bool * String * String :=
  match skin_item, widget_item with
  | Some skin, Some widget =>
      let widgetName := widget in
      let widgetTypeString :=
        if negb (String_eqb skin (lit "No Skin")) then skin ++ lit "/"
        else widgetTypeString in
      (true, widgetName, widgetTypeString ++ widgetName)
  | _, _ => (false, widgetName, widgetTypeString)
  end.

(** The windows created so far, by type: [d_widgetsMap]. *)
Definition WidgetsMap (Window : Type) : Type := list (String * Window).

Fixpoint findWidget {Window : Type} (m : WidgetsMap Window) (key : String)
  : option Window :=
  match m with
  | [] => None
  | (k, w) :: m => if String_eqb k key then Some w else findWidget m key
  end.

Section WithWindowManager.

(** The windows, the rest of the sample's state, and [createWidget], which
    creates a window for a type and a name and does to the state what that
    takes. *)
Variable Window : Type.
Variable Rest : Type.
Variable createWidget : String -> String -> Rest -> Window * Rest.

(** [WidgetsSample::retrieveOrCreateWidgetWindow]. *)
Definition retrieveOrCreateWidgetWindow (widgetTypeString widgetName : String)
    (m : WidgetsMap Window) (rest : Rest)
  : Window * WidgetsMap Window * Rest :=
  match findWidget m widgetTypeString with
  | Some w => (w, m, rest)
  | None =>
      let '(w, rest) := createWidget widgetTypeString widgetName rest in
      (w, (widgetTypeString, w) :: m, rest)
  end.

End WithWindowManager.

(** Stand-ins for the two event names. *)
Definition sampleCursorMove : String := lit "CursorMove".
Definition sampleUpdated : String := lit "Updated".

(** A display with an empty log, a selected item and both lights off. *)
Definition emptyDisplay : EventDisplay := mkEventDisplay [] false false true.

(** Stand-in for [createWidget]: the window is known by its type, and the
    state counts the windows created. *)
Definition countingCreate (widgetMapping _ : String) (created : nat)
  : String * nat := (widgetMapping, S created).

End WidgetsSample.

(* ===================================================================== *)
(** * Part II: the properties                                             *)
(* ===================================================================== *)

(** ** include/CEGUI/Window.h *)

Module WindowCoreProperties.

Import WindowCore.
Local Open Scope string_scope.

Lemma isEffectiveVisible_unfold (w : Window) :
  isEffectiveVisible w =
    isVisible w && match getParent w with
                   | None => true
                   | Some parent => isEffectiveVisible parent
                   end.
Proof. destruct w as [v p]. reflexivity. Qed.

Lemma isEffectiveVisible_chain (w : Window) :
  isEffectiveVisible w = forallb isVisible (selfAndAncestors w).
Proof.
  induction w as [v | v parent IH] using Window_parent_ind.
  - reflexivity.
  - change (v && isEffectiveVisible parent =
            v && forallb isVisible (selfAndAncestors parent))%bool.
    now rewrite IH.
Qed.

(** A hidden ancestor hides the window, whatever its own flag says. *)
Lemma hidden_ancestor_hides (w a : Window) :
  In a (selfAndAncestors w) -> isVisible a = false ->
  isEffectiveVisible w = false.
Proof.
  intros Hin Hhid. rewrite isEffectiveVisible_chain.
  destruct (forallb isVisible (selfAndAncestors w)) eqn:E; [| reflexivity].
  rewrite forallb_forall in E. rewrite (E a Hin) in Hhid. discriminate.
Qed.

(** C1.  For every window, [isEffectiveVisible] is the conjunction of the
    window's own visible flag with [isEffectiveVisible] of its parent; for a
    root window (no parent) it is exactly the window's own flag.  Unfolded
    along the whole chain: the local flag AND every ancestor's local flag. *)
Theorem C1_isEffectiveVisible_and_of_parent :
  (forall w parent, getParent w = Some parent ->
      isEffectiveVisible w = isVisible w && isEffectiveVisible parent) /\
  (forall w, getParent w = None -> isEffectiveVisible w = isVisible w) /\
  (forall w, isEffectiveVisible w = forallb isVisible (selfAndAncestors w)).
Proof.
  split; [| split].
  - intros w parent Hp. rewrite isEffectiveVisible_unfold, Hp. reflexivity.
  - intros w Hp. rewrite isEffectiveVisible_unfold, Hp.
    apply andb_true_r.
  - exact isEffectiveVisible_chain.
Qed.

(** The visible button of a hidden panel is not effectively visible. *)
Lemma C1_witness :
  isEffectiveVisible sample_root = true /\
  isEffectiveVisible sample_panel = false /\
  isEffectiveVisible sample_button = false.
Proof.
  destruct C1_isEffectiveVisible_and_of_parent as [Hchild [Hroot _]].
  rewrite (Hchild sample_button sample_panel eq_refl).
  rewrite (Hchild sample_panel sample_root eq_refl).
  rewrite (Hroot sample_root eq_refl).
  repeat split.
Defined.

Lemma fromString_other (s : string) :
  s <> "Always" -> s <> "Never" -> fromString s = Visible.
Proof.
  intros HA HN. unfold fromString.
  destruct (String.eqb_spec s "Always") as [E | _]; [contradiction |].
  destruct (String.eqb_spec s "Never") as [E | _]; [contradiction |].
  reflexivity.
Qed.

Lemma fromString_toString (m : WindowUpdateMode) : fromString (toString m) = m.
Proof. destruct m; reflexivity. Qed.

(** C4.  [fromString] maps the three literals to their enumerators and every
    other string, "garbage" included, to [Visible]; [toString] gives back
    exactly the literal; so [toString (fromString s) = s] on the three
    literals. *)
Theorem C4_WindowUpdateMode_roundtrip :
  fromString "Always" = Always /\
  fromString "Never" = Never /\
  fromString "Visible" = Visible /\
  fromString "garbage" = Visible /\
  (forall s, s <> "Always" -> s <> "Never" -> fromString s = Visible) /\
  toString Always = "Always" /\
  toString Never = "Never" /\
  toString Visible = "Visible" /\
  (forall s, s = "Always" \/ s = "Never" \/ s = "Visible" ->
             toString (fromString s) = s) /\
  (forall m, fromString (toString m) = m).
Proof.
  repeat split; try reflexivity.
  - exact fromString_other.
  - intros s [-> | [-> | ->]]; reflexivity.
  - exact fromString_toString.
Qed.

(** The comparison is case-sensitive: a literal in the wrong case falls back
    to [Visible]. *)
Lemma C4_witness :
  fromString "always" = Visible /\ toString (fromString "Never") = "Never".
Proof.
  destruct C4_WindowUpdateMode_roundtrip
    as (_ & _ & _ & _ & Hother & _ & _ & _ & Hrt & _).
  split.
  - apply Hother; discriminate.
  - apply Hrt. right; left; reflexivity.
Defined.

End WindowCoreProperties.

(** ** src/widgets/FrameWindow.cpp *)

Module FrameWindowProperties.

Import Float32.
Import FrameWindowM.

Section WithElement.

Variable getSizingRect : FrameWindow -> Rectf.t.
Variable getRootContainerSize : FrameWindow -> Sizef.t.
Variable getBasePixelSize : FrameWindow -> Sizef.t.

Lemma getSizingBorderAtPoint_disabled (fw : FrameWindow) (pt : vec2.t) :
  isSizingEnabled fw && isFrameEnabled fw = false ->
  getSizingBorderAtPoint getSizingRect fw pt = SizingLocation.Invalid.
Proof. intros H. unfold getSizingBorderAtPoint. rewrite H. reflexivity. Qed.

Lemma getSizingBorderAtPoint_outside (fw : FrameWindow) (pt : vec2.t) :
  isPointInRectf (getSizingRect fw) pt = false ->
  getSizingBorderAtPoint getSizingRect fw pt = SizingLocation.Invalid.
Proof.
  intros Hout. unfold getSizingBorderAtPoint. rewrite Hout.
  destruct (isSizingEnabled fw && isFrameEnabled fw)%bool; reflexivity.
Qed.

Lemma getSizingBorderAtPoint_inner (fw : FrameWindow) (pt : vec2.t) :
  isPointInRectf (innerSizingRect getSizingRect fw) pt = true ->
  getSizingBorderAtPoint getSizingRect fw pt = SizingLocation.Invalid.
Proof.
  intros Hin. unfold getSizingBorderAtPoint.
  destruct (isSizingEnabled fw && isFrameEnabled fw)%bool; [| reflexivity].
  destruct (isPointInRectf (getSizingRect fw) pt); [| reflexivity].
  cbv zeta. unfold isPointInRectf, innerSizingRect in Hin.
  cbn [Rectf.d_min Rectf.d_max vec2.x vec2.y] in Hin.
  unfold gtb, leb in Hin. unfold ltb, geb.
  destruct (SFltb (vec2.x pt) _); [discriminate |].
  destruct (SFleb _ (vec2.x pt)); [discriminate |].
  destruct (SFltb (vec2.y pt) _); [discriminate |].
  destruct (SFleb _ (vec2.y pt)); [discriminate |].
  reflexivity.
Qed.

Lemma getSizingBorderAtPoint_priority (fw : FrameWindow) (pt : vec2.t) :
  isSizingEnabled fw = true -> isFrameEnabled fw = true ->
  isPointInRectf (getSizingRect fw) pt = true ->
  getSizingBorderAtPoint getSizingRect fw pt =
    firstZone (zonesByPriority
                 (onTop getSizingRect fw pt) (onBottom getSizingRect fw pt)
                 (onLeft getSizingRect fw pt) (onRight getSizingRect fw pt)).
Proof.
  intros Hs Hf Hin. unfold getSizingBorderAtPoint. rewrite Hs, Hf, Hin.
  cbv zeta. unfold onTop, onBottom, onLeft, onRight, innerSizingRect.
  cbn [Rectf.d_min Rectf.d_max vec2.x vec2.y andb].
  set (t := ltb _ _). set (b := geb _ _). set (l := ltb _ _). set (r := geb _ _).
  destruct t, b, l, r; reflexivity.
Qed.

(** A corner wins over the edges it is made of, and top/left over the other
    corners, also on a window so small that opposite borders overlap. *)
Lemma getSizingBorderAtPoint_top_left_first (fw : FrameWindow) (pt : vec2.t) :
  isSizingEnabled fw = true -> isFrameEnabled fw = true ->
  isPointInRectf (getSizingRect fw) pt = true ->
  onTop getSizingRect fw pt = true -> onLeft getSizingRect fw pt = true ->
  getSizingBorderAtPoint getSizingRect fw pt = SizingLocation.TopLeft.
Proof.
  intros Hs Hf Hin Ht Hl.
  rewrite (getSizingBorderAtPoint_priority fw pt Hs Hf Hin), Ht, Hl.
  reflexivity.
Qed.

(** C2.  For a frame window with sizing enabled and the frame
    enabled, border thickness 8.0 and sizing rectangle (0,0)-(200,100), the
    point (2,2) is in zone TopLeft, (100,2) in Top, (100,50) and (250,50) in
    Invalid.  For every window, a point outside the sizing rectangle, or
    inside the rectangle moved in by the border thickness, is Invalid; and
    when the window is enabled and the point inside, the zone is the first
    that matches among top/left, top/right, bottom/left, bottom/right and then
    the single edges. *)
Theorem C2_getSizingBorderAtPoint_zones (fw : FrameWindow) :
  isSizingEnabled fw = true ->
  isFrameEnabled fw = true ->
  d_borderSize fw = of_Z 8 ->
  getSizingRect fw = Rectf.mk (pixel 0 0) (pixel 200 100) ->
  (getSizingBorderAtPoint getSizingRect fw (pixel 2 2)
     = SizingLocation.TopLeft /\
   getSizingBorderAtPoint getSizingRect fw (pixel 100 2)
     = SizingLocation.Top /\
   getSizingBorderAtPoint getSizingRect fw (pixel 100 50)
     = SizingLocation.Invalid /\
   getSizingBorderAtPoint getSizingRect fw (pixel 250 50)
     = SizingLocation.Invalid) /\
  (forall w pt,
     isPointInRectf (getSizingRect w) pt = false ->
     getSizingBorderAtPoint getSizingRect w pt = SizingLocation.Invalid) /\
  (forall w pt,
     isPointInRectf (innerSizingRect getSizingRect w) pt = true ->
     getSizingBorderAtPoint getSizingRect w pt = SizingLocation.Invalid) /\
  (forall w pt,
     isSizingEnabled w = true -> isFrameEnabled w = true ->
     isPointInRectf (getSizingRect w) pt = true ->
     getSizingBorderAtPoint getSizingRect w pt =
       firstZone (zonesByPriority
                    (onTop getSizingRect w pt) (onBottom getSizingRect w pt)
                    (onLeft getSizingRect w pt) (onRight getSizingRect w pt))).
Proof.
  intros Hs Hf Hb Hr. split; [| split; [| split]].
  - unfold getSizingBorderAtPoint. rewrite Hs, Hf, Hb, Hr.
    repeat split; vm_compute; reflexivity.
  - exact getSizingBorderAtPoint_outside.
  - exact getSizingBorderAtPoint_inner.
  - exact getSizingBorderAtPoint_priority.
Qed.


End WithElement.

(** The frame flag is consulted as well: with the frame switched off, a
    window with sizing enabled, border 8.0 and sizing rectangle
    (0,0)-(200,100) has no sizing border at (2,2). *)
Lemma C2_counterexample :
  let fw := sampleFrame true false HorizontalAlignment.Left in
  isSizingEnabled fw = true /\
  d_borderSize fw = of_Z 8 /\
  sizingRect200x100 fw = Rectf.mk (pixel 0 0) (pixel 200 100) /\
  getSizingBorderAtPoint sizingRect200x100 fw (pixel 2 2)
    = SizingLocation.Invalid /\
  SizingLocation.eqb
    (getSizingBorderAtPoint sizingRect200x100 fw (pixel 2 2))
    SizingLocation.TopLeft = false.
Proof. repeat split. Qed.

(** The four points on the sample window. *)
Lemma C2_witness :
  let fw := sampleFrame true true HorizontalAlignment.Left in
  getSizingBorderAtPoint sizingRect200x100 fw (pixel 2 2)
    = SizingLocation.TopLeft /\
  getSizingBorderAtPoint sizingRect200x100 fw (pixel 100 2)
    = SizingLocation.Top /\
  getSizingBorderAtPoint sizingRect200x100 fw (pixel 100 50)
    = SizingLocation.Invalid /\
  getSizingBorderAtPoint sizingRect200x100 fw (pixel 250 50)
    = SizingLocation.Invalid.
Proof.
  exact (proj1 (C2_getSizingBorderAtPoint_zones sizingRect200x100
                  (sampleFrame true true HorizontalAlignment.Left)
                  eq_refl eq_refl eq_refl eq_refl)).
Defined.


(** Without the clamp the same drag would have given 600 pixels: a window
    with no maximum width (0 means none) follows the cursor. *)
Example moveRightEdge_unclamped :
  let fw :=
    mkFrameWindow true true false true false true DefaultSizingBorderSize
      (pixel 99 50)
      (URect.mk (UVector2.mk (absdim 0) (absdim 0))
                (UVector2.mk (absdim 100) (absdim 100)))
      (Sizef.mk (of_Z 100) (of_Z 100))
      (USize.mk (absdim 50) (absdim 50))
      (USize.mk (absdim 0) (absdim 0))
      HorizontalAlignment.Left VerticalAlignment.Top in
  areaPixelWidth size800x600 fw
    (fst (moveRightEdge size800x600 size800x600 (of_Z 500) (d_area fw) fw))
  = of_Z 600.
Proof. vm_compute. reflexivity. Qed.

End FrameWindowProperties.

(** ** src/widgets/Titlebar.cpp *)

Module TitlebarProperties.

Import Float32.
Import FrameWindowM.
Import TitlebarM.

Section WithWindow.

Variable Window_onCursorPressHold :
  CursorInputEventArgs -> World -> CursorInputEventArgs * World.
Variable captureInput : World -> bool * World.
Variable screenToFrameWindow : FrameWindow -> vec2.t -> vec2.t.
Variable screenToWindow : World -> vec2.t -> vec2.t.
Variable getIntersection : Rectf.t -> Rectf.t -> Rectf.t.
Variable getRootContainerSize : World -> Sizef.t.
Variable getSizingRect : FrameWindow -> Rectf.t.

Lemma onParentSizingBorder_true (e : CursorInputEventArgs) (w : World)
    (p : ParentElement) (frameWnd : FrameWindow) :
  d_parent (titlebar w) = Some p ->
  asFrameWindow p = Some frameWnd ->
  isSizingEnabled frameWnd = true ->
  getSizingBorderAtPoint getSizingRect frameWnd
    (screenToFrameWindow frameWnd (position e)) <> SizingLocation.Invalid ->
  onParentSizingBorder screenToFrameWindow getSizingRect e w = true.
Proof.
  intros Hp Hf Hs Hz. unfold onParentSizingBorder. rewrite Hp, Hf, Hs.
  destruct (getSizingBorderAtPoint _ _ _); try reflexivity.
  now elim Hz.
Qed.

(** C6.  A left press-hold on a title bar whose parent is a frame window with
    sizing enabled, at a point on that window's sizing border: the title
    bar's handler adds nothing to the base-class processing.  It takes no
    capture, leaves [d_dragging], the drag point, the saved and the current
    cursor constraint area as they are, and does not count the event as
    handled; so a title bar that was not being dragged is still not. *)
Theorem C6_titlebar_defers_to_sizing_border
    (e e1 : CursorInputEventArgs) (w w1 : World)
    (p : ParentElement) (frameWnd : FrameWindow) :
  Window_onCursorPressHold e w = (e1, w1) ->
  source e1 = CursorInputSource.Left ->
  d_parent (titlebar w1) = Some p ->
  asFrameWindow p = Some frameWnd ->
  isSizingEnabled frameWnd = true ->
  getSizingBorderAtPoint getSizingRect frameWnd
    (screenToFrameWindow frameWnd (position e1)) <> SizingLocation.Invalid ->
  let out :=
    onCursorPressHold Window_onCursorPressHold captureInput
      screenToFrameWindow screenToWindow getIntersection
      getRootContainerSize getSizingRect e w in
  out = (e1, w1) /\
  capturedByThis (snd out) = capturedByThis w1 /\
  d_dragging (titlebar (snd out)) = d_dragging (titlebar w1) /\
  d_dragPoint (titlebar (snd out)) = d_dragPoint (titlebar w1) /\
  d_oldCursorArea (titlebar (snd out)) = d_oldCursorArea (titlebar w1) /\
  cursorConstraintArea (snd out) = cursorConstraintArea w1 /\
  handled (fst out) = handled e1 /\
  (d_dragging (titlebar w1) = false ->
   d_dragging (titlebar (snd out)) = false).
Proof.
  intros Hbase Hsrc Hp Hf Hs Hz out.
  assert (Hout : out = (e1, w1)).
  { subst out. unfold onCursorPressHold. rewrite Hbase, Hsrc.
    cbn [CursorInputSource.eqb].
    now rewrite (onParentSizingBorder_true e1 w1 p frameWnd Hp Hf Hs Hz). }
  rewrite Hout. cbn [fst snd]. repeat split; auto.
Qed.

(** Away from the sizing border the same press starts a drag. *)
Lemma onCursorPressHold_starts_drag
    (e e1 : CursorInputEventArgs) (w w1 w2 : World) (p : ParentElement) :
  Window_onCursorPressHold e w = (e1, w1) ->
  source e1 = CursorInputSource.Left ->
  onParentSizingBorder screenToFrameWindow getSizingRect e1 w1 = false ->
  d_parent (titlebar w1) = Some p ->
  d_dragEnabled (titlebar w1) = true ->
  captureInput w1 = (true, w2) ->
  onCursorPressHold Window_onCursorPressHold captureInput
    screenToFrameWindow screenToWindow getIntersection
    getRootContainerSize getSizingRect e w
  = (incrHandled e1,
     startDragging screenToWindow getIntersection getRootContainerSize
       e1 w2 p).
Proof.
  intros Hbase Hsrc Hb Hp Hd Hc. unfold onCursorPressHold.
  rewrite Hbase, Hsrc. cbn [CursorInputSource.eqb].
  now rewrite Hb, Hp, Hd, Hc.
Qed.

End WithWindow.

(** A press on the top border of the sample frame window, 2 pixels below
    its upper edge. *)
Lemma C6_witness :
  let out := onCursorPressHold baseOnly captureAlways atOrigin atOrigin
               intersection root800x600 sizingRect200x100 (pressAt 100 2)
               framedWorld in
  out = (pressAt 100 2, framedWorld) /\
  capturedByThis (snd out) = false /\
  d_dragging (titlebar (snd out)) = false.
Proof.
  pose proof (C6_titlebar_defers_to_sizing_border
                baseOnly captureAlways atOrigin atOrigin intersection
                root800x600 sizingRect200x100
                (pressAt 100 2) (pressAt 100 2) framedWorld framedWorld
                (mkParent (Some (sampleFrame true true HorizontalAlignment.Left))
                          None)
                (sampleFrame true true HorizontalAlignment.Left)
                eq_refl eq_refl eq_refl eq_refl eq_refl) as H.
  cbv zeta in H.
  destruct H as (H1 & H2 & H3 & _).
  - vm_compute. discriminate.
  - cbv zeta. repeat split; assumption.
Defined.

(** The same press 12 pixels below the upper edge, off the border, drags. *)
Example press_off_border_drags :
  let out := onCursorPressHold baseOnly captureAlways atOrigin atOrigin
               intersection root800x600 sizingRect200x100 (pressAt 100 12)
               framedWorld in
  d_dragging (titlebar (snd out)) = true /\
  capturedByThis (snd out) = true /\
  d_dragPoint (titlebar (snd out)) = pixel 100 12 /\
  d_oldCursorArea (titlebar (snd out)) = Rectf.mk (pixel 0 0) (pixel 800 600) /\
  cursorConstraintArea (snd out) = Rectf.mk (pixel 0 0) (pixel 800 600) /\
  handled (fst out) = 1.
Proof. vm_compute. repeat split. Qed.

End TitlebarProperties.

(** ** samples/Inventory/InventoryItem.cpp *)

Module InventoryProperties.

Import Float32.
Import FrameWindowM.
Import Inventory.

Section WithBases.

Variable DragContainer_onMoved : ElementEventArgs -> InventoryItem -> InventoryItem.
Variable DragContainer_onDragDropTargetChanged :
  DragDropEventArgs -> InventoryItem -> InventoryItem.
Variable getUnclippedOuterRect : InventoryItem -> Rectf.t.
Variable squarePixelSize : InventoryItem -> Sizef.t.
Variable imageFromString : string -> option Image.

(** Every piece of geometry carries the item's tint. *)
Lemma populateGeometryBuffer_colour (it : InventoryItem) :
  Forall (fun g => d_multiplyColours g = tintOf it)
         (populateGeometryBuffer squarePixelSize imageFromString it).
Proof.
  unfold populateGeometryBuffer.
  destruct (userStringBlockImage it) as [name |]; [| constructor].
  destruct (imageFromString name) as [img |]; [| constructor].
  apply Forall_forall. intros g Hg.
  apply in_flat_map in Hg. destruct Hg as (y & _ & Hg).
  apply in_flat_map in Hg. destruct Hg as (x & _ & Hg).
  destruct (elementAtLocation (d_content it) x y); [| contradiction].
  destruct Hg as [<- | []]. reflexivity.
Qed.

(** A fully solid 2 x 2 item with a block image renders four pieces. *)
Lemma populateGeometryBuffer_solid2x2 (it : InventoryItem)
    (name : string) (img : Image) :
  d_content it = solid2x2 ->
  userStringBlockImage it = Some name ->
  imageFromString name = Some img ->
  List.length (populateGeometryBuffer squarePixelSize imageFromString it)
    = 4%nat.
Proof.
  intros Hc Hn Hi. unfold populateGeometryBuffer. rewrite Hn, Hi, Hc.
  reflexivity.
Qed.

(** Without a block image nothing is rendered. *)
Lemma populateGeometryBuffer_no_image (it : InventoryItem) :
  userStringBlockImage it = None ->
  populateGeometryBuffer squarePixelSize imageFromString it = [].
Proof. intros H. unfold populateGeometryBuffer. now rewrite H. Qed.

Lemma onMoved_over_receiver (e : ElementEventArgs) (it : InventoryItem)
    (receiver : InventoryReceiver) :
  let moved := DragContainer_onMoved e (invalidate it) in
  d_dropTarget moved = Some (ReceiverWindow receiver) ->
  onMoved DragContainer_onMoved getUnclippedOuterRect e it =
    set_validDropTarget
      (itemWillFitAtLocation receiver (d_content moved)
         (fst (cellUnderItem getUnclippedOuterRect receiver moved))
         (snd (cellUnderItem getUnclippedOuterRect receiver moved)))
      moved.
Proof.
  intros moved H. unfold onMoved. fold moved. rewrite H.
  cbn [asInventoryReceiver].
  destruct (cellUnderItem getUnclippedOuterRect receiver moved) as [x y].
  reflexivity.
Qed.

(** Over anything but a receiver a move leaves no valid target. *)
Lemma onMoved_no_receiver (e : ElementEventArgs) (it : InventoryItem) :
  asInventoryReceiver (d_dropTarget (DragContainer_onMoved e (invalidate it)))
    = None ->
  currentDropTargetIsValid
    (onMoved DragContainer_onMoved getUnclippedOuterRect e it) = false.
Proof. intros H. unfold onMoved. rewrite H. reflexivity. Qed.

(** C5.  After a move of an item whose drop target is an InventoryReceiver:
    when the receiver reports that the item fits at the grid cell under the
    item's offset position, [currentDropTargetIsValid] is true and every
    piece of geometry is tinted opaque green [0xFF00FF00]; when the receiver
    reports that it does not fit and the item is being dragged,
    [currentDropTargetIsValid] is false and every piece of geometry is tinted
    opaque red [0xFFFF0000].  The cell [(x, y)] is the one the receiver
    gives for the left and the top of the item's unclipped outer rectangle,
    each moved by half the width and half the height of a receiver square.
    A fully solid 2 x 2 item with a block image renders exactly four
    pieces. *)
Theorem C5_drop_validity_and_tint
    (e : ElementEventArgs) (it : InventoryItem) (receiver : InventoryReceiver) :
  let moved := DragContainer_onMoved e (invalidate it) in
  d_dropTarget moved = Some (ReceiverWindow receiver) ->
  let square_size := receiverSquarePixelSize receiver in
  let area := getUnclippedOuterRect moved in
  let x :=
    gridXLocationFromPixelPosition receiver
      (add (vec2.x (Rectf.d_min area))
           (mul half (Sizef.d_width square_size))) in
  let y :=
    gridYLocationFromPixelPosition receiver
      (add (vec2.y (Rectf.d_min area))
           (mul half (Sizef.d_height square_size))) in
  let it' := onMoved DragContainer_onMoved getUnclippedOuterRect e it in
  (itemWillFitAtLocation receiver (d_content moved) x y = true ->
     currentDropTargetIsValid it' = true /\
     Forall (fun g => d_multiplyColours g = 0xFF00FF00)
            (populateGeometryBuffer squarePixelSize imageFromString it')) /\
  (itemWillFitAtLocation receiver (d_content moved) x y = false ->
   d_dragging it' = true ->
     currentDropTargetIsValid it' = false /\
     Forall (fun g => d_multiplyColours g = 0xFFFF0000)
            (populateGeometryBuffer squarePixelSize imageFromString it')) /\
  (forall name img,
     d_content moved = solid2x2 ->
     userStringBlockImage moved = Some name ->
     imageFromString name = Some img ->
     List.length (populateGeometryBuffer squarePixelSize imageFromString it')
       = 4%nat) /\
  alphaOf 0xFF00FF00 = 0xFF /\ rgbOf 0xFF00FF00 = 0x00FF00 /\
  alphaOf 0xFFFF0000 = 0xFF /\ rgbOf 0xFFFF0000 = 0xFF0000.
Proof.
  intros moved Ht square_size area x y it'.
  assert (Hit : it' = set_validDropTarget
                        (itemWillFitAtLocation receiver (d_content moved) x y)
                        moved)
    by (exact (onMoved_over_receiver e it receiver Ht)).
  rewrite Hit. split; [| split; [| split]].
  - intros Hfit. rewrite Hfit. split; [reflexivity |].
    pose proof (populateGeometryBuffer_colour (set_validDropTarget true moved))
      as Hc.
    unfold tintOf in Hc. cbn in Hc. rewrite andb_false_r in Hc. exact Hc.
  - intros Hfit Hdrag. rewrite Hfit in *. split; [reflexivity |].
    pose proof (populateGeometryBuffer_colour (set_validDropTarget false moved))
      as Hc.
    unfold tintOf in Hc. cbn in Hc, Hdrag. rewrite Hdrag in Hc. exact Hc.
  - intros name img Hc Hn Hi.
    now apply (populateGeometryBuffer_solid2x2 _ name img).
  - repeat split.
Qed.

(** C10.  Right after [onDragDropTargetChanged], [currentDropTargetIsValid]
    is true exactly when the new drop target is an InventoryReceiver: the
    receiver is not asked whether the item fits, so over any receiver, also
    one that would refuse the item everywhere, the target counts as valid --
    until the next [onMoved], which asks the receiver and then reports
    false. *)
Theorem C10_valid_after_target_change_iff_receiver
    (e : DragDropEventArgs) (it : InventoryItem) :
  let changed := DragContainer_onDragDropTargetChanged e it in
  let it' :=
    onDragDropTargetChanged DragContainer_onDragDropTargetChanged e it in
  (currentDropTargetIsValid it' = true <->
     exists receiver, d_dropTarget changed = Some (ReceiverWindow receiver)) /\
  (forall receiver,
     d_dropTarget changed = Some (ReceiverWindow receiver) ->
     (forall content x y, itemWillFitAtLocation receiver content x y = false) ->
     currentDropTargetIsValid it' = true /\
     (forall e2,
        d_dropTarget (DragContainer_onMoved e2 (invalidate it'))
          = Some (ReceiverWindow receiver) ->
        currentDropTargetIsValid
          (onMoved DragContainer_onMoved getUnclippedOuterRect e2 it')
          = false)).
Proof.
  intros changed it'. subst it'. unfold onDragDropTargetChanged. fold changed.
  split.
  - cbn. split.
    + destruct (d_dropTarget changed) as [[r |] |]; cbn; try discriminate.
      intros _. now exists r.
    + intros [r Hr]. rewrite Hr. reflexivity.
  - intros receiver Hr Hfull. split.
    + cbn. rewrite Hr. reflexivity.
    + intros e2 Hstill.
      rewrite (onMoved_over_receiver e2 _ receiver Hstill).
      cbn. apply Hfull.
Qed.

End WithBases.

(** The sample item dropped on free cells (top-left pixel (0,0), cell (0,0))
    and moved onto the occupied cell (top-left pixel (40,40), cell (1,1)). *)
Lemma C5_witness :
  let e := mkElementArgs 0 in
  let free := onMoved baseKeeps (outerRectAt 0 0) e draggedItem in
  let taken := onMoved baseKeeps (outerRectAt 40 40) e draggedItem in
  (currentDropTargetIsValid free = true /\
   Forall (fun g => d_multiplyColours g = 0xFF00FF00)
          (populateGeometryBuffer squares32 anyImage free)) /\
  (currentDropTargetIsValid taken = false /\
   Forall (fun g => d_multiplyColours g = 0xFFFF0000)
          (populateGeometryBuffer squares32 anyImage taken)) /\
  List.length (populateGeometryBuffer squares32 anyImage free) = 4%nat.
Proof.
  cbv zeta.
  pose proof (C5_drop_validity_and_tint baseKeeps (outerRectAt 0 0) squares32
                anyImage (mkElementArgs 0) draggedItem
                (receiverOfGrid sampleGrid) eq_refl) as Hfree.
  pose proof (C5_drop_validity_and_tint baseKeeps (outerRectAt 40 40) squares32
                anyImage (mkElementArgs 0) draggedItem
                (receiverOfGrid sampleGrid) eq_refl) as Htaken.
  cbv zeta in Hfree, Htaken.
  destruct Hfree as (Hfit & _ & Hfour & _).
  destruct Htaken as (_ & Hnofit & _).
  split; [| split].
  - apply Hfit. vm_compute. reflexivity.
  - apply Hnofit; vm_compute; reflexivity.
  - apply (Hfour "BlockImage"%string (mkImage "BlockImage")); reflexivity.
Defined.

(** A new item whose target becomes a receiver with no room at all. *)
Lemma C10_witness :
  let e := mkDragDropArgs (Some (ReceiverWindow fullReceiver)) 0 in
  let it := newItem solid2x2 in
  let it' := onDragDropTargetChanged baseInstallsTarget e it in
  currentDropTargetIsValid it' = true /\
  currentDropTargetIsValid
    (onMoved baseKeeps (outerRectAt 0 0) (mkElementArgs 0) it') = false.
Proof.
  cbv zeta.
  destruct (C10_valid_after_target_change_iff_receiver baseKeeps
              baseInstallsTarget (outerRectAt 0 0)
              (mkDragDropArgs (Some (ReceiverWindow fullReceiver)) 0)
              (newItem solid2x2)) as [_ H].
  destruct (H fullReceiver eq_refl (fun _ _ _ => eq_refl)) as [Hvalid Hmoved].
  split.
  - exact Hvalid.
  - exact (Hmoved (mkElementArgs 0) eq_refl).
Defined.

(** A target of another class is not valid. *)
Example target_of_other_class_is_invalid :
  currentDropTargetIsValid
    (onDragDropTargetChanged baseInstallsTarget
       (mkDragDropArgs (Some OtherWindow) 0) (newItem solid2x2)) = false.
Proof. reflexivity. Qed.

End InventoryProperties.

(** ** src/RendererModules/OpenGL/GL3Renderer.cpp *)

Module GL3RendererProperties.

Import Float32.
Import FrameWindowM.
Import GL3Renderer.
Local Open Scope string_scope.

Lemma BlendMode_eqb_refl (m : BlendMode) : BlendMode_eqb m m = true.
Proof. destruct m; reflexivity. Qed.

Lemma BlendMode_eqb_eq (a b : BlendMode) : BlendMode_eqb a b = true <-> a = b.
Proof. destruct a, b; split; intros H; try reflexivity; discriminate. Qed.

Lemma setupRenderingBlendMode_forced (mode : BlendMode) (r : OpenGL3Renderer) :
  setupRenderingBlendMode mode true r =
    (set_activeBlendMode mode r,
     [if BlendMode_eqb mode RttPremultiplied
      then StateChanger_blendFunc GL_ONE GL_ONE_MINUS_SRC_ALPHA
      else StateChanger_blendFuncSeparate GL_SRC_ALPHA GL_ONE_MINUS_SRC_ALPHA
             GL_ONE_MINUS_DST_ALPHA GL_ONE]).
Proof.
  unfold setupRenderingBlendMode. rewrite andb_false_r.
  cbn [set_activeBlendMode d_activeBlendMode].
  destruct (BlendMode_eqb mode RttPremultiplied); reflexivity.
Qed.

(** Unforced, the calls are made exactly when the mode changes. *)
Lemma setupRenderingBlendMode_unforced_change
    (mode : BlendMode) (r : OpenGL3Renderer) :
  d_activeBlendMode r <> mode ->
  setupRenderingBlendMode mode false r = setupRenderingBlendMode mode true r.
Proof.
  intros Hne. unfold setupRenderingBlendMode.
  destruct (BlendMode_eqb (d_activeBlendMode r) mode) eqn:E; [| reflexivity].
  apply BlendMode_eqb_eq in E. contradiction.
Qed.

(** C7.  With [force = false] and the requested mode already active,
    [setupRenderingBlendMode] makes no call and leaves the renderer as it
    is.  With [force = true] it always makes its blend call, whatever the
    active mode: [blendFunc(ONE, ONE_MINUS_SRC_ALPHA)] for RttPremultiplied,
    [blendFuncSeparate(SRC_ALPHA, ONE_MINUS_SRC_ALPHA, ONE_MINUS_DST_ALPHA,
    ONE)] for Normal; the requested mode becomes the active one. *)
Theorem C7_setupRenderingBlendMode_calls :
  (forall r, setupRenderingBlendMode (d_activeBlendMode r) false r = (r, [])) /\
  (forall r,
     setupRenderingBlendMode RttPremultiplied true r =
       (set_activeBlendMode RttPremultiplied r,
        [StateChanger_blendFunc GL_ONE GL_ONE_MINUS_SRC_ALPHA])) /\
  (forall r,
     setupRenderingBlendMode Normal true r =
       (set_activeBlendMode Normal r,
        [StateChanger_blendFuncSeparate GL_SRC_ALPHA GL_ONE_MINUS_SRC_ALPHA
           GL_ONE_MINUS_DST_ALPHA GL_ONE])) /\
  (forall mode r, snd (setupRenderingBlendMode mode true r) <> []).
Proof.
  repeat split.
  - intros r. unfold setupRenderingBlendMode.
    now rewrite BlendMode_eqb_refl.
  - intros r. apply setupRenderingBlendMode_forced.
  - intros r. apply setupRenderingBlendMode_forced.
  - intros mode r. rewrite setupRenderingBlendMode_forced. discriminate.
Qed.

(** Forcing the mode that is already active still makes the call. *)
Lemma C7_witness :
  let r := set_activeBlendMode Normal freshRenderer in
  setupRenderingBlendMode Normal false r = (r, []) /\
  snd (setupRenderingBlendMode Normal true r) =
    [StateChanger_blendFuncSeparate GL_SRC_ALPHA GL_ONE_MINUS_SRC_ALPHA
       GL_ONE_MINUS_DST_ALPHA GL_ONE].
Proof.
  cbv zeta.
  destruct C7_setupRenderingBlendMode_calls as (Hnoop & _ & Hnormal & _).
  split.
  - exact (Hnoop (set_activeBlendMode Normal freshRenderer)).
  - rewrite Hnormal. reflexivity.
Defined.

Lemma byteSize_small (vertex_data : list float) :
  (4 * Z.of_nat (List.length vertex_data) < 2 ^ 32)%Z ->
  byteSize vertex_data = (4 * Z.of_nat (List.length vertex_data))%Z.
Proof.
  intros H. unfold byteSize, size_t_mul, sizeof_float.
  rewrite Z.mul_comm. apply Z.mod_small. lia.
Qed.

(** The capacity is stored in 32 bits: the byte size modulo [2^32]. *)
Lemma uploadVertexData_capacity_stored_in_32_bits
    (vertex_data : list float) (vbo_id vbo_max_size : GLuint) :
  vertex_data <> [] ->
  (vbo_max_size < byteSize vertex_data)%Z ->
  snd (uploadVertexData vertex_data vbo_id vbo_max_size)
    = (byteSize vertex_data mod 2 ^ 32)%Z.
Proof.
  intros Hne Hgt. unfold uploadVertexData.
  destruct vertex_data as [| v vs]; [now elim Hne |].
  destruct (Z.gtb_spec (byteSize (v :: vs)) vbo_max_size); [reflexivity | lia].
Qed.

(** 2^30 floats are 4 GiB: the byte size does not fit the 32-bit capacity,
    which drops from 100 to 0. *)
Example upload_of_4GiB_resets_capacity :
  let data := repeat sampleVertex (Z.to_nat (2 ^ 30)) in
  byteSize data = (2 ^ 32)%Z /\
  snd (uploadVertexData data 1 100) = 0%Z.
Proof.
  cbv zeta.
  assert (Hlen : Z.of_nat (List.length
                             (repeat sampleVertex (Z.to_nat (2 ^ 30))))
                 = (2 ^ 30)%Z).
  { rewrite repeat_length. apply Z2Nat.id. lia. }
  assert (Hbytes : byteSize (repeat sampleVertex (Z.to_nat (2 ^ 30)))
                   = (2 ^ 32)%Z).
  { unfold byteSize, size_t_mul, sizeof_float. rewrite Hlen. reflexivity. }
  split; [exact Hbytes |].
  rewrite uploadVertexData_capacity_stored_in_32_bits.
  - rewrite Hbytes. reflexivity.
  - intros H. apply (f_equal (@List.length _)) in H.
    rewrite repeat_length in H. apply (f_equal Z.of_nat) in H.
    rewrite Z2Nat.id in H by lia. discriminate H.
  - rewrite Hbytes. lia.
Qed.

(** A single upload of less than 4 GiB never lowers the capacity. *)
Lemma uploadVertexData_capacity_le
    (vertex_data : list float) (vbo_id vbo_max_size : GLuint) :
  (4 * Z.of_nat (List.length vertex_data) < 2 ^ 32)%Z ->
  (vbo_max_size <= snd (uploadVertexData vertex_data vbo_id vbo_max_size))%Z.
Proof.
  intros Hsmall. unfold uploadVertexData.
  destruct vertex_data as [| v vs]; [cbn [snd]; lia |].
  rewrite (byteSize_small (v :: vs) Hsmall).
  destruct (Z.gtb_spec (4 * Z.of_nat (List.length (v :: vs))) vbo_max_size)
    as [Hgt | Hle]; cbn [snd]; [| lia].
  unfold GLuint_of. destruct (Z_lt_le_dec vbo_max_size 0) as [Hneg | Hpos].
  - pose proof (Z.mod_pos_bound (4 * Z.of_nat (List.length (v :: vs))) (2 ^ 32)
                  ltac:(lia)). lia.
  - rewrite Z.mod_small by lia. lia.
Qed.

(** C8.  For vertex data of less than 4 GiB: empty data makes no
    call at all and leaves the capacity unchanged; non-empty data whose byte
    size does not exceed the capacity is written in place with
    [glBufferSubData] and leaves the capacity unchanged; data whose byte size
    exceeds the capacity is uploaded with [glBufferData] and the capacity
    becomes exactly that byte size.  So the capacity never shrinks. *)
Theorem C8_uploadVertexData_capacity
    (vertex_data : list float) (vbo_id vbo_max_size : GLuint) :
  (0 <= vbo_max_size)%Z ->
  (4 * Z.of_nat (List.length vertex_data) < 2 ^ 32)%Z ->
  let bytes := (4 * Z.of_nat (List.length vertex_data))%Z in
  let out := uploadVertexData vertex_data vbo_id vbo_max_size in
  (vertex_data = [] -> out = ([], vbo_max_size)) /\
  (vertex_data <> [] -> (bytes <= vbo_max_size)%Z ->
     out = ([StateChanger_bindBuffer GL_ARRAY_BUFFER vbo_id;
             glBufferSubData GL_ARRAY_BUFFER 0 bytes vertex_data],
            vbo_max_size)) /\
  ((vbo_max_size < bytes)%Z ->
     out = ([StateChanger_bindBuffer GL_ARRAY_BUFFER vbo_id;
             glBufferData GL_ARRAY_BUFFER bytes vertex_data GL_DYNAMIC_DRAW],
            bytes)) /\
  (vbo_max_size <= snd out)%Z.
Proof.
  intros Hcap Hsmall bytes out. subst out.
  pose proof (byteSize_small vertex_data Hsmall) as Hbytes. fold bytes in Hbytes.
  unfold uploadVertexData.
  destruct vertex_data as [| v vs].
  - assert (bytes = 0%Z) as Hzero by reflexivity.
    split; [| split; [| split]].
    + reflexivity.
    + intros H. now elim H.
    + intros H. lia.
    + cbn [snd]. lia.
  - rewrite Hbytes.
    destruct (Z.gtb_spec bytes vbo_max_size) as [Hgt | Hle].
    + unfold GLuint_of. rewrite Z.mod_small by lia.
      split; [| split; [| split]].
      * intros H. discriminate H.
      * intros _ H. lia.
      * reflexivity.
      * cbn [snd]. lia.
    + split; [| split; [| split]].
      * intros H. discriminate H.
      * reflexivity.
      * intros H. lia.
      * cbn [snd]. lia.
Qed.

(** From one frame to the next neither shared buffer's capacity shrinks. *)
Lemma uploadBuffers_capacity_never_shrinks
    (buffers positioned : list OpenGL3GeometryBuffer) (r r' : OpenGL3Renderer)
    (calls : list GLCall) :
  uploadBuffers buffers r = Some (r', positioned, calls) ->
  (4 * Z.of_nat (List.length (d_vertex_data_solid r')) < 2 ^ 32)%Z ->
  (4 * Z.of_nat (List.length (d_vertex_data_textured r')) < 2 ^ 32)%Z ->
  (d_verticesSolidVBOSize r <= d_verticesSolidVBOSize r')%Z /\
  (d_verticesTexturedVBOSize r <= d_verticesTexturedVBOSize r')%Z.
Proof.
  unfold uploadBuffers.
  destruct (addGeometry buffers [] []) as [[[solid textured] bs] |];
    [| discriminate].
  intros H. injection H as <- _ _.
  cbn [d_vertex_data_solid d_vertex_data_textured
       d_verticesSolidVBOSize d_verticesTexturedVBOSize].
  intros Hsolid Htextured. split.
  - now apply uploadVertexData_capacity_le.
  - now apply uploadVertexData_capacity_le.
Qed.

(** Nothing to upload: no call is made, although the (zero) byte size does
    not exceed the capacity of 100 bytes. *)
Lemma C8_counterexample :
  byteSize [] = 0%Z /\
  (byteSize [] <= 100)%Z /\
  uploadVertexData [] 1 100 = ([], 100%Z) /\
  existsb isBufferSubData (fst (uploadVertexData [] 1 100)) = false.
Proof. repeat split. discriminate. Qed.

(** Three solid-colour vertices (21 floats, 84 bytes) into a buffer of 100
    bytes, then into one of 40 bytes. *)
Lemma C8_witness :
  let data := repeat sampleVertex 21 in
  uploadVertexData data 1 100 =
    ([StateChanger_bindBuffer GL_ARRAY_BUFFER 1;
      glBufferSubData GL_ARRAY_BUFFER 0 84 data], 100%Z) /\
  uploadVertexData data 1 40 =
    ([StateChanger_bindBuffer GL_ARRAY_BUFFER 1;
      glBufferData GL_ARRAY_BUFFER 84 data GL_DYNAMIC_DRAW], 84%Z).
Proof.
  cbv zeta. split.
  - apply (C8_uploadVertexData_capacity (repeat sampleVertex 21) 1 100);
      [lia | reflexivity | discriminate | cbn; lia].
  - apply (C8_uploadVertexData_capacity (repeat sampleVertex 21) 1 40);
      [lia | reflexivity | cbn; lia].
Defined.

(** Two buffers, one solid (7 floats a vertex) and one textured (9 floats a
    vertex), uploaded into a fresh renderer: both shared buffers are
    allocated, and the second frame with the same content writes in place. *)
Example uploadBuffers_two_frames :
  let buffers := [mkBuffer (repeat sampleVertex 21) 7 0;
                  mkBuffer (repeat sampleVertex 27) 9 0;
                  mkBuffer (repeat sampleVertex 7) 7 0] in
  exists r1 positioned calls1 r2 calls2,
    uploadBuffers buffers freshRenderer = Some (r1, positioned, calls1) /\
    uploadBuffers buffers r1 = Some (r2, positioned, calls2) /\
    map isBufferData calls1 = [false; true; false; true] /\
    map isBufferSubData calls2 = [false; true; false; true] /\
    d_verticesSolidVBOSize r2 = 112%Z /\
    d_verticesTexturedVBOSize r2 = 108%Z /\
    map d_verticesVBOPosition positioned = [0; 0; 3]%Z.
Proof.
  cbv zeta. do 5 eexists.
  split; [vm_compute; reflexivity |].
  split; [vm_compute; reflexivity |].
  vm_compute. repeat split.
Qed.

Section WithSystem.

Variable CEGUI_VERSION_ABI : Z.
Variable versionMismatch : Z -> Z -> Exception.

Lemma performVersionTest_same (v : Z) (p : Process) :
  performVersionTest versionMismatch v v p = (inr tt, p).
Proof. unfold performVersionTest. rewrite Z.eqb_refl. reflexivity. Qed.

(** A caller compiled against another ABI is refused before anything else. *)
Lemma bootstrapSystem_mismatch (abi : Z) (p : Process) :
  abi <> CEGUI_VERSION_ABI ->
  bootstrapSystem CEGUI_VERSION_ABI versionMismatch abi p
    = (inl (versionMismatch CEGUI_VERSION_ABI abi), p).
Proof.
  intros Hne. unfold bootstrapSystem, bind, performVersionTest.
  destruct (Z.eqb_spec CEGUI_VERSION_ABI abi) as [E | _];
    [now elim Hne | reflexivity].
Qed.

Lemma init_supported (display_size : option Sizef.t) (p : Process) :
  isUsingOpenglEs (openGLInfo p) && (verMajor (openGLInfo p) <? 2)%Z = false ->
  exists renderer, init display_size p = (inr renderer, p).
Proof. intros H. unfold init. rewrite H. eexists. reflexivity. Qed.

Lemma init_unsupported (display_size : option Sizef.t) (p : Process) :
  isUsingOpenglEs (openGLInfo p) && (verMajor (openGLInfo p) <? 2)%Z = true ->
  exists msg, init display_size p = (inl (RendererException msg), p).
Proof. intros H. unfold init. rewrite H. eexists. reflexivity. Qed.

(** On a GL context the renderer does not support, nothing is created. *)
Lemma bootstrapSystem_unsupported (p : Process) :
  getSingletonPtr p = None ->
  isUsingOpenglEs (openGLInfo p) && (verMajor (openGLInfo p) <? 2)%Z = true ->
  exists msg,
    bootstrapSystem CEGUI_VERSION_ABI versionMismatch CEGUI_VERSION_ABI p
      = (inl (RendererException msg), p).
Proof.
  intros Hnone Hgl. destruct (init_unsupported None p Hgl) as [msg Hinit].
  exists msg. unfold bootstrapSystem, bind.
  rewrite performVersionTest_same, Hnone.
  unfold create, bind. now rewrite performVersionTest_same, Hinit.
Qed.

(** C9.  Called with the compiled-in ABI version:
    [bootstrapSystem], with or without a display size, throws InvalidRequest,
    and changes nothing, when a System singleton already exists; when none
    exists and the GL context is one the renderer supports, it creates the
    renderer, a default resource provider and the System holding both, and
    returns the renderer.  [destroySystem] throws InvalidRequest when no
    System singleton exists, and otherwise removes the singleton. *)
Theorem C9_bootstrapSystem_destroySystem
    (abi : Z) (display_size : Sizef.t) (p : Process) :
  abi = CEGUI_VERSION_ABI ->
  (forall sys, getSingletonPtr p = Some sys ->
     bootstrapSystem CEGUI_VERSION_ABI versionMismatch abi p =
       (inl (InvalidRequestException
               "CEGUI::System object is already initialised."), p) /\
     bootstrapSystem_size CEGUI_VERSION_ABI versionMismatch display_size abi p =
       (inl (InvalidRequestException
               "CEGUI::System object is already initialised."), p)) /\
  (getSingletonPtr p = None ->
   isUsingOpenglEs (openGLInfo p) && (verMajor (openGLInfo p) <? 2)%Z = false ->
   (exists renderer,
      init None p = (inr renderer, p) /\
      bootstrapSystem CEGUI_VERSION_ABI versionMismatch abi p =
        (inr renderer,
         mkProcess (Some (mkSystem renderer mkDefaultResourceProvider))
                   (openGLInfo p))) /\
   (exists renderer,
      init (Some display_size) p = (inr renderer, p) /\
      bootstrapSystem_size CEGUI_VERSION_ABI versionMismatch display_size abi p =
        (inr renderer,
         mkProcess (Some (mkSystem renderer mkDefaultResourceProvider))
                   (openGLInfo p)))) /\
  (getSingletonPtr p = None ->
   destroySystem p =
     (inl (InvalidRequestException
             "CEGUI::System object is not created or was already destroyed."),
      p)) /\
  (forall sys, getSingletonPtr p = Some sys ->
     destroySystem p = (inr tt, mkProcess None (openGLInfo p))).
Proof.
  intros ->. split; [| split; [| split]].
  - intros sys Hsys. unfold bootstrapSystem, bootstrapSystem_size, bind.
    rewrite performVersionTest_same, Hsys. split; reflexivity.
  - intros Hnone Hgl. split.
    + destruct (init_supported None p Hgl) as [renderer Hinit].
      exists renderer. split; [exact Hinit |].
      unfold bootstrapSystem, bind. rewrite performVersionTest_same, Hnone.
      unfold create, bind. rewrite performVersionTest_same, Hinit. reflexivity.
    + destruct (init_supported (Some display_size) p Hgl) as [renderer Hinit].
      exists renderer. split; [exact Hinit |].
      unfold bootstrapSystem_size, bind.
      rewrite performVersionTest_same, Hnone.
      unfold create_size, bind. rewrite performVersionTest_same, Hinit.
      reflexivity.
  - intros Hnone. unfold destroySystem. rewrite Hnone. reflexivity.
  - intros sys Hsys. unfold destroySystem. rewrite Hsys. reflexivity.
Qed.

End WithSystem.

(** On OpenGL ES 1 no System exists, the ABI matches, and still nothing is
    created: the renderer's constructor throws. *)
Lemma C9_counterexample :
  let p := mkProcess None openGLES1 in
  getSingletonPtr p = None /\
  bootstrapSystem sampleABI sampleMismatch sampleABI p =
    (inl (RendererException
            "Only version 2 and up of OpenGL ES is supported by this type of renderer."),
     p) /\
  getSingletonPtr (snd (bootstrapSystem sampleABI sampleMismatch sampleABI p))
    = None.
Proof. repeat split. Qed.

(** On desktop OpenGL: the first bootstrap succeeds, a second one is an
    invalid request, and so is destroying a System that was never made. *)
Lemma C9_witness :
  let p := mkProcess None desktopGL in
  let booted := bootstrapSystem sampleABI sampleMismatch sampleABI p in
  (exists renderer,
     booted = (inr renderer,
               mkProcess (Some (mkSystem renderer mkDefaultResourceProvider))
                         desktopGL)) /\
  fst (bootstrapSystem sampleABI sampleMismatch sampleABI (snd booted)) =
    inl (InvalidRequestException
           "CEGUI::System object is already initialised.") /\
  fst (destroySystem p) =
    inl (InvalidRequestException
           "CEGUI::System object is not created or was already destroyed.").
Proof.
  cbv zeta.
  destruct (C9_bootstrapSystem_destroySystem sampleABI sampleMismatch sampleABI
              (Sizef.mk (of_Z 800) (of_Z 600))
              (mkProcess None desktopGL) eq_refl)
    as (_ & Hboot & Hdestroy & _).
  destruct (Hboot eq_refl eq_refl) as ((renderer & _ & Hrun) & _).
  cbn [openGLInfo] in Hrun.
  split; [| split].
  - exists renderer. exact Hrun.
  - rewrite Hrun. cbn [snd].
    destruct (C9_bootstrapSystem_destroySystem sampleABI sampleMismatch
                sampleABI (Sizef.mk (of_Z 800) (of_Z 600))
                (mkProcess (Some (mkSystem renderer mkDefaultResourceProvider))
                           desktopGL) eq_refl) as (Hagain & _).
    rewrite (proj1 (Hagain _ eq_refl)). reflexivity.
  - rewrite (Hdestroy eq_refl). reflexivity.
Defined.

End GL3RendererProperties.

(** ** include/CEGUI/Window.h: enablement, activation, draw mask *)

Module WindowFlagsProperties.

Import WindowFlags.

Lemma isEffectiveDisabled_chain (w : Window) :
  isEffectiveDisabled w = existsb isDisabled (selfAndAncestors w).
Proof.
  induction w as [en ac m | en ac m parent IH] using Window_chain_ind.
  - cbn. unfold isDisabled. cbn. reflexivity.
  - change (negb en || isEffectiveDisabled parent =
            negb en || existsb isDisabled (selfAndAncestors parent))%bool.
    now rewrite IH.
Qed.

Lemma isActive_chain (w : Window) :
  isActive w = forallb d_active (selfAndAncestors w).
Proof.
  induction w as [en ac m | en ac m parent IH] using Window_chain_ind.
  - reflexivity.
  - change (ac && isActive parent =
            ac && forallb d_active (selfAndAncestors parent))%bool.
    now rewrite IH.
Qed.

(** X1.  A window is effectively disabled exactly when it or one of its
    ancestors is disabled itself; so enabling a window has no effect below a
    disabled ancestor, and a disabled parent disables every child. *)
Theorem isEffectiveDisabled_iff_disabled_ancestor (w : Window) :
  (isEffectiveDisabled w = true <->
     exists a, In a (selfAndAncestors w) /\ isDisabled a = true) /\
  (forall parent, getParent w = Some parent ->
     isEffectiveDisabled parent = true -> isEffectiveDisabled w = true).
Proof.
  split.
  - rewrite isEffectiveDisabled_chain. apply existsb_exists.
  - intros parent Hp Hd. destruct w as [en ac m p]. cbn in Hp. subst p.
    cbn. rewrite Hd. apply orb_true_r.
Qed.

(** The enabled button of the disabled dialog is effectively disabled. *)
Lemma isEffectiveDisabled_witness :
  isEffectiveDisabled sample_ok = true /\ isDisabled sample_ok = false.
Proof.
  split; [| reflexivity].
  apply (proj2 (isEffectiveDisabled_iff_disabled_ancestor sample_ok)
           sample_dialog eq_refl).
  reflexivity.
Defined.

(** X2.  A window is active exactly when it and all its ancestors have their
    local active flag set: setting the flag of a window whose parent is not
    active leaves [isActive] false. *)
Theorem isActive_iff_whole_chain_active (w : Window) :
  (isActive w = true <->
     forall a, In a (selfAndAncestors w) -> d_active a = true) /\
  (forall parent, getParent w = Some parent ->
     isActive parent = false -> isActive w = false).
Proof.
  split.
  - rewrite isActive_chain. apply forallb_forall.
  - intros parent Hp Hd. destruct w as [en ac m p]. cbn in Hp. subst p.
    cbn. rewrite Hd. apply andb_false_r.
Qed.

(** The locally active button of the inactive dialog is not active. *)
Lemma isActive_witness :
  isActive sample_ok = false /\ d_active sample_ok = true.
Proof.
  split; [| reflexivity].
  apply (proj2 (isActive_iff_whole_chain_active sample_ok)
           sample_dialog eq_refl).
  reflexivity.
Defined.

Lemma land_nonzero_common_bit (a b : Z) :
  0 <= a -> Z.land a b <> 0 ->
  exists i, 0 <= i /\ Z.testbit a i = true /\ Z.testbit b i = true.
Proof.
  intros Ha Hne.
  assert (Hpos : 0 < Z.land a b).
  { pose proof (proj2 (Z.land_nonneg a b) (or_introl Ha)). lia. }
  exists (Z.log2 (Z.land a b)). split; [apply Z.log2_nonneg |].
  pose proof (Z.bit_log2 _ Hpos) as Hbit.
  rewrite Z.land_spec in Hbit. now apply andb_true_iff in Hbit.
Qed.

(** X3.  A draw call reaches a window exactly when the window's draw-mode
    mask and the mask of the call have a bit in common; a window whose mask
    is 0 is never drawn, and neither is any window by a call with mask 0. *)
Theorem checkIfDrawMaskAllowsDrawing_iff_common_bit
    (w : Window) (drawModeMask : Z) :
  0 <= getDrawModeMask w ->
  (checkIfDrawMaskAllowsDrawing w drawModeMask = true <->
     exists i, 0 <= i /\ Z.testbit (getDrawModeMask w) i = true
               /\ Z.testbit drawModeMask i = true) /\
  (getDrawModeMask w = 0 ->
     checkIfDrawMaskAllowsDrawing w drawModeMask = false) /\
  checkIfDrawMaskAllowsDrawing w 0 = false.
Proof.
  intros Hm. unfold checkIfDrawMaskAllowsDrawing. split; [| split].
  - split.
    + intros H. apply negb_true_iff, Z.eqb_neq in H.
      now apply land_nonzero_common_bit.
    + intros (i & Hi & Ha & Hb). apply negb_true_iff, Z.eqb_neq.
      intros Hz. pose proof (Z.land_spec (getDrawModeMask w) drawModeMask i) as Hs.
      rewrite Hz, Z.bits_0, Ha, Hb in Hs. discriminate.
  - intros ->. reflexivity.
  - rewrite Z.land_0_r. reflexivity.
Qed.

(** The button's mask 6 shares bit 1 with a call for mask 2, and no bit with
    a call for mask 1. *)
Lemma checkIfDrawMaskAllowsDrawing_witness :
  checkIfDrawMaskAllowsDrawing sample_ok 2 = true /\
  checkIfDrawMaskAllowsDrawing sample_ok 1 = false.
Proof.
  split; [| reflexivity].
  apply (proj1 (checkIfDrawMaskAllowsDrawing_iff_common_bit sample_ok 2
                  ltac:(cbn; lia))).
  exists 1. repeat split. lia.
Defined.

End WindowFlagsProperties.

(** ** Facts on [float] used below *)

Module Float32Facts.

Import Float32.

(** Adding the literal [0.0f] to a finite number, or subtracting it, gives
    the number back; only the sign of a zero may change. *)
Lemma add_zero_cases (x : float) :
  is_finite x = true ->
  add x (of_Z 0) = x \/
  exists s s', x = S754_zero s /\ add x (of_Z 0) = S754_zero s'.
Proof.
  destruct x as [s | s | | s m e]; intros H; try discriminate H.
  - right. exists s. destruct s; eexists; split; reflexivity.
  - left. reflexivity.
Qed.

Lemma sub_zero_cases (x : float) :
  is_finite x = true ->
  sub x (of_Z 0) = x \/
  exists s s', x = S754_zero s /\ sub x (of_Z 0) = S754_zero s'.
Proof.
  destruct x as [s | s | | s m e]; intros H; try discriminate H.
  - right. exists s. destruct s; eexists; split; reflexivity.
  - left. reflexivity.
Qed.

Lemma compare_zero_sign_l (s s' : bool) (y : float) :
  SFcompare (S754_zero s) y = SFcompare (S754_zero s') y.
Proof. destruct y; reflexivity. Qed.

Lemma compare_zero_sign_r (s s' : bool) (y : float) :
  SFcompare y (S754_zero s) = SFcompare y (S754_zero s').
Proof. destruct y; reflexivity. Qed.

Lemma eqb_refl_finite (x : float) : is_finite x = true -> eqb x x = true.
Proof.
  destruct x as [s | s | | s m e]; intros H; try discriminate H.
  - reflexivity.
  - unfold eqb, SFeqb. cbn.
    destruct s; rewrite Z.compare_refl, Pos.compare_cont_refl; reflexivity.
Qed.

(** Such a number behaves in every comparison like the original one. *)
Lemma zero_moved_compares (x x' : float) :
  is_finite x = true ->
  (x' = x \/ exists s s', x = S754_zero s /\ x' = S754_zero s') ->
  (forall y, gtb x' y = gtb x y) /\ (forall y, ltb x' y = ltb x y) /\
  (forall y, eqb y x' = eqb y x).
Proof.
  intros Hfin [-> | (s & s' & -> & ->)].
  - repeat split.
  - unfold gtb, ltb, eqb, SFltb, SFeqb.
    split; [| split]; intros y.
    + now rewrite (compare_zero_sign_r s' s).
    + now rewrite (compare_zero_sign_l s' s).
    + now rewrite (compare_zero_sign_r s' s).
Qed.

End Float32Facts.

(** ** src/widgets/FrameWindow.cpp: roll-up, the four edges, sizing by drag *)

Module FrameWindowStateProperties.

Import Float32.
Import FrameWindowM.
Import FrameWindowState.

(** *** Roll-up *)

Lemma toggleRollup_consistent (fw : FrameWindow) :
  isRollupEnabled fw || negb (isRolledup fw) = true ->
  let fw' := fst (toggleRollup fw) in
  isRollupEnabled fw' || negb (isRolledup fw') = true.
Proof.
  unfold toggleRollup. destruct (isRollupEnabled fw) eqn:He; cbn; [| now rewrite He].
  intros _. unfold isRollupEnabled in *. cbn. now rewrite He.
Qed.

Lemma perform_consistent (c : RollupCall) (fw : FrameWindow) :
  isRollupEnabled fw || negb (isRolledup fw) = true ->
  let fw' := fst (perform c fw) in
  isRollupEnabled fw' || negb (isRolledup fw') = true.
Proof.
  intros H. destruct c as [| val | setting]; cbn [perform].
  - now apply toggleRollup_consistent.
  - unfold setRolledup. destruct (negb (Bool.eqb val (isRolledup fw))).
    + now apply toggleRollup_consistent.
    + exact H.
  - destruct fw as [fe re ru se bs dm b dp a ps mn mx ha va].
    unfold setRollupEnabled, toggleRollup, isRollupEnabled, isRolledup in *.
    cbn in *. destruct setting, re, ru; cbn in *; congruence.
Qed.

Lemma performAll_cons (c : RollupCall) (cs : list RollupCall) (fw : FrameWindow) :
  performAll (c :: cs) fw =
    (fst (performAll cs (fst (perform c fw))),
     snd (perform c fw) ++ snd (performAll cs (fst (perform c fw)))).
Proof.
  cbn [performAll]. destruct (perform c fw) as [fw1 l1]. cbn [fst snd].
  destruct (performAll cs fw1) as [fw2 l2]. reflexivity.
Qed.

Lemma performAll_consistent (cs : list RollupCall) (fw : FrameWindow) :
  isRollupEnabled fw || negb (isRolledup fw) = true ->
  let fw' := fst (performAll cs fw) in
  isRollupEnabled fw' || negb (isRolledup fw') = true.
Proof.
  revert fw. induction cs as [| c cs IH]; intros fw H.
  - exact H.
  - cbv zeta. rewrite performAll_cons. cbn [fst].
    apply IH. now apply perform_consistent.
Qed.

(** X4.  A frame window is never rolled up while roll-up is disabled: the
    constructor leaves it so, and no sequence of calls of [toggleRollup],
    [setRolledup] and [setRollupEnabled] changes that. *)
Theorem never_rolled_up_while_rollup_disabled
    (cs : list RollupCall) (dragPoint : vec2.t) (area : URect.t)
    (pixelSize : Sizef.t) (minSize maxSize : USize.t)
    (ha : HorizontalAlignment.t) (va : VerticalAlignment.t) :
  let fw :=
    fst (performAll cs
           (construct dragPoint area pixelSize minSize maxSize ha va)) in
  isRollupEnabled fw || negb (isRolledup fw) = true.
Proof. apply performAll_consistent. reflexivity. Qed.

(** A toggle that flips the state fires one [RollupToggled] event, one
    that does not fires none. *)
Lemma toggleRollup_parity (fw : FrameWindow) :
  isRolledup (fst (toggleRollup fw)) =
    xorb (isRolledup fw)
         (Nat.odd (List.length
                     (filter (isFireEvent EventRollupToggled)
                             (snd (toggleRollup fw))))).
Proof.
  unfold toggleRollup. destruct (isRollupEnabled fw); cbn.
  - reflexivity.
  - now rewrite xorb_false_r.
Qed.

Lemma perform_parity (c : RollupCall) (fw : FrameWindow) :
  isRolledup (fst (perform c fw)) =
    xorb (isRolledup fw)
         (Nat.odd (List.length
                     (filter (isFireEvent EventRollupToggled)
                             (snd (perform c fw))))).
Proof.
  destruct c as [| val | setting]; cbn [perform].
  - apply toggleRollup_parity.
  - unfold setRolledup. destruct (negb (Bool.eqb val (isRolledup fw))).
    + apply toggleRollup_parity.
    + cbn. now rewrite xorb_false_r.
  - unfold setRollupEnabled.
    destruct (Bool.eqb setting false && isRolledup fw).
    + pose proof (toggleRollup_parity fw) as H.
      destruct (toggleRollup fw) as [fw1 l1]. exact H.
    + cbn. now rewrite xorb_false_r.
Qed.

(** X5.  Every change of the rolled-up state is announced, and nothing is
    announced without a change: after any sequence of roll-up calls the
    window is rolled up exactly when it was rolled up before and an even
    number, or was not and an odd number, of [RollupToggled] events has been
    fired. *)
Theorem rolled_up_state_follows_RollupToggled_events
    (cs : list RollupCall) (fw : FrameWindow) :
  isRolledup (fst (performAll cs fw)) =
    xorb (isRolledup fw)
         (Nat.odd (List.length
                     (filter (isFireEvent EventRollupToggled)
                             (snd (performAll cs fw))))).
Proof.
  revert fw. induction cs as [| c cs IH]; intros fw.
  - cbn. now rewrite xorb_false_r.
  - rewrite performAll_cons. cbn [fst snd].
    rewrite IH, perform_parity, filter_app, length_app, Nat.odd_add.
    now rewrite xorb_assoc.
Qed.

Section WithWindow.

Variable Window_isHit : World -> vec2.t -> bool.

(** X6.  On a window with roll-up enabled, [setRolledup] reaches the
    requested state, a second call with the same value calls nothing, and
    once the window is rolled up no position hits it, whatever the base
    class says. *)
Theorem setRolledup_reaches_requested_state
    (val : bool) (fw : FrameWindow) :
  isRollupEnabled fw = true ->
  isRolledup (fst (setRolledup val fw)) = val /\
  setRolledup val (fst (setRolledup val fw)) = (fst (setRolledup val fw), []) /\
  (forall (w : World) (position : vec2.t),
     isHit Window_isHit position
           (set_frame (fst (setRolledup true fw)) w) = false).
Proof.
  intros He.
  assert (Hval : forall v, isRolledup (fst (setRolledup v fw)) = v).
  { intros v. unfold setRolledup, toggleRollup. rewrite He.
    unfold isRolledup. destruct v, (d_rolledup fw) eqn:Hr; cbn; auto. }
  split; [apply Hval | split].
  - unfold setRolledup at 1. rewrite Hval, Bool.eqb_reflx. reflexivity.
  - intros w position. unfold isHit. cbn [frame set_frame].
    specialize (Hval true). unfold isRolledup in Hval. rewrite Hval.
    apply andb_false_r.
Qed.

End WithWindow.

(** The sample window, which has roll-up enabled, rolled up. *)
Lemma setRolledup_witness :
  let fw := sampleFrame true true HorizontalAlignment.Left in
  isRolledup (fst (setRolledup true fw)) = true /\
  isHit hitEverywhere (pixel 10 10)
        (set_frame (fst (setRolledup true fw)) (sampleWorld fw)) = false.
Proof.
  pose proof (setRolledup_reaches_requested_state hitEverywhere true
                (sampleFrame true true HorizontalAlignment.Left) eq_refl)
    as (H1 & _ & H3).
  split; [exact H1 | apply H3].
Defined.

(** *** The four edges *)

Section WithElement.

Variable getRootContainerSize : FrameWindow -> Sizef.t.
Variable getBasePixelSize : FrameWindow -> Sizef.t.

(** X7.  Moving the left or the right edge changes nothing of the area but
    the pixel offsets of its left and right edges, moving the top or the
    bottom edge nothing but those of its top and bottom edges; and of the
    window itself the right edge moves only the horizontal, the bottom edge
    only the vertical co-ordinate of the drag point. *)
Theorem edge_moves_touch_one_axis_only
    (delta : float) (outArea : URect.t) (fw : FrameWindow) :
  let left := moveLeftEdge getRootContainerSize getBasePixelSize
                delta outArea fw in
  let right := moveRightEdge getRootContainerSize getBasePixelSize
                 delta outArea fw in
  let top := moveTopEdge getRootContainerSize getBasePixelSize
               delta outArea fw in
  let bottom := moveBottomEdge getRootContainerSize getBasePixelSize
                  delta outArea fw in
  (sameButXOffsets left outArea /\ sameButXOffsets (fst right) outArea) /\
  (sameButYOffsets top outArea /\ sameButYOffsets (fst bottom) outArea) /\
  set_dragPoint (vec2.mk (vec2.x (d_dragPoint fw))
                         (vec2.y (d_dragPoint (snd right)))) (snd right) = fw /\
  set_dragPoint (vec2.mk (vec2.x (d_dragPoint (snd bottom)))
                         (vec2.y (d_dragPoint fw))) (snd bottom) = fw.
Proof.
  cbv zeta. destruct fw as [fe re ru se bs dm b [px py] a ps mn mx ha va].
  split; [split | split; [split | split]].
  - unfold moveLeftEdge, sameButXOffsets.
    destruct outArea as [[[? ?] [? ?]] [[? ?] [? ?]]].
    match goal with |- context [if ?c then _ else _] => destruct c end;
      [| destruct ha]; cbn; repeat split.
  - unfold moveRightEdge, sameButXOffsets.
    destruct outArea as [[[? ?] [? ?]] [[? ?] [? ?]]].
    match goal with |- context [if ?c then _ else _] => destruct c end;
      [| destruct ha]; cbn; repeat split.
  - unfold moveTopEdge, sameButYOffsets.
    destruct outArea as [[[? ?] [? ?]] [[? ?] [? ?]]].
    match goal with |- context [if ?c then _ else _] => destruct c end;
      [| destruct va]; cbn; repeat split.
  - unfold moveBottomEdge, sameButYOffsets.
    destruct outArea as [[[? ?] [? ?]] [[? ?] [? ?]]].
    match goal with |- context [if ?c then _ else _] => destruct c end;
      [| destruct va]; cbn; repeat split.
  - unfold moveRightEdge.
    match goal with |- context [if ?c then _ else _] => destruct c end;
      reflexivity.
  - unfold moveBottomEdge.
    match goal with |- context [if ?c then _ else _] => destruct c end;
      reflexivity.
Qed.

(** X8.  "The rest of the window does not move": on a window aligned to the
    left and to the top of its parent, moving an edge leaves the corner
    opposite to it where it is. *)
Theorem edge_moves_keep_opposite_corner
    (delta : float) (outArea : URect.t) (fw : FrameWindow) :
  d_horizontalAlignment fw = HorizontalAlignment.Left ->
  d_verticalAlignment fw = VerticalAlignment.Top ->
  URect.d_max (moveLeftEdge getRootContainerSize getBasePixelSize
                 delta outArea fw) = URect.d_max outArea /\
  URect.d_min (fst (moveRightEdge getRootContainerSize getBasePixelSize
                      delta outArea fw)) = URect.d_min outArea /\
  URect.d_max (moveTopEdge getRootContainerSize getBasePixelSize
                 delta outArea fw) = URect.d_max outArea /\
  URect.d_min (fst (moveBottomEdge getRootContainerSize getBasePixelSize
                      delta outArea fw)) = URect.d_min outArea.
Proof.
  intros Hh Hv.
  unfold moveLeftEdge, moveRightEdge, moveTopEdge, moveBottomEdge.
  rewrite Hh, Hv.
  repeat split;
    match goal with |- context [if ?c then _ else _] => destruct c end;
    reflexivity.
Qed.

Lemma set_dragPoint_twice (p q : vec2.t) (fw : FrameWindow) :
  set_dragPoint p (set_dragPoint q fw) = set_dragPoint p fw.
Proof. reflexivity. Qed.

Lemma set_dragPoint_same (fw : FrameWindow) :
  set_dragPoint (d_dragPoint fw) fw = fw.
Proof. destruct fw. reflexivity. Qed.

Section DragPointIndependent.

Hypothesis Hroot :
  forall p w, getRootContainerSize (set_dragPoint p w) = getRootContainerSize w.
Hypothesis Hbase :
  forall p w, getBasePixelSize (set_dragPoint p w) = getBasePixelSize w.

(** What [moveRightEdge] does, for every drag point and every area: either
    nothing, or it shifts the horizontal offsets of the area in a way that
    commutes with every function that commutes with such shifts, and moves
    the drag point along x by a fixed amount. *)
Lemma moveRightEdge_shape (delta : float) (fw : FrameWindow) :
  exists (c : bool) (D : float) (g : URect.t -> URect.t),
    (forall f : URect.t -> URect.t,
       (forall a d, f (addMaxXOffset a d) = addMaxXOffset (f a) d) ->
       (forall a d, f (addMinXOffset a d) = addMinXOffset (f a) d) ->
       forall a, f (g a) = g (f a)) /\
    forall p a,
      moveRightEdge getRootContainerSize getBasePixelSize delta a
        (set_dragPoint p fw) =
      if c then (a, set_dragPoint p fw)
      else (g a, set_dragPoint (vec2.mk (add (vec2.x p) D) (vec2.y p)) fw).
Proof.
  do 3 eexists. split; cycle 1.
  - intros p a. unfold moveRightEdge, getSize, addDragPointX.
    rewrite !Hroot, !Hbase. unfold set_dragPoint.
    cbn [d_pixelSize d_maxSize d_minSize d_area d_horizontalAlignment
         d_frameEnabled d_rollupEnabled d_rolledup d_sizingEnabled
         d_beingSized d_dragMovable d_borderSize d_dragPoint
         d_verticalAlignment vec2.x vec2.y].
    reflexivity.
  - cbv beta. intros f Hmax Hmin a.
    destruct (d_horizontalAlignment fw); now rewrite ?Hmin, ?Hmax.
Qed.

(** What [moveBottomEdge] does: either nothing, or it applies to the area a
    function that commutes with shifts of the horizontal offsets, and moves
    the drag point along y by a fixed amount. *)
Lemma moveBottomEdge_shape (delta : float) (fw : FrameWindow) :
  exists (c : bool) (D : float) (f : URect.t -> URect.t),
    (forall a d, f (addMaxXOffset a d) = addMaxXOffset (f a) d) /\
    (forall a d, f (addMinXOffset a d) = addMinXOffset (f a) d) /\
    forall p a,
      moveBottomEdge getRootContainerSize getBasePixelSize delta a
        (set_dragPoint p fw) =
      if c then (a, set_dragPoint p fw)
      else (f a, set_dragPoint (vec2.mk (vec2.x p) (add (vec2.y p) D)) fw).
Proof.
  do 3 eexists. split; [| split]; cycle 2.
  - intros p a. unfold moveBottomEdge, getSize, addDragPointY.
    rewrite !Hroot, !Hbase. unfold set_dragPoint.
    cbn [d_pixelSize d_maxSize d_minSize d_area d_horizontalAlignment
         d_frameEnabled d_rollupEnabled d_rolledup d_sizingEnabled
         d_beingSized d_dragMovable d_borderSize d_dragPoint
         d_verticalAlignment vec2.x vec2.y].
    reflexivity.
  - cbv beta. intros a d. destruct (d_verticalAlignment fw); reflexivity.
  - cbv beta. intros a d. destruct (d_verticalAlignment fw); reflexivity.
Qed.

End DragPointIndependent.

(** X9.  When a corner is dragged both a horizontal and a vertical edge
    move; the two moves do not interfere: the right and the bottom edge can
    be moved in either order, provided the sizes that the [Element] base
    reports do not depend on the drag point. *)
Theorem moveRightEdge_moveBottomEdge_commute
    (deltaX deltaY : float) (outArea : URect.t) (fw : FrameWindow) :
  (forall p w, getRootContainerSize (set_dragPoint p w)
               = getRootContainerSize w) ->
  (forall p w, getBasePixelSize (set_dragPoint p w) = getBasePixelSize w) ->
  let right := moveRightEdge getRootContainerSize getBasePixelSize in
  let bottom := moveBottomEdge getRootContainerSize getBasePixelSize in
  bottom deltaY (fst (right deltaX outArea fw)) (snd (right deltaX outArea fw))
  = right deltaX (fst (bottom deltaY outArea fw))
          (snd (bottom deltaY outArea fw)).
Proof.
  intros Hroot Hbase right bottom. subst right bottom.
  destruct (moveRightEdge_shape Hroot Hbase deltaX fw)
    as (cx & Dx & g & Hg & HR).
  destruct (moveBottomEdge_shape Hroot Hbase deltaY fw)
    as (cy & Dy & f & Hmax & Hmin & HB).
  rewrite <- (set_dragPoint_same fw).
  rewrite (HR (d_dragPoint fw) outArea), (HB (d_dragPoint fw) outArea).
  destruct cx, cy; cbn [fst snd]; rewrite ?HR, ?HB; try reflexivity.
  rewrite (Hg f Hmax Hmin). reflexivity.
Qed.

(** X10.  A drag that has not moved the cursor changes nothing: when the
    pixel size of the window is the size of its area, is finite and is
    within the size limits, each of the four edge functions called with a
    delta of zero returns the area, and the window, as they were. *)
Theorem edge_move_by_zero_changes_nothing
    (outArea : URect.t) (fw : FrameWindow) :
  let w := Sizef.d_width (d_pixelSize fw) in
  let h := Sizef.d_height (d_pixelSize fw) in
  let root := getRootContainerSize fw in
  let base := getBasePixelSize fw in
  asAbsolute (USize.d_width (getSize fw)) (Sizef.d_width base) = w ->
  asAbsolute (USize.d_height (getSize fw)) (Sizef.d_height base) = h ->
  is_finite w = true ->
  is_finite h = true ->
  neqb (asAbsolute (USize.d_width (d_maxSize fw)) (Sizef.d_width root))
       (of_Z 0)
    && gtb w (asAbsolute (USize.d_width (d_maxSize fw)) (Sizef.d_width root))
    = false ->
  ltb w (asAbsolute (USize.d_width (d_minSize fw)) (Sizef.d_width root))
    = false ->
  neqb (asAbsolute (USize.d_height (d_maxSize fw)) (Sizef.d_height root))
       (of_Z 0)
    && gtb h (asAbsolute (USize.d_height (d_maxSize fw)) (Sizef.d_height root))
    = false ->
  ltb h (asAbsolute (USize.d_height (d_minSize fw)) (Sizef.d_height root))
    = false ->
  moveLeftEdge getRootContainerSize getBasePixelSize (of_Z 0) outArea fw
    = outArea /\
  moveRightEdge getRootContainerSize getBasePixelSize (of_Z 0) outArea fw
    = (outArea, fw) /\
  moveTopEdge getRootContainerSize getBasePixelSize (of_Z 0) outArea fw
    = outArea /\
  moveBottomEdge getRootContainerSize getBasePixelSize (of_Z 0) outArea fw
    = (outArea, fw).
Proof.
  intros w h root base Hw Hh Fw Fh Hxmax Hxmin Hymax Hymin.
  destruct (Float32Facts.zero_moved_compares w (add w (of_Z 0)) Fw
              (Float32Facts.add_zero_cases w Fw)) as (Ga & La & Ea).
  destruct (Float32Facts.zero_moved_compares w (sub w (of_Z 0)) Fw
              (Float32Facts.sub_zero_cases w Fw)) as (Gs & Ls & Es).
  destruct (Float32Facts.zero_moved_compares h (add h (of_Z 0)) Fh
              (Float32Facts.add_zero_cases h Fh)) as (Gah & Lah & Eah).
  destruct (Float32Facts.zero_moved_compares h (sub h (of_Z 0)) Fh
              (Float32Facts.sub_zero_cases h Fh)) as (Gsh & Lsh & Esh).
  pose proof (Float32Facts.eqb_refl_finite w Fw) as Rw.
  pose proof (Float32Facts.eqb_refl_finite h Fh) as Rh.
  unfold moveLeftEdge, moveRightEdge, moveTopEdge, moveBottomEdge.
  fold w h root base. rewrite Hw, Hh.
  rewrite Ga, La, Gs, Ls, Gah, Lah, Gsh, Lsh.
  rewrite Hxmax, Hxmin, Hymax, Hymin.
  rewrite Ea, Es, Eah, Esh, Rw, Rh.
  repeat split.
Qed.

End WithElement.

(** The sample window, 100 pixels wide and high, with limits 50 and 300. *)
Lemma edge_moves_keep_opposite_corner_witness :
  let fw := sampleFrame true true HorizontalAlignment.Left in
  URect.d_max (moveLeftEdge size800x600 size800x600 (of_Z 30) (d_area fw) fw)
    = URect.d_max (d_area fw) /\
  URect.d_min (fst (moveBottomEdge size800x600 size800x600 (of_Z 30)
                      (d_area fw) fw))
    = URect.d_min (d_area fw).
Proof.
  pose proof (edge_moves_keep_opposite_corner size800x600 size800x600
                (of_Z 30)
                (d_area (sampleFrame true true HorizontalAlignment.Left))
                (sampleFrame true true HorizontalAlignment.Left)
                eq_refl eq_refl) as (H1 & _ & _ & H4).
  split; [exact H1 | exact H4].
Defined.

(** The bottom right corner of the centred sample window dragged by
    (30, 20). *)
Lemma moveRightEdge_moveBottomEdge_commute_witness :
  let fw := sampleFrame true true HorizontalAlignment.Centre in
  let right := moveRightEdge size800x600 size800x600 in
  let bottom := moveBottomEdge size800x600 size800x600 in
  bottom (of_Z 20) (fst (right (of_Z 30) (d_area fw) fw))
         (snd (right (of_Z 30) (d_area fw) fw))
  = right (of_Z 30) (fst (bottom (of_Z 20) (d_area fw) fw))
          (snd (bottom (of_Z 20) (d_area fw) fw)).
Proof.
  apply (moveRightEdge_moveBottomEdge_commute size800x600 size800x600
           (of_Z 30) (of_Z 20)
           (d_area (sampleFrame true true HorizontalAlignment.Centre))
           (sampleFrame true true HorizontalAlignment.Centre));
    intros; reflexivity.
Defined.

(** The sample window satisfies the premises. *)
Lemma edge_move_by_zero_witness :
  let fw := sampleFrame true true HorizontalAlignment.Right in
  moveLeftEdge size800x600 size800x600 (of_Z 0) (d_area fw) fw = d_area fw /\
  moveRightEdge size800x600 size800x600 (of_Z 0) (d_area fw) fw
    = (d_area fw, fw) /\
  moveTopEdge size800x600 size800x600 (of_Z 0) (d_area fw) fw = d_area fw /\
  moveBottomEdge size800x600 size800x600 (of_Z 0) (d_area fw) fw
    = (d_area fw, fw).
Proof.
  apply (edge_move_by_zero_changes_nothing size800x600 size800x600
           (d_area (sampleFrame true true HorizontalAlignment.Right))
           (sampleFrame true true HorizontalAlignment.Right));
    vm_compute; reflexivity.
Defined.

(** *** Sizing by drag *)

Section WithWindowBase.

Variable Window_onCursorMove :
  CursorInputEventArgs -> World -> CursorInputEventArgs * World.
Variable Window_onCursorPressHold :
  CursorInputEventArgs -> World -> CursorInputEventArgs * World.
Variable Window_onCaptureLost : Z -> World -> Z * World.
Variable getWindowContainingCursor : World -> WindowUnderCursor.
Variable screenToWindow : World -> vec2.t -> vec2.t.
Variable setArea : UVector2.t -> USize.t -> bool -> World -> World.
Variable captureInput : World -> bool * World.
Variable getActualCursor : World -> option string.
Variable getSizingRect : FrameWindow -> Rectf.t.
Variable getRootContainerSize : FrameWindow -> Sizef.t.
Variable getBasePixelSize : FrameWindow -> Sizef.t.
Variable isLeftSizingLocation : SizingLocation.t -> bool.
Variable isRightSizingLocation : SizingLocation.t -> bool.
Variable isTopSizingLocation : SizingLocation.t -> bool.
Variable isBottomSizingLocation : SizingLocation.t -> bool.

(** X11.  A press starts no sizing drag unless it comes from the left source
    on a window that has both sizing and its frame enabled: otherwise the
    handler does what the base class does and nothing more, so no capture is
    requested, nothing is fired and the event is not counted as handled. *)
Theorem press_without_sizing_frame_is_left_to_base
    (e : CursorInputEventArgs) (w : World) :
  let base := Window_onCursorPressHold e w in
  CursorInputSource.eqb (source (fst base)) CursorInputSource.Left
    && isSizingEnabled (frame (snd base))
    && isFrameEnabled (frame (snd base)) = false ->
  onCursorPressHold Window_onCursorPressHold screenToWindow captureInput
    getSizingRect e w = base.
Proof.
  intros base H. unfold onCursorPressHold. fold base.
  destruct base as [e1 w1]. cbn [fst snd] in H.
  destruct (CursorInputSource.eqb (source e1) CursorInputSource.Left);
    [| reflexivity].
  destruct (isSizingEnabled (frame w1)) eqn:Hs; [| reflexivity].
  cbn [andb] in H. unfold getSizingBorderAtPoint. rewrite Hs, H.
  reflexivity.
Qed.

(** X12.  A left press on the sizing border for which the capture is granted
    starts a sizing drag: the window is being sized, the drag point is the
    cursor position in window co-ordinates, [DragSizingStarted] is fired and
    the event is counted as handled. Whenever the capture is lost afterwards
    the window is no longer being sized, [DragSizingEnded] is fired and that
    event is counted as handled too. *)
Theorem sizing_drag_starts_on_border_and_ends_with_capture
    (e : CursorInputEventArgs) (w : World) :
  let base := Window_onCursorPressHold e w in
  let localPos := screenToWindow (snd base) (position (fst base)) in
  let captured := captureInput (snd base) in
  let pressed :=
    onCursorPressHold Window_onCursorPressHold screenToWindow captureInput
      getSizingRect e w in
  source (fst base) = CursorInputSource.Left ->
  isSizingEnabled (frame (snd base)) = true ->
  SizingLocation.eqb
    (getSizingBorderAtPoint getSizingRect (frame (snd base)) localPos)
    SizingLocation.Invalid = false ->
  fst captured = true ->
  (d_beingSized (frame (snd pressed)) = true /\
   d_dragPoint (frame (snd pressed)) = localPos /\
   handled (fst pressed) = (handled (fst base) + 1) mod 2 ^ 32 /\
   calls (snd pressed) =
     calls (snd captured) ++ [fireEvent EventDragSizingStarted EventNamespace])
  /\
  (forall (n : Z) (w' : World),
     let lost := onCaptureLost Window_onCaptureLost n w' in
     let baseLost := Window_onCaptureLost n w' in
     d_beingSized (frame (snd lost)) = false /\
     fst lost = (fst baseLost + 1) mod 2 ^ 32 /\
     calls (snd lost) =
       calls (snd baseLost) ++ [fireEvent EventDragSizingEnded EventNamespace]).
Proof.
  intros base localPos captured pressed Hsrc Hs Hb Hc. split.
  - subst pressed. unfold onCursorPressHold. fold base.
    destruct base as [e1 w1] eqn:Hbase. cbn [fst snd] in *.
    subst localPos. rewrite Hsrc, Hs, Hb. cbn [CursorInputSource.eqb negb].
    fold captured. destruct captured as [ok w2]. cbn [fst snd] in *.
    subst ok. repeat split.
  - intros n w' lost baseLost. subst lost. unfold onCaptureLost.
    fold baseLost. destruct baseLost as [n1 w1]. repeat split.
Qed.

(** X13.  While the window is not being sized, a cursor move never resizes
    it: the frame window, the capture and the calls made are the ones the
    base handler left, whatever [setArea] would do. Over another window the
    handler adds nothing at all to the base handler; over this window or its
    title bar the event is counted as handled, and if sizing is enabled
    while the frame is not, the cursor gets the window's ordinary image. *)
Theorem cursor_move_without_drag_never_resizes
    (e : CursorInputEventArgs) (w : World) :
  let base := Window_onCursorMove e w in
  let moved :=
    onCursorMove Window_onCursorMove getWindowContainingCursor screenToWindow
      setArea getActualCursor getSizingRect getRootContainerSize
      getBasePixelSize isLeftSizingLocation isRightSizingLocation
      isTopSizingLocation isBottomSizingLocation e w in
  d_beingSized (frame (snd base)) = false ->
  (frame (snd moved) = frame (snd base) /\
   capturedByThis (snd moved) = capturedByThis (snd base) /\
   calls (snd moved) = calls (snd base)) /\
  (match getWindowContainingCursor (snd base) with
   | AnotherWindow => moved = base
   | ThisWindow | ItsTitlebar =>
       fst moved = incrHandled (fst base) /\
       (isSizingEnabled (frame (snd base)) = false ->
        snd moved = snd base) /\
       (isSizingEnabled (frame (snd base)) = true ->
        isFrameEnabled (frame (snd base)) = false ->
        cursorImage (snd moved) = getActualCursor (snd base))
   end).
Proof.
  intros base moved Hnot. subst moved. unfold onCursorMove. fold base.
  destruct base as [e1 w1]. cbn [fst snd] in *.
  destruct (getWindowContainingCursor w1);
    try (split; [repeat split | reflexivity]);
    rewrite Hnot;
    destruct (isSizingEnabled (frame w1)) eqn:Hs; cbn [fst snd].
  all: try (split; [repeat split | repeat split; intros; try discriminate]).
  all: try reflexivity.
  all: try match goal with
       | |- context [setCursorForSizingLocation _ ?l _] =>
           destruct l; reflexivity
       end.
  all: try match goal with
       | H : isFrameEnabled _ = false |- _ =>
           unfold getSizingBorderAtPoint; rewrite Hs, H; reflexivity
       end.
Qed.

End WithWindowBase.

(** A left press at (2,2) on the sample window with its frame switched
    off. *)
Lemma press_without_sizing_frame_witness :
  let w := sampleWorld (sampleFrame true false HorizontalAlignment.Left) in
  onCursorPressHold baseOnly TitlebarM.atOrigin captureAlways
    sizingRect200x100 (TitlebarM.pressAt 2 2) w
  = (TitlebarM.pressAt 2 2, w).
Proof.
  apply (press_without_sizing_frame_is_left_to_base baseOnly
           TitlebarM.atOrigin captureAlways sizingRect200x100
           (TitlebarM.pressAt 2 2)
           (sampleWorld (sampleFrame true false HorizontalAlignment.Left))).
  reflexivity.
Defined.

(** A left press at (2,2), on the border of the sample window, and the loss
    of the capture afterwards. *)
Lemma sizing_drag_witness :
  let w := sampleWorld (sampleFrame true true HorizontalAlignment.Left) in
  let pressed :=
    onCursorPressHold baseOnly TitlebarM.atOrigin captureAlways
      sizingRect200x100 (TitlebarM.pressAt 2 2) w in
  d_beingSized (frame (snd pressed)) = true /\
  d_dragPoint (frame (snd pressed)) = pixel 2 2 /\
  d_beingSized
    (frame (snd (onCaptureLost baseCaptureLost 0 (snd pressed)))) = false.
Proof.
  pose proof (sizing_drag_starts_on_border_and_ends_with_capture baseOnly
                baseCaptureLost TitlebarM.atOrigin captureAlways
                sizingRect200x100 (TitlebarM.pressAt 2 2)
                (sampleWorld (sampleFrame true true HorizontalAlignment.Left))
                eq_refl eq_refl eq_refl eq_refl) as ((H1 & H2 & _) & H3).
  split; [exact H1 | split; [exact H2 |]].
  apply (H3 0).
Defined.

(** The cursor moved to (50,50) over the sample window, which is not being
    sized. *)
Lemma cursor_move_without_drag_witness :
  let w := sampleWorld (sampleFrame true true HorizontalAlignment.Left) in
  let moved :=
    onCursorMove baseOnly overThisWindow TitlebarM.atOrigin takeArea
      noCursorImage sizingRect200x100 size800x600 size800x600
      hasLeftEdge hasRightEdge hasTopEdge hasBottomEdge
      (TitlebarM.pressAt 50 50) w in
  frame (snd moved) = frame w /\ calls (snd moved) = calls w.
Proof.
  pose proof (cursor_move_without_drag_never_resizes baseOnly
                overThisWindow TitlebarM.atOrigin takeArea noCursorImage
                sizingRect200x100 size800x600 size800x600
                hasLeftEdge hasRightEdge hasTopEdge hasBottomEdge
                (TitlebarM.pressAt 50 50)
                (sampleWorld (sampleFrame true true HorizontalAlignment.Left))
                eq_refl) as ((H1 & _ & H3) & _).
  split; [exact H1 | exact H3].
Defined.

End FrameWindowStateProperties.

(** ** src/widgets/Titlebar.cpp: the other handlers, and the frame window's
       hold on its title bar *)

Module TitlebarStateProperties.

Import Float32.
Import FrameWindowM.
Import TitlebarM.
Import TitlebarState.

Section WithWindow.

Variable Window_onCursorPressHold :
  CursorInputEventArgs -> World -> CursorInputEventArgs * World.
Variable Window_onCursorMove :
  CursorInputEventArgs -> World -> CursorInputEventArgs * World.
Variable Window_onSemanticInputEvent :
  SemanticEventArgs -> Context -> SemanticEventArgs * Context.
Variable Window_onCaptureLost : World -> World.
Variable captureInput : World -> bool * World.
Variable releaseInput : World -> World.
Variable onDraggingModeChanged : World -> World.
Variable screenToFrameWindow : FrameWindow -> vec2.t -> vec2.t.
Variable screenToWindow : World -> vec2.t -> vec2.t.
Variable getIntersection : Rectf.t -> Rectf.t -> Rectf.t.
Variable getRootContainerSize : World -> Sizef.t.
Variable getSizingRect : FrameWindow -> Rectf.t.
Variable getPosition : FrameWindow -> UVector2.t.
Variable setPosition : UVector2.t -> FrameWindow -> FrameWindow.

(** X14.  A drag by the title bar gives the cursor back its freedom: when a
    press starts a drag, the constraint area of the cursor at that moment is
    saved, and when the capture is lost afterwards the title bar is no
    longer dragging and the cursor has exactly that area again, provided the
    base handler of the capture loss leaves the title bar's members alone. *)
Theorem drag_restores_cursor_constraint_area
    (e : CursorInputEventArgs) (w : World) (p : ParentElement) :
  let base := Window_onCursorPressHold e w in
  let captured := captureInput (snd base) in
  let pressed :=
    snd (onCursorPressHold Window_onCursorPressHold captureInput
           screenToFrameWindow screenToWindow getIntersection
           getRootContainerSize getSizingRect e w) in
  let lost := onCaptureLost Window_onCaptureLost pressed in
  source (fst base) = CursorInputSource.Left ->
  onParentSizingBorder screenToFrameWindow getSizingRect
    (fst base) (snd base) = false ->
  d_parent (titlebar (snd base)) = Some p ->
  d_dragEnabled (titlebar (snd base)) = true ->
  fst captured = true ->
  (forall w', titlebar (Window_onCaptureLost w') = titlebar w') ->
  d_dragging (titlebar pressed) = true /\
  d_oldCursorArea (titlebar pressed) = cursorConstraintArea (snd captured) /\
  d_dragging (titlebar lost) = false /\
  cursorConstraintArea lost = cursorConstraintArea (snd captured).
Proof.
  intros base captured pressed lost Hsrc Hborder Hp He Hc Hkeep.
  assert (Hpressed : pressed = startDragging screenToWindow getIntersection
                                 getRootContainerSize (fst base)
                                 (snd captured) p).
  { subst pressed. unfold onCursorPressHold. fold base.
    destruct base as [e1 w1]. cbn [fst snd] in *.
    rewrite Hsrc, Hborder, Hp, He. cbn [CursorInputSource.eqb].
    fold captured. destruct captured as [ok w2]. cbn [fst snd] in *.
    subst ok. reflexivity. }
  assert (H1 : d_dragging (titlebar pressed) = true)
    by (rewrite Hpressed; reflexivity).
  assert (H2 : d_oldCursorArea (titlebar pressed)
               = cursorConstraintArea (snd captured))
    by (rewrite Hpressed; reflexivity).
  repeat split; try assumption.
  subst lost. unfold onCaptureLost, setConstraintArea, set_dragging.
  cbn [cursorConstraintArea titlebar d_oldCursorArea].
  rewrite Hkeep. exact H2.
Qed.

(** A title bar that is not being dragged, or that has no parent, moves
    nothing: its handler of cursor moves is the one of the base class, and
    the event is not counted as handled. *)
Lemma cursor_move_is_inert_unless_dragging
    (e : CursorInputEventArgs) (w : World) :
  let base := Window_onCursorMove e w in
  d_dragging (titlebar (snd base)) = false \/
  d_parent (titlebar (snd base)) = None ->
  onCursorMove Window_onCursorMove screenToWindow getPosition setPosition e w
  = base.
Proof.
  intros base H. unfold onCursorMove. fold base. destruct base as [e1 w1].
  cbn [fst snd] in H. destruct H as [H | H]; rewrite H.
  - reflexivity.
  - now rewrite andb_false_r.
Qed.

(** X15.  A double activation from the left source on an enabled title bar
    rolls its frame window up or down: the parent's rolled-up state is
    flipped exactly when the parent has roll-up enabled, the calls of
    [toggleRollup] are made, the event is counted as handled, and the title
    bar itself keeps its state. *)
Theorem double_activation_toggles_parent_rollup
    (e : SemanticEventArgs) (c : Context) (fw : FrameWindow) :
  let base := Window_onSemanticInputEvent e c in
  let result := onSemanticInputEvent Window_onSemanticInputEvent e c in
  isDisabled (snd base) = false ->
  d_semanticValue (fst base) = SelectWord ->
  payload_source (fst base) = CursorInputSource.Left ->
  parentFrame (world (snd base)) = Some fw ->
  parentFrame (world (snd result))
    = Some (fst (FrameWindowState.toggleRollup fw)) /\
  (exists fw', parentFrame (world (snd result)) = Some fw' /\
     FrameWindowState.isRolledup fw'
     = xorb (FrameWindowState.isRolledup fw)
            (FrameWindowState.isRollupEnabled fw)) /\
  frameCalls (snd result)
    = frameCalls (snd base) ++ snd (FrameWindowState.toggleRollup fw) /\
  semanticHandled (fst result)
    = (semanticHandled (fst base) + 1) mod 2 ^ 32 /\
  d_dragging (titlebar (world (snd result)))
    = d_dragging (titlebar (world (snd base))) /\
  d_dragEnabled (titlebar (world (snd result)))
    = d_dragEnabled (titlebar (world (snd base))).
Proof.
  intros base result Hen Hv Hs Hp. subst result.
  unfold onSemanticInputEvent. fold base. destruct base as [e1 c1].
  cbn [fst snd] in *. rewrite Hen, Hv, Hs, Hp.
  cbn [isSelectWord CursorInputSource.eqb andb].
  unfold parentFrame in Hp.
  destruct (d_parent (titlebar (world c1))) as [p |] eqn:Hpar;
    [| discriminate].
  assert (Hset : forall f, parentFrame (set_parentFrame f (world c1)) = Some f).
  { intros f. unfold parentFrame, set_parentFrame. rewrite Hpar. reflexivity. }
  assert (Hkeep : forall f,
            d_dragging (titlebar (set_parentFrame f (world c1)))
              = d_dragging (titlebar (world c1)) /\
            d_dragEnabled (titlebar (set_parentFrame f (world c1)))
              = d_dragEnabled (titlebar (world c1))).
  { intros f. unfold set_parentFrame. rewrite Hpar. split; reflexivity. }
  destruct (FrameWindowState.toggleRollup fw) as [fw' made] eqn:Ht.
  cbn [fst snd world frameCalls].
  split; [apply Hset | split; [| split; [reflexivity | split;
    [reflexivity | apply Hkeep]]]].
  exists fw'. split; [apply Hset |].
  unfold FrameWindowState.toggleRollup in Ht.
  destruct (FrameWindowState.isRollupEnabled fw) eqn:Hre;
    inversion Ht; subst; unfold FrameWindowState.isRolledup; cbn.
  - reflexivity.
  - now rewrite xorb_false_r.
Qed.

(** X16.  The frame window's drag-moving flag and its title bar's dragging
    flag move together: when they agree, [setDragMovingEnabled] leaves both
    at the requested value, provided releasing the input and the
    notification of the change do not themselves alter the flag; and a call
    with the value the flag already has changes nothing and notifies nobody. *)
Theorem setDragMovingEnabled_keeps_titlebar_in_step
    (setting : bool) (fw : FrameWindow) (w : World) :
  (forall w', d_dragEnabled (titlebar (releaseInput w'))
              = d_dragEnabled (titlebar w')) ->
  (forall w', d_dragEnabled (titlebar (onDraggingModeChanged w'))
              = d_dragEnabled (titlebar w')) ->
  d_dragMovable fw = isDraggingEnabled w ->
  let result :=
    setDragMovingEnabled releaseInput onDraggingModeChanged setting fw w in
  d_dragMovable (fst result) = setting /\
  isDraggingEnabled (snd result) = setting /\
  (d_dragMovable fw = setting -> result = (fw, w)).
Proof.
  intros Hrel Hnote Hsync result. subst result.
  unfold setDragMovingEnabled, setDraggingEnabled, isDraggingEnabled in *.
  rewrite <- Hsync.
  destruct (Bool.eqb (d_dragMovable fw) setting) eqn:Heq; cbn [negb fst snd].
  - apply Bool.eqb_prop in Heq. repeat split; congruence.
  - split; [reflexivity | split].
    + rewrite Hnote.
      match goal with
      | |- context [if ?c then _ else _] => destruct c
      end; [rewrite Hrel |]; reflexivity.
    + intros Hd. rewrite Hd, Bool.eqb_reflx in Heq. discriminate.
Qed.

End WithWindow.

(** A left press at (50,50) on the title bar of the sample frame window,
    off the sizing border, and the loss of the capture afterwards. *)
Lemma drag_restores_cursor_constraint_area_witness :
  let pressed :=
    snd (onCursorPressHold baseOnly captureAlways atOrigin atOrigin
           intersection root800x600 sizingRect200x100 (pressAt 50 50)
           framedWorld) in
  d_dragging (titlebar pressed) = true /\
  cursorConstraintArea (onCaptureLost unchanged pressed)
    = cursorConstraintArea framedWorld.
Proof.
  pose proof (drag_restores_cursor_constraint_area baseOnly unchanged
                captureAlways atOrigin atOrigin intersection root800x600
                sizingRect200x100 (pressAt 50 50) framedWorld
                (mkParent
                   (Some (sampleFrame true true HorizontalAlignment.Left))
                   None)
                eq_refl eq_refl eq_refl eq_refl eq_refl
                (fun _ => eq_refl)) as (H1 & _ & _ & H4).
  split; [exact H1 | exact H4].
Defined.

(** A double activation on the title bar of the sample frame window, which
    has roll-up enabled and is not rolled up. *)
Lemma double_activation_witness :
  parentFrame
    (world (snd (onSemanticInputEvent baseSemantic doubleActivation
                   framedContext)))
  = Some (fst (FrameWindowState.toggleRollup
                 (sampleFrame true true HorizontalAlignment.Left))).
Proof.
  apply (double_activation_toggles_parent_rollup baseSemantic
           doubleActivation framedContext
           (sampleFrame true true HorizontalAlignment.Left)
           eq_refl eq_refl eq_refl eq_refl).
Defined.

(** Drag-moving switched off on the sample frame window. *)
Lemma setDragMovingEnabled_witness :
  let fw := sampleFrame true true HorizontalAlignment.Left in
  let result := setDragMovingEnabled releaseCapture unchanged false fw
                  framedWorld in
  d_dragMovable (fst result) = false /\
  isDraggingEnabled (snd result) = false.
Proof.
  pose proof (setDragMovingEnabled_keeps_titlebar_in_step releaseCapture
                unchanged false
                (sampleFrame true true HorizontalAlignment.Left) framedWorld
                (fun _ => eq_refl) (fun _ => eq_refl) eq_refl)
    as (H1 & H2 & _).
  split; [exact H1 | exact H2].
Defined.

End TitlebarStateProperties.

(** ** samples/Inventory/InventoryItem.cpp: the layout of an item and its
       hit test *)

Module InventoryLayoutProperties.

Import Float32.
Import FrameWindowM.
Import Inventory.
Import InventoryLayout.

Lemma length_setNth (n : nat) (v : bool) (l : list bool) :
  List.length (setNth n v l) = List.length l.
Proof.
  revert n. induction l as [| b l IH]; intros [| n]; cbn; auto.
Qed.

Lemma nth_setNth (n i : nat) (v : bool) (l : list bool) :
  nth i (setNth n v l) false =
    if ((i =? n) && (n <? List.length l))%nat then v else nth i l false.
Proof.
  revert n i. induction l as [| b l IH]; intros n i.
  - destruct n, i; cbn; try reflexivity; now rewrite andb_false_r.
  - destruct n as [| n], i as [| i]; cbn [setNth nth]; try reflexivity.
    rewrite IH. reflexivity.
Qed.

Lemma storeNext_in_range (g : BoolArray2D) (l : list bool) (x y : Z) :
  0 <= x < width g -> 0 <= y < height g ->
  storeNext y x (g, l) =
    (mkGrid (width g) (height g)
            (setNth (Z.to_nat (y * width g + x)) (hd false l) (d_cells g)),
     tl l).
Proof.
  intros Hx Hy. unfold storeNext, setElementAtLocation. cbn [fst snd].
  replace ((0 <=? x) && (x <? width g) && (0 <=? y) && (y <? height g))
    with true; [reflexivity |].
  symmetry. repeat (apply andb_true_intro; split);
    try apply Z.leb_le; try apply Z.ltb_lt; lia.
Qed.

(** One row of the loop: the cells of row [y] from column [a] on take the
    next [n] values, all other cells keep theirs. *)
Lemma storeRow_spec (w h y : Z) :
  0 <= w -> 0 <= y < h ->
  forall (n a : nat) (g : BoolArray2D) (l : list bool),
    width g = w -> height g = h ->
    Z.of_nat (List.length (d_cells g)) = w * h ->
    Z.of_nat (a + n) <= w -> (n <= List.length l)%nat ->
    let st := fold_left (fun st x => storeNext y x st)
                        (map Z.of_nat (seq a n)) (g, l) in
    let base := (Z.to_nat (y * w) + a)%nat in
    width (fst st) = w /\ height (fst st) = h /\
    List.length (d_cells (fst st)) = List.length (d_cells g) /\
    snd st = skipn n l /\
    forall i, nth i (d_cells (fst st)) false =
      if ((base <=? i) && (i <? base + n))%nat
      then nth (i - base) l false
      else nth i (d_cells g) false.
Proof.
  intros Hw Hy n. induction n as [| n IH]; intros a g l Hgw Hgh Hlen Han Hl.
  - cbn [seq map fold_left fst snd skipn]. repeat split; auto.
    intros i. destruct (Nat.leb_spec (Z.to_nat (y * w) + a) i);
      destruct (Nat.ltb_spec i (Z.to_nat (y * w) + a + 0)); cbn; auto; lia.
  - cbn [seq map fold_left].
    rewrite storeNext_in_range by lia.
    destruct l as [| b l']; [cbn in Hl; lia |]. cbn [hd tl].
    rewrite Hgw, Hgh.
    set (g1 := mkGrid w h (setNth (Z.to_nat (y * w + Z.of_nat a)) b (d_cells g))).
    specialize (IH (S a) g1 l' eq_refl eq_refl).
    assert (Hlen1 : List.length (d_cells g1) = List.length (d_cells g))
      by (apply length_setNth).
    cbn zeta in IH.
    destruct IH as (H1 & H2 & H3 & H4 & H5);
      [rewrite Hlen1; exact Hlen | lia | cbn in Hl; lia |].
    repeat split; auto.
    + now rewrite H3.
    + intros i. rewrite H5. cbn [d_cells g1]. unfold g1. cbn [d_cells].
      rewrite nth_setNth.
      assert (Hidx : Z.to_nat (y * w + Z.of_nat a)
                     = (Z.to_nat (y * w) + a)%nat) by nia.
      rewrite Hidx.
      assert (Hin : (Z.to_nat (y * w) + a < List.length (d_cells g))%nat) by nia.
      destruct (Nat.leb_spec (Z.to_nat (y * w) + S a) i);
        destruct (Nat.ltb_spec i (Z.to_nat (y * w) + S a + n));
        destruct (Nat.leb_spec (Z.to_nat (y * w) + a) i);
        destruct (Nat.ltb_spec i (Z.to_nat (y * w) + a + S n));
        destruct (Nat.eqb_spec i (Z.to_nat (y * w) + a));
        destruct (Nat.ltb_spec (Z.to_nat (y * w) + a) (List.length (d_cells g)));
        cbn [andb]; try lia; try reflexivity.
      * replace (i - (Z.to_nat (y * w) + a))%nat
          with (S (i - (Z.to_nat (y * w) + S a))) by lia.
        reflexivity.
      * subst i. now rewrite Nat.sub_diag.
Qed.

(** The rows [r], [r+1], ..., [r+m-1] of the loop. *)
Lemma storeRows_spec (w h : Z) :
  0 <= w -> 0 <= h ->
  forall (m r : nat) (g : BoolArray2D) (l : list bool),
    width g = w -> height g = h ->
    Z.of_nat (List.length (d_cells g)) = w * h ->
    Z.of_nat (r + m) <= h -> (m * Z.to_nat w <= List.length l)%nat ->
    let rows (st : BoolArray2D * list bool) (y : Z) :=
      fold_left (fun st x => storeNext y x st) (upto (width (fst st))) st in
    let st := fold_left rows (map Z.of_nat (seq r m)) (g, l) in
    let W := Z.to_nat w in
    width (fst st) = w /\ height (fst st) = h /\
    List.length (d_cells (fst st)) = List.length (d_cells g) /\
    forall i, nth i (d_cells (fst st)) false =
      if ((r * W <=? i) && (i <? (r + m) * W))%nat
      then nth (i - r * W) l false
      else nth i (d_cells g) false.
Proof.
  intros Hw Hh m. induction m as [| m IH]; intros r g l Hgw Hgh Hlen Hrm Hl.
  - cbn [seq map fold_left fst]. repeat split; auto.
    intros i. destruct (Nat.leb_spec (r * Z.to_nat w) i);
      destruct (Nat.ltb_spec i ((r + 0) * Z.to_nat w)); cbn; auto; lia.
  - cbn [seq map fold_left]. cbv zeta. cbn [fst].
    rewrite Hgw. change (upto w) with (map Z.of_nat (seq 0 (Z.to_nat w))).
    pose proof (storeRow_spec w h (Z.of_nat r) Hw ltac:(lia)
                  (Z.to_nat w) 0%nat g l Hgw Hgh Hlen ltac:(lia) ltac:(lia))
      as Hrow.
    cbv zeta in Hrow.
    set (st1 := fold_left (fun st x => storeNext (Z.of_nat r) x st)
                          (map Z.of_nat (seq 0 (Z.to_nat w))) (g, l)) in *.
    destruct Hrow as (R1 & R2 & R3 & R4 & R5).
    destruct st1 as [g1 l1] eqn:Hst1. cbn [fst snd] in *.
    specialize (IH (S r) g1 l1 R1 R2).
    cbv zeta in IH.
    destruct IH as (H1 & H2 & H3 & H5);
      [rewrite R3; exact Hlen | lia | subst l1; rewrite length_skipn; lia |].
    repeat split; auto.
    + now rewrite H3.
    + intros i. rewrite H5, R5. subst l1.
      assert (Hb : Z.to_nat (Z.of_nat r * w) = (r * Z.to_nat w)%nat) by nia.
      rewrite Hb, Nat.add_0_r.
      destruct (Nat.leb_spec (S r * Z.to_nat w) i);
        destruct (Nat.ltb_spec i ((S r + m) * Z.to_nat w));
        destruct (Nat.leb_spec (r * Z.to_nat w) i);
        destruct (Nat.ltb_spec i (r * Z.to_nat w + Z.to_nat w));
        destruct (Nat.ltb_spec i ((r + S m) * Z.to_nat w));
        cbn [andb]; try nia; try reflexivity.
      rewrite nth_skipn. f_equal. nia.
Qed.

(** What [setItemLayout] leaves in the grid. *)
Lemma setItemLayout_cells (layout : list bool) (it : InventoryItem) :
  wellFormed (d_content it) ->
  width (d_content it) * height (d_content it)
    <= Z.of_nat (List.length layout) ->
  let it' := setItemLayout layout it in
  width (d_content it') = width (d_content it) /\
  height (d_content it') = height (d_content it) /\
  wellFormed (d_content it') /\
  forall x y,
    0 <= x < width (d_content it) -> 0 <= y < height (d_content it) ->
    elementAtLocation (d_content it') x y
      = nth (Z.to_nat (y * width (d_content it) + x)) layout false.
Proof.
  intros (Hw & Hh & Hlen) Hl it'.
  pose proof (storeRows_spec (width (d_content it)) (height (d_content it))
                Hw Hh (Z.to_nat (height (d_content it))) 0%nat
                (d_content it) layout eq_refl eq_refl Hlen
                ltac:(lia) ltac:(nia)) as Hrows.
  cbv zeta in Hrows.
  assert (Hit' : d_content it' =
                 fst (fold_left
                        (fun st y =>
                           fold_left (fun st x => storeNext y x st)
                                     (upto (width (fst st))) st)
                        (map Z.of_nat
                             (seq 0 (Z.to_nat (height (d_content it)))))
                        (d_content it, layout))) by reflexivity.
  rewrite <- Hit' in Hrows. destruct Hrows as (H1 & H2 & H3 & H5).
  split; [exact H1 | split; [exact H2 | split]].
  - unfold wellFormed. rewrite H1, H2, H3. auto.
  - intros x y Hx Hy. unfold elementAtLocation. rewrite H1, H2.
    replace ((0 <=? x) && (x <? width (d_content it)) && (0 <=? y)
             && (y <? height (d_content it))) with true.
    + rewrite H5.
      destruct (Nat.leb_spec (0 * Z.to_nat (width (d_content it)))
                  (Z.to_nat (y * width (d_content it) + x)));
        [| lia].
      destruct (Nat.ltb_spec (Z.to_nat (y * width (d_content it) + x))
                  ((0 + Z.to_nat (height (d_content it)))
                   * Z.to_nat (width (d_content it)))); [| nia].
      cbn [andb]. f_equal. lia.
    + symmetry. repeat (apply andb_true_intro; split);
        try apply Z.leb_le; try apply Z.ltb_lt; lia.
Qed.

(** X17.  After [setItemLayout] the cell in column [x] of row [y] is solid
    exactly when element [y * width + x] of the layout is true: the layout
    is read row by row. The size of the grid and the other members of the
    item are unchanged. The grid must have a cell for each location, and the
    layout a value for each cell. *)
Theorem setItemLayout_then_isSolidAtLocation
    (layout : list bool) (it : InventoryItem) (x y : Z) :
  wellFormed (d_content it) ->
  width (d_content it) * height (d_content it)
    <= Z.of_nat (List.length layout) ->
  0 <= x < width (d_content it) ->
  0 <= y < height (d_content it) ->
  let it' := setItemLayout layout it in
  isSolidAtLocation it' x y
    = nth (Z.to_nat (y * width (d_content it) + x)) layout false /\
  width (d_content it') = width (d_content it) /\
  height (d_content it') = height (d_content it) /\
  wellFormed (d_content it') /\
  set_content (d_content it) it' = it.
Proof.
  intros Hwf Hl Hx Hy it'.
  destruct (setItemLayout_cells layout it Hwf Hl) as (H1 & H2 & H3 & H4).
  split; [apply H4; assumption |].
  split; [exact H1 | split; [exact H2 | split; [exact H3 |]]].
  destruct it. reflexivity.
Qed.

Section WithBases.

Variable DragContainer_isHit : InventoryItem -> vec2.t -> bool -> bool.
Variable itemGridXLocationFromPixelPosition : InventoryItem -> float -> Z.
Variable itemGridYLocationFromPixelPosition : InventoryItem -> float -> Z.
Variable squarePixelSize : InventoryItem -> Sizef.t.
Variable imageFromString : string -> option Image.

(** X18.  Only the cells that the layout marks register hits: an item that
    was given a layout is hit at a position exactly when the base class
    reports a hit, the position falls on a cell of the grid, and the element
    of the layout for that cell is true. *)
Theorem isHit_iff_layout_marks_cell
    (layout : list bool) (it : InventoryItem) (position : vec2.t)
    (allow_disabled : bool) :
  wellFormed (d_content it) ->
  width (d_content it) * height (d_content it)
    <= Z.of_nat (List.length layout) ->
  let it' := setItemLayout layout it in
  let gx := itemGridXLocationFromPixelPosition it' (vec2.x position) in
  let gy := itemGridYLocationFromPixelPosition it' (vec2.y position) in
  isHit DragContainer_isHit itemGridXLocationFromPixelPosition
        itemGridYLocationFromPixelPosition it' position allow_disabled = true
  <->
  DragContainer_isHit it' position allow_disabled = true /\
  0 <= gx < width (d_content it) /\ 0 <= gy < height (d_content it) /\
  nth (Z.to_nat (gy * width (d_content it) + gx)) layout false = true.
Proof.
  intros Hwf Hl it' gx gy.
  destruct (setItemLayout_cells layout it Hwf Hl) as (H1 & H2 & _ & H4).
  fold it' in H1, H2, H4.
  unfold isHit. fold gx gy. rewrite H1, H2.
  destruct (DragContainer_isHit it' position allow_disabled); cbn [negb];
    [| split; [discriminate | intros (H & _); discriminate]].
  destruct (Z.ltb_spec gx 0); cbn [orb];
    [split; [discriminate | intros (_ & ? & _); lia] |].
  destruct (Z.geb_spec gx (width (d_content it))); cbn [orb];
    [split; [discriminate | intros (_ & ? & _); lia] |].
  destruct (Z.ltb_spec gy 0); cbn [orb];
    [split; [discriminate | intros (_ & _ & ? & _); lia] |].
  destruct (Z.geb_spec gy (height (d_content it))); cbn [orb];
    [split; [discriminate | intros (_ & _ & ? & _); lia] |].
  rewrite H4 by lia. split.
  - intros Hn. repeat split; try lia; assumption.
  - intros (_ & _ & _ & Hn). exact Hn.
Qed.

Lemma length_flat_map_if {A B : Type} (p : A -> bool) (f : A -> B)
    (l : list A) :
  List.length (flat_map (fun x => if p x then [f x] else []) l)
    = List.length (filter p l).
Proof.
  induction l as [| a l IH]; [reflexivity |].
  cbn [flat_map filter]. rewrite length_app, IH.
  destruct (p a); reflexivity.
Qed.

Lemma filter_nth_seq (l : list bool) (n s : nat) :
  List.length (filter (fun k => nth (k - s) l false) (seq s n))
    = List.length (filter (fun b : bool => b) (firstn n l)).
Proof.
  revert l s. induction n as [| n IH]; intros l s; [reflexivity |].
  destruct l as [| b l].
  - assert (Hnil : forall t : list nat,
              filter (fun k => nth (k - s) (@nil bool) false) t = []).
    { induction t as [| k t IHt]; [reflexivity |].
      cbn [filter]. rewrite IHt. destruct (k - s)%nat; reflexivity. }
    rewrite Hnil. reflexivity.
  - cbn [seq filter firstn]. rewrite Nat.sub_diag.
    change (nth 0 (b :: l) false) with b.
    assert (Hrest :
      filter (fun k => nth (k - s) (b :: l) false) (seq (S s) n)
      = filter (fun k => nth (k - S s) l false) (seq (S s) n)).
    { apply filter_ext_in. intros k Hk. apply in_seq in Hk.
      replace (k - s)%nat with (S (k - S s)) by lia. reflexivity. }
    rewrite Hrest. destruct b; cbn [List.length]; rewrite IH; reflexivity.
Qed.

Lemma firstn_plus {A : Type} (n m : nat) (l : list A) :
  firstn (n + m) l = firstn n l ++ firstn m (skipn n l).
Proof.
  revert l. induction n as [| n IH]; intros l; [reflexivity |].
  destruct l as [| a l]; cbn [Nat.add firstn skipn app].
  - now rewrite firstn_nil.
  - now rewrite IH.
Qed.

(** The solid cells of the first [H] rows of [W] cells, counted row by
    row. *)
Lemma solid_rows_count (cells : list bool) (W H : nat) :
  list_sum
    (map (fun r =>
            List.length (filter (fun b : bool => b)
                                (firstn W (skipn (r * W) cells))))
         (seq 0 H))
  = List.length (filter (fun b : bool => b) (firstn (H * W) cells)).
Proof.
  induction H as [| H IH]; [reflexivity |].
  rewrite seq_S, map_app, list_sum_app, IH. cbn [map list_sum Nat.add].
  replace (S H * W)%nat with (H * W + W)%nat by lia.
  rewrite firstn_plus, filter_app, length_app.
  unfold list_sum. cbn [fold_right]. lia.
Qed.

(** The solid cells of row [r], found by asking for each column. *)
Lemma solid_row_count (g : BoolArray2D) (r : nat) :
  wellFormed g -> Z.of_nat r < height g ->
  List.length
    (filter (fun x => elementAtLocation g x (Z.of_nat r)) (upto (width g)))
  = List.length
      (filter (fun b : bool => b)
              (firstn (Z.to_nat (width g))
                      (skipn (r * Z.to_nat (width g)) (d_cells g)))).
Proof.
  intros (Hw & Hh & Hlen) Hr. unfold upto.
  rewrite filter_map_swap, length_map.
  rewrite <- (filter_nth_seq _ _ 0).
  f_equal. apply filter_ext_in. intros k Hk. apply in_seq in Hk.
  unfold elementAtLocation.
  replace ((0 <=? Z.of_nat k) && (Z.of_nat k <? width g)
           && (0 <=? Z.of_nat r) && (Z.of_nat r <? height g)) with true.
  - rewrite nth_skipn, Nat.sub_0_r. f_equal. nia.
  - symmetry. repeat (apply andb_true_intro; split);
      try apply Z.leb_le; try apply Z.ltb_lt; lia.
Qed.

(** X19.  One piece of geometry is rendered for each solid cell of the item,
    no more and no fewer, when the item has a block image; the grid must
    have a cell for each location. *)
Theorem populateGeometryBuffer_one_piece_per_solid_cell
    (it : InventoryItem) (name : string) (img : Image) :
  wellFormed (d_content it) ->
  userStringBlockImage it = Some name ->
  imageFromString name = Some img ->
  List.length (populateGeometryBuffer squarePixelSize imageFromString it)
    = solidCells (d_content it).
Proof.
  intros Hwf Hname Himg. unfold populateGeometryBuffer.
  rewrite Hname, Himg. cbv zeta.
  rewrite length_flat_map. unfold upto at 2. rewrite map_map.
  erewrite map_ext_in;
    [| intros r Hr; apply in_seq in Hr; rewrite length_flat_map_if;
       apply solid_row_count; [exact Hwf | lia]].
  rewrite solid_rows_count. unfold solidCells.
  destruct Hwf as (Hw & Hh & Hlen).
  rewrite firstn_all2; [reflexivity | nia].
Qed.

End WithBases.

(** The L-shaped layout given to an empty 2 x 3 item: the cell in column 0
    of row 2 is element 4 of the layout. *)
Lemma setItemLayout_witness :
  isSolidAtLocation (setItemLayout layoutL emptyItem2x3) 0 2 = true /\
  isSolidAtLocation (setItemLayout layoutL emptyItem2x3) 1 0 = false.
Proof.
  split.
  - apply (setItemLayout_then_isSolidAtLocation layoutL emptyItem2x3 0 2);
      cbn; unfold wellFormed; cbn; lia.
  - apply (setItemLayout_then_isSolidAtLocation layoutL emptyItem2x3 1 0);
      cbn; unfold wellFormed; cbn; lia.
Defined.

(** The same item is hit at the pixel (10,70), which is in column 0 of row
    2 of a grid of 32-pixel cells. *)
Lemma isHit_witness :
  isHit hitAnywhere itemGrid32 itemGrid32
        (setItemLayout layoutL emptyItem2x3) (pixel 10 70) false = true.
Proof.
  apply (isHit_iff_layout_marks_cell hitAnywhere itemGrid32 itemGrid32
           layoutL emptyItem2x3 (pixel 10 70) false).
  - unfold wellFormed. cbn. lia.
  - cbn. lia.
  - vm_compute. repeat split; discriminate.
Defined.

(** The fully solid 2 x 2 item of the example renders four pieces. *)
Lemma populateGeometryBuffer_count_witness :
  List.length (populateGeometryBuffer squares32 anyImage draggedItem) = 4%nat.
Proof.
  apply (populateGeometryBuffer_one_piece_per_solid_cell squares32 anyImage
           draggedItem "BlockImage"%string (mkImage "BlockImage"%string)).
  - unfold wellFormed. cbn. lia.
  - reflexivity.
  - reflexivity.
Defined.

End InventoryLayoutProperties.

(** ** src/RendererModules/OpenGL/GL3Renderer.cpp: the frame around the
       rendering, and where the geometry lands in the shared buffers *)

Module GL3RendererFrameProperties.

Import Float32.
Import FrameWindowM.
Import GL3Renderer.
Import GL3RendererFrame.

Lemma enabledAfter_app (cap : Capability) (l1 l2 : list FrameCall)
    (before : bool) :
  enabledAfter cap (l1 ++ l2) before
    = enabledAfter cap l2 (enabledAfter cap l1 before).
Proof. unfold enabledAfter. apply fold_left_app. Qed.

Lemma blendFunctionAfter_app (l1 l2 : list FrameCall) (before : GLCall) :
  blendFunctionAfter (l1 ++ l2) before
    = blendFunctionAfter l2 (blendFunctionAfter l1 before).
Proof. unfold blendFunctionAfter. apply fold_left_app. Qed.

Section WithOpenGLInfo.

Variable isPolygonModeSupported : bool.
Variable isVaoSupported : bool.

(** X20.  [beginRendering] brings OpenGL to a known state whatever was there
    before, and whatever the renderer believed: blending and the scissor
    test are enabled, the blend function is the one of the Normal mode (it
    is set after the reset of the states, which sets another one), and the
    renderer records Normal as the active mode. The state-change wrapper is
    reset first. *)
Theorem beginRendering_reaches_known_state
    (r : FrameRenderer) (blendBefore scissorBefore : bool)
    (functionBefore : GLCall) :
  let result := beginRendering isPolygonModeSupported isVaoSupported r in
  enabledAfter GL_BLEND (snd result) blendBefore = true /\
  enabledAfter GL_SCISSOR_TEST (snd result) scissorBefore = true /\
  blendFunctionAfter (snd result) functionBefore = normalBlendFunction /\
  d_activeBlendMode (renderer (fst result)) = Normal /\
  hd_error (snd result) = Some StateChanger_reset /\
  d_isStateResettingEnabled (fst result) = d_isStateResettingEnabled r.
Proof.
  cbv zeta. unfold beginRendering.
  rewrite GL3RendererProperties.setupRenderingBlendMode_forced.
  cbn [fst snd renderer d_isStateResettingEnabled map BlendMode_eqb].
  unfold restoreChangedStatesToDefaults.
  destruct (d_isStateResettingEnabled r), isPolygonModeSupported,
    isVaoSupported; repeat split.
Qed.

(** X21.  With state resetting switched on, the end of a frame leaves
    blending, the scissor test, face culling and the depth test disabled and
    the blend function at (ONE, ZERO), but the renderer still records Normal
    as its active blend mode: a request for Normal that is not forced would
    make no call at all, which is why [beginRendering] forces it. *)
Theorem frame_end_resets_states_but_not_the_recorded_mode
    (r : FrameRenderer) (before : bool) (functionBefore : GLCall)
    (cap : Capability) :
  let begun := beginRendering isPolygonModeSupported isVaoSupported r in
  let calls :=
    snd begun
    ++ endRendering isPolygonModeSupported isVaoSupported (fst begun) in
  d_isStateResettingEnabled r = true ->
  enabledAfter cap calls before = false /\
  blendFunctionAfter calls functionBefore
    = StateChanger_blendFunc GL_ONE GL_ZERO /\
  d_activeBlendMode (renderer (fst begun)) = Normal /\
  setupRenderingBlendMode Normal false (renderer (fst begun))
    = (renderer (fst begun), []) /\
  last calls StateChanger_reset = StateChanger_bindVertexArray 0.
Proof.
  intros begun calls Hreset. subst calls begun.
  unfold beginRendering, endRendering.
  rewrite GL3RendererProperties.setupRenderingBlendMode_forced.
  cbn [fst snd renderer d_isStateResettingEnabled map BlendMode_eqb].
  rewrite Hreset. unfold restoreChangedStatesToDefaults.
  split; [| split; [| split; [| split]]].
  - destruct isPolygonModeSupported, isVaoSupported, cap; reflexivity.
  - destruct isPolygonModeSupported, isVaoSupported; reflexivity.
  - reflexivity.
  - reflexivity.
  - destruct isPolygonModeSupported, isVaoSupported; reflexivity.
Qed.

End WithOpenGLInfo.

(** *** The shared vertex buffers *)

Lemma size_t_div_positive (size element_count : Z) :
  0 < element_count ->
  size_t_div size element_count = Some (size / element_count).
Proof.
  intros H. unfold size_t_div.
  destruct (Z.ltb_spec element_count 0) as [Hneg | _]; [lia |].
  destruct (Z.eqb_spec element_count 0) as [E | _]; [lia | reflexivity].
Qed.

(** What a result of [addGeometry] on a list that is not empty consists
    of: the first buffer with its position, and the result for the rest. *)
Lemma addGeometry_cons_inv (b : OpenGL3GeometryBuffer)
    (rest : list OpenGL3GeometryBuffer) (solid textured s t : list float)
    (bs : list OpenGL3GeometryBuffer) :
  addGeometry (b :: rest) solid textured = Some (s, t, bs) ->
  exists b' bs',
    bs = b' :: bs' /\
    getVertexData b' = getVertexData b /\
    getVertexAttributeElementCount b' = getVertexAttributeElementCount b /\
    ((getVertexData b = [] /\ b' = b /\
      addGeometry rest solid textured = Some (s, t, bs')) \/
     (getVertexData b <> [] /\ isTextured b = true /\
      size_t_div (Z.of_nat (List.length textured))
        (getVertexAttributeElementCount b)
        = Some (d_verticesVBOPosition b') /\
      addGeometry rest solid (textured ++ getVertexData b)
        = Some (s, t, bs')) \/
     (getVertexData b <> [] /\ isTextured b = false /\
      size_t_div (Z.of_nat (List.length solid))
        (getVertexAttributeElementCount b)
        = Some (d_verticesVBOPosition b') /\
      addGeometry rest (solid ++ getVertexData b) textured
        = Some (s, t, bs'))).
Proof.
  cbn [addGeometry]. unfold isTextured.
  destruct (getVertexData b) as [| v vs] eqn:Hd.
  - destruct (addGeometry rest solid textured) as [[[s' t'] bs'] |];
      [| discriminate].
    intros H. injection H as <- <- <-. exists b, bs'.
    split; [reflexivity | split; [exact Hd | split; [reflexivity |]]].
    left. repeat split.
  - destruct (getVertexAttributeElementCount b =? 9) eqn:Ht.
    + destruct (size_t_div (Z.of_nat (List.length textured))
                  (getVertexAttributeElementCount b)) as [position |];
        [| discriminate].
      destruct (addGeometry rest solid (textured ++ v :: vs))
        as [[[s' t'] bs'] |]; [| discriminate].
      intros H. injection H as <- <- <-.
      exists (mkBuffer (v :: vs) (getVertexAttributeElementCount b) position),
             bs'.
      split; [reflexivity | split; [reflexivity | split; [reflexivity |]]].
      right. left. repeat split. discriminate.
    + destruct (size_t_div (Z.of_nat (List.length solid))
                  (getVertexAttributeElementCount b)) as [position |];
        [| discriminate].
      destruct (addGeometry rest (solid ++ v :: vs) textured)
        as [[[s' t'] bs'] |]; [| discriminate].
      intros H. injection H as <- <- <-.
      exists (mkBuffer (v :: vs) (getVertexAttributeElementCount b) position),
             bs'.
      split; [reflexivity | split; [reflexivity | split; [reflexivity |]]].
      right. right. repeat split. discriminate.
Qed.

(** [addGeometry] has a result when every buffer that holds data has a
    positive element count. *)
Lemma addGeometry_defined (buffers : list OpenGL3GeometryBuffer) :
  Forall positiveElementCount buffers ->
  forall solid textured,
    exists s t bs, addGeometry buffers solid textured = Some (s, t, bs).
Proof.
  induction 1 as [| b rest Hb _ IH]; intros solid textured.
  - now exists solid, textured, [].
  - cbn [addGeometry].
    destruct (getVertexData b) as [| v vs] eqn:Hd.
    + destruct (IH solid textured) as (s & t & bs & ->). now do 3 eexists.
    + destruct Hb as [He | Hpos]; [congruence |].
      rewrite !size_t_div_positive by exact Hpos.
      destruct (getVertexAttributeElementCount b =? 9).
      * destruct (IH solid (textured ++ v :: vs)) as (s & t & bs & ->).
        now do 3 eexists.
      * destruct (IH (solid ++ v :: vs) textured) as (s & t & bs & ->).
        now do 3 eexists.
Qed.

(** [addGeometry] appends: the solid data of the buffers, in their order,
    to the solid vector, the textured data to the textured one; the buffers
    keep their data and their element count. *)
Lemma addGeometry_sorts (buffers : list OpenGL3GeometryBuffer) :
  forall solid textured s t bs,
    addGeometry buffers solid textured = Some (s, t, bs) ->
    s = solid ++ List.concat (map getVertexData
                           (filter (fun b => negb (isTextured b)) buffers)) /\
    t = textured ++ List.concat (map getVertexData (filter isTextured buffers))
    /\
    map getVertexData bs = map getVertexData buffers /\
    map getVertexAttributeElementCount bs
      = map getVertexAttributeElementCount buffers.
Proof.
  induction buffers as [| b rest IH]; intros solid textured s t bs H.
  - cbn in H. injection H as <- <- <-. cbn. now rewrite !app_nil_r.
  - apply addGeometry_cons_inv in H.
    destruct H as (b' & bs' & -> & Hd & Hc &
                   [(He & _ & Hr) | [(_ & Ht & _ & Hr) | (_ & Ht & _ & Hr)]]);
      apply IH in Hr; destruct Hr as (H1 & H2 & H3 & H4);
      cbn [map filter]; rewrite Hd, Hc, H3, H4.
    + subst s t.
      destruct (isTextured b); cbn [negb map List.concat]; rewrite He;
        repeat split; reflexivity.
    + subst s t. rewrite Ht. cbn [negb map List.concat].
      rewrite <- app_assoc. repeat split; reflexivity.
    + subst s t. rewrite Ht. cbn [negb map List.concat].
      rewrite <- app_assoc. repeat split; reflexivity.
Qed.

(** X22.  [uploadBuffers] sorts the geometry by vertex format and keeps its
    order: when every buffer that holds data has a positive element count,
    it has a result, and afterwards the solid vector is the data of the
    buffers that are not textured, one after the other, and the textured
    vector that of the textured ones; what the vectors held before is gone;
    the buffers keep their data and element counts, and the rest of the
    renderer is as it was. *)
Theorem uploadBuffers_sorts_geometry_by_format
    (buffers : list OpenGL3GeometryBuffer) (r : OpenGL3Renderer) :
  Forall positiveElementCount buffers ->
  exists r' positioned calls,
    uploadBuffers buffers r = Some (r', positioned, calls) /\
    d_vertex_data_solid r' =
      List.concat (map getVertexData
                  (filter (fun b => negb (isTextured b)) buffers)) /\
    d_vertex_data_textured r' =
      List.concat (map getVertexData (filter isTextured buffers)) /\
    map getVertexData positioned = map getVertexData buffers /\
    map getVertexAttributeElementCount positioned
      = map getVertexAttributeElementCount buffers /\
    d_activeBlendMode r' = d_activeBlendMode r /\
    d_verticesSolidVBO r' = d_verticesSolidVBO r /\
    d_verticesTexturedVBO r' = d_verticesTexturedVBO r.
Proof.
  intros Hpos. unfold uploadBuffers.
  destruct (addGeometry_defined buffers Hpos [] []) as (s & t & bs & Hr).
  rewrite Hr. do 3 eexists. split; [reflexivity |].
  destruct (addGeometry_sorts buffers [] [] s t bs Hr) as (H1 & H2 & H3 & H4).
  cbn [d_vertex_data_solid d_vertex_data_textured d_activeBlendMode
       d_verticesSolidVBO d_verticesTexturedVBO].
  cbn [app] in H1, H2. repeat split; assumption.
Qed.

Lemma verticesAt_recorded (before data more : list float) (count : Z) :
  0 < count ->
  Z.of_nat (List.length before) mod count = 0 ->
  verticesAt (before ++ data ++ more)
             (Z.of_nat (List.length before) / count) count
             (List.length data)
  = data.
Proof.
  intros Hc Hmod. unfold verticesAt.
  assert (Hpos : Z.of_nat (List.length before) / count * count
                 = Z.of_nat (List.length before)).
  { pose proof (Z.div_mod (Z.of_nat (List.length before)) count ltac:(lia)).
    lia. }
  rewrite Hpos, Nat2Z.id, skipn_app, skipn_all, Nat.sub_diag.
  cbn [skipn app]. rewrite firstn_app, firstn_all, Nat.sub_diag.
  cbn [firstn]. apply app_nil_r.
Qed.

Lemma wholeVertices_positive (solidCount : Z) (b : OpenGL3GeometryBuffer) :
  wholeVertices solidCount b -> positiveElementCount b.
Proof. intros (Hc & [E | E] & _); right; lia. Qed.

Lemma addGeometry_positions (solidCount : Z)
    (buffers : list OpenGL3GeometryBuffer) :
  Forall (wholeVertices solidCount) buffers ->
  forall solid textured s t bs,
    Z.of_nat (List.length solid) mod solidCount = 0 ->
    Z.of_nat (List.length textured) mod 9 = 0 ->
    addGeometry buffers solid textured = Some (s, t, bs) ->
    Forall
      (fun b =>
         verticesAt (destinationOf b s t)
                    (d_verticesVBOPosition b)
                    (getVertexAttributeElementCount b)
                    (List.length (getVertexData b))
         = getVertexData b)
      bs.
Proof.
  induction 1 as [| b rest Hb Hrest IH]; intros solid textured s t bs Hs Ht H.
  - cbn in H. injection H as <- <- <-. constructor.
  - pose proof Hb as (Hc & Hcount & Hlen).
    apply addGeometry_cons_inv in H.
    destruct H as (b' & bs' & -> & Hd & Hcnt &
                   [(He & -> & Hr)
                   | [(_ & Htex & Hdiv & Hr) | (_ & Htex & Hdiv & Hr)]]).
    + constructor; [| now apply (IH solid textured)].
      rewrite He. reflexivity.
    + assert (H9 : getVertexAttributeElementCount b = 9)
        by (now apply Z.eqb_eq).
      assert (Hnext : Z.of_nat (List.length (textured ++ getVertexData b))
                      mod 9 = 0).
      { rewrite length_app, Nat2Z.inj_add, Z.add_mod, Ht by lia.
        rewrite H9 in Hlen. rewrite Hlen. reflexivity. }
      rewrite H9, size_t_div_positive in Hdiv by lia.
      injection Hdiv as Hdiv.
      constructor; [| now apply (IH solid (textured ++ getVertexData b))].
      unfold destinationOf. rewrite Hd, Hcnt, <- Hdiv, H9.
      cbn [Z.eqb Pos.eqb].
      destruct (addGeometry_sorts rest solid (textured ++ getVertexData b)
                  s t bs' Hr) as (_ & H2 & _).
      rewrite H2, <- app_assoc.
      apply verticesAt_recorded; [lia | exact Ht].
    + assert (Hsc : getVertexAttributeElementCount b = solidCount).
      { destruct Hcount as [E | E]; [exact E |].
        unfold isTextured in Htex. rewrite E in Htex. discriminate. }
      assert (Hnext : Z.of_nat (List.length (solid ++ getVertexData b))
                      mod solidCount = 0).
      { rewrite length_app, Nat2Z.inj_add, Z.add_mod, Hs by lia.
        rewrite Hsc in Hlen. rewrite Hlen. reflexivity. }
      rewrite size_t_div_positive in Hdiv by lia.
      injection Hdiv as Hdiv.
      constructor; [| now apply (IH (solid ++ getVertexData b) textured)].
      unfold destinationOf. rewrite Hd, Hcnt, <- Hdiv.
      unfold isTextured in Htex. rewrite Htex.
      destruct (addGeometry_sorts rest (solid ++ getVertexData b) textured
                  s t bs' Hr) as (H1 & _).
      rewrite H1, <- app_assoc, Hsc.
      apply verticesAt_recorded; [lia | exact Hs].
Qed.

(** X23.  Every geometry buffer can find its vertices again: when the
    buffers hold whole vertices, [uploadBuffers] has a result, and
    afterwards the vertex components that start at the recorded position of
    a buffer, in the shared vector for its format, are exactly the data of
    that buffer. *)
Theorem uploadBuffers_records_where_the_vertices_are
    (solidCount : Z) (buffers : list OpenGL3GeometryBuffer)
    (r : OpenGL3Renderer) :
  Forall (wholeVertices solidCount) buffers ->
  exists r' positioned calls,
    uploadBuffers buffers r = Some (r', positioned, calls) /\
    Forall
      (fun b =>
         verticesAt (destinationOf b (d_vertex_data_solid r')
                                   (d_vertex_data_textured r'))
                    (d_verticesVBOPosition b)
                    (getVertexAttributeElementCount b)
                    (List.length (getVertexData b))
         = getVertexData b)
      positioned.
Proof.
  intros Hwhole. unfold uploadBuffers.
  assert (Hpos : Forall positiveElementCount buffers).
  { eapply Forall_impl; [| exact Hwhole].
    intros b. apply wholeVertices_positive. }
  destruct (addGeometry_defined buffers Hpos [] []) as (s & t & bs & Hr).
  rewrite Hr. do 3 eexists. split; [reflexivity |].
  cbn [d_vertex_data_solid d_vertex_data_textured].
  destruct buffers as [| b rest].
  - cbn in Hr. injection Hr as <- <- <-. constructor.
  - assert (Hc : 0 < solidCount)
      by (inversion Hwhole as [| ? ? (Hc & _) _]; exact Hc).
    apply (addGeometry_positions solidCount (b :: rest) Hwhole [] [] s t bs).
    + apply Z.mod_0_l. lia.
    + reflexivity.
    + exact Hr.
Qed.

(** The positions that [addGeometry] records do not depend on the ones the
    buffers held: its result processed again is the same. *)
Lemma addGeometry_ignores_positions (buffers : list OpenGL3GeometryBuffer) :
  forall solid textured s t bs,
    addGeometry buffers solid textured = Some (s, t, bs) ->
    addGeometry bs solid textured = Some (s, t, bs).
Proof.
  induction buffers as [| b rest IH]; intros solid textured s t bs H.
  - cbn in H. injection H as <- <- <-. reflexivity.
  - apply addGeometry_cons_inv in H.
    destruct H as (b' & bs' & -> & Hd & Hcnt &
                   [(He & -> & Hr)
                   | [(Hne & Htex & Hdiv & Hr) | (Hne & Htex & Hdiv & Hr)]]).
    + cbn [addGeometry]. rewrite He, (IH _ _ _ _ _ Hr). reflexivity.
    + destruct b' as [data count position].
      cbn [getVertexData getVertexAttributeElementCount
           d_verticesVBOPosition] in *.
      subst data count. unfold isTextured in Htex.
      cbn [addGeometry getVertexData getVertexAttributeElementCount].
      destruct (getVertexData b) as [| v vs]; [now elim Hne |].
      rewrite Htex, Hdiv, (IH _ _ _ _ _ Hr). reflexivity.
    + destruct b' as [data count position].
      cbn [getVertexData getVertexAttributeElementCount
           d_verticesVBOPosition] in *.
      subst data count. unfold isTextured in Htex.
      cbn [addGeometry getVertexData getVertexAttributeElementCount].
      destruct (getVertexData b) as [| v vs]; [now elim Hne |].
      rewrite Htex, Hdiv, (IH _ _ _ _ _ Hr). reflexivity.
Qed.

Lemma uploadVertexData_again (vertex_data : list float)
    (vbo_id vbo_max_size : GLuint) :
  (4 * Z.of_nat (List.length vertex_data) < 2 ^ 32)%Z ->
  let first := uploadVertexData vertex_data vbo_id vbo_max_size in
  let second := uploadVertexData vertex_data vbo_id (snd first) in
  snd second = snd first /\ existsb isBufferData (fst second) = false /\
  (vbo_max_size <= snd first)%Z.
Proof.
  intros Hsmall first second.
  pose proof (GL3RendererProperties.uploadVertexData_capacity_le
                vertex_data vbo_id vbo_max_size Hsmall) as Hle.
  fold first in Hle. subst second first. unfold uploadVertexData in *.
  destruct vertex_data as [| v vs]; [repeat split; exact Hle |].
  rewrite (GL3RendererProperties.byteSize_small (v :: vs) Hsmall) in *.
  destruct (Z.gtb_spec (4 * Z.of_nat (List.length (v :: vs))) vbo_max_size)
    as [Hgt | Hnot]; cbn [fst snd] in *.
  - unfold GLuint_of. rewrite Z.mod_small by lia.
    destruct (Z.gtb_spec (4 * Z.of_nat (List.length (v :: vs)))
                (4 * Z.of_nat (List.length (v :: vs)))); [lia |].
    repeat split. unfold GLuint_of in Hle. rewrite Z.mod_small in Hle by lia.
    exact Hle.
  - destruct (Z.gtb_spec (4 * Z.of_nat (List.length (v :: vs))) vbo_max_size);
      [lia |].
    repeat split. lia.
Qed.

(** X24.  A frame with the same geometry as the last one allocates nothing:
    when every buffer that holds data has a positive element count,
    [uploadBuffers] has a result, and when the buffers it has just processed
    are uploaded again, with both shared vectors holding less than 4 GiB,
    there is a result again, no [glBufferData] is issued, the data is
    written in place, and the renderer and the recorded positions are as
    after the first upload.  The capacities of the shared buffers did not
    shrink in the first upload. *)
Theorem second_upload_of_same_geometry_allocates_nothing
    (buffers : list OpenGL3GeometryBuffer) (r : OpenGL3Renderer) :
  Forall positiveElementCount buffers ->
  exists r' positioned calls,
    uploadBuffers buffers r = Some (r', positioned, calls) /\
    ((4 * Z.of_nat (List.length (d_vertex_data_solid r')) < 2 ^ 32)%Z ->
     (4 * Z.of_nat (List.length (d_vertex_data_textured r')) < 2 ^ 32)%Z ->
     exists calls',
       uploadBuffers positioned r' = Some (r', positioned, calls') /\
       existsb isBufferData calls' = false /\
       (d_verticesSolidVBOSize r <= d_verticesSolidVBOSize r')%Z /\
       (d_verticesTexturedVBOSize r <= d_verticesTexturedVBOSize r')%Z).
Proof.
  intros Hpos. unfold uploadBuffers.
  destruct (addGeometry_defined buffers Hpos [] [])
    as (solid & textured & bs & Hr).
  rewrite Hr. do 3 eexists. split; [reflexivity |].
  rewrite (addGeometry_ignores_positions buffers [] [] _ _ _ Hr).
  cbn [d_vertex_data_solid d_vertex_data_textured d_rendererID
       d_displaySize d_activeBlendMode d_verticesSolidVBO
       d_verticesSolidVBOSize d_verticesTexturedVBO
       d_verticesTexturedVBOSize].
  intros Hs Ht.
  destruct (uploadVertexData_again solid (d_verticesSolidVBO r)
              (d_verticesSolidVBOSize r) Hs) as (S1 & S2 & S3).
  destruct (uploadVertexData_again textured (d_verticesTexturedVBO r)
              (d_verticesTexturedVBOSize r) Ht) as (T1 & T2 & T3).
  cbv zeta in S1, S2, S3, T1, T2, T3.
  eexists. split; [rewrite S1, T1; reflexivity |].
  rewrite existsb_app, S2, T2. repeat split; assumption.
Qed.

Lemma sampleBuffers_positive : Forall positiveElementCount sampleBuffers.
Proof.
  unfold sampleBuffers, positiveElementCount.
  repeat (apply Forall_cons || apply Forall_nil);
    cbn [getVertexAttributeElementCount]; right; lia.
Qed.

(** Three buffers, two solid ones around a textured one: the solid vector
    holds the first and the third, 28 components, the textured vector the
    27 components of the second. *)
Lemma uploadBuffers_sorts_witness :
  exists r' positioned calls,
    uploadBuffers sampleBuffers freshRenderer = Some (r', positioned, calls) /\
    List.length (d_vertex_data_solid r') = 28%nat /\
    List.length (d_vertex_data_textured r') = 27%nat.
Proof.
  destruct (uploadBuffers_sorts_geometry_by_format sampleBuffers freshRenderer
              sampleBuffers_positive)
    as (r' & positioned & calls & Hr & Hs & Ht & _).
  exists r', positioned, calls.
  split; [exact Hr | split].
  - rewrite Hs. reflexivity.
  - rewrite Ht. reflexivity.
Defined.

(** Three buffers of whole vertices, seven components for the solid and
    nine for the textured ones. *)
Lemma uploadBuffers_records_witness :
  exists r' positioned calls,
    uploadBuffers sampleBuffers freshRenderer = Some (r', positioned, calls) /\
    Forall
      (fun b =>
         verticesAt (destinationOf b (d_vertex_data_solid r')
                                   (d_vertex_data_textured r'))
                    (d_verticesVBOPosition b)
                    (getVertexAttributeElementCount b)
                    (List.length (getVertexData b))
         = getVertexData b)
      positioned.
Proof.
  apply (uploadBuffers_records_where_the_vertices_are 7 sampleBuffers
           freshRenderer).
  unfold sampleBuffers, wholeVertices.
  repeat (apply Forall_cons || apply Forall_nil);
    cbn [getVertexAttributeElementCount getVertexData];
    (split; [lia | split; [auto | reflexivity]]).
Defined.

(** A frame of the renderer that resets the states, on a context that
    supports polygon modes and vertex arrays. *)
Lemma frame_end_witness :
  let begun := beginRendering true true resettingRenderer in
  let calls := snd begun ++ endRendering true true (fst begun) in
  enabledAfter GL_BLEND calls true = false /\
  blendFunctionAfter calls normalBlendFunction
    = StateChanger_blendFunc GL_ONE GL_ZERO.
Proof.
  pose proof (frame_end_resets_states_but_not_the_recorded_mode true true
                resettingRenderer true normalBlendFunction GL_BLEND eq_refl)
    as (H1 & H2 & _).
  split; [exact H1 | exact H2].
Defined.

(** The same three buffers uploaded twice into a fresh renderer. *)
Lemma second_upload_witness :
  exists r' positioned calls calls',
    uploadBuffers sampleBuffers freshRenderer = Some (r', positioned, calls) /\
    uploadBuffers positioned r' = Some (r', positioned, calls') /\
    existsb isBufferData calls' = false.
Proof.
  destruct (second_upload_of_same_geometry_allocates_nothing sampleBuffers
              freshRenderer sampleBuffers_positive)
    as (r' & positioned & calls & Hr & Hagain).
  pose proof Hr as Hfirst. vm_compute in Hfirst.
  injection Hfirst as Hr' _ _.
  destruct Hagain as (calls' & H1 & H2 & _).
  - rewrite <- Hr'. cbn. lia.
  - rewrite <- Hr'. cbn. lia.
  - exists r', positioned, calls, calls'. repeat split; assumption.
Defined.

End GL3RendererFrameProperties.

(** ** src/BoundSlot.cpp *)

Module BoundSlotProperties.

Import BoundSlotM.

Lemma disconnect_disconnected (s : BoundSlot) :
  d_event s = None -> disconnect s = (s, []).
Proof. intros H. unfold disconnect. now rewrite H. Qed.

Lemma disconnectTimes_disconnected (n : nat) (s : BoundSlot) :
  d_event s = None -> disconnectTimes n s = (s, []).
Proof.
  intros H. induction n as [| n IH]; [reflexivity |].
  cbn [disconnectTimes]. rewrite (disconnect_disconnected s H), IH.
  reflexivity.
Qed.

(** X25.  A slot leaves its event exactly once: however often [disconnect]
    is called on a slot between its construction and its destruction, the
    event is asked once to drop the slot, on the first occasion, and the
    subscriber is deleted once, by the destructor and after that. *)
Theorem slot_unsubscribes_exactly_once
    (n : nat) (group : Z) (subscriber event : string) :
  let '(s, calls) := disconnectTimes n (construct group subscriber event) in
  calls ++ destructor s =
    [Event_unsubscribe event group subscriber; delete_subscriber subscriber].
Proof.
  destruct n as [| n].
  - reflexivity.
  - cbn [disconnectTimes construct disconnect d_event d_group d_subscriber].
    rewrite disconnectTimes_disconnected by reflexivity.
    reflexivity.
Qed.

End BoundSlotProperties.

(** ** samples/Widgets/Widgets.cpp: the log of fired events, widget type
       names, and the cache of created widgets *)

Module WidgetsSampleProperties.

Import WidgetsSample.

Lemma String_eqb_refl (s : String) : String_eqb s s = true.
Proof.
  unfold String_eqb. destruct (list_eq_dec Ascii.ascii_dec s s); congruence.
Qed.

Lemma String_eqb_eq (a b : String) : String_eqb a b = true <-> a = b.
Proof.
  unfold String_eqb. destruct (list_eq_dec Ascii.ascii_dec a b);
    split; congruence.
Qed.

Lemma String_eqb_neq (a b : String) : a <> b -> String_eqb a b = false.
Proof.
  intros H. destruct (String_eqb a b) eqn:E; [| reflexivity].
  apply String_eqb_eq in E. contradiction.
Qed.

Lemma int_of_small (z : Z) : 0 <= z < 2 ^ 31 -> int_of z = z.
Proof.
  intros H. unfold int_of. rewrite Z.mod_small; lia.
Qed.

Lemma int_of_wrapped (z : Z) :
  - 2 ^ 31 <= z < 0 -> int_of (size_type_of z) = z.
Proof.
  intros H. unfold int_of, size_type_of.
  replace (z mod 2 ^ 64) with (z + 2 ^ 64) by
    (apply Z.mod_unique with (q := -1); lia).
  replace (z + 2 ^ 64 + 2 ^ 31) with (z + 2 ^ 31 + 2 ^ 32 * 2 ^ 32) by lia.
  rewrite Z_mod_plus_full, Z.mod_small; lia.
Qed.

Lemma size_type_of_small (z : Z) : 0 <= z < 2 ^ 64 -> size_type_of z = z.
Proof. intros H. unfold size_type_of. apply Z.mod_small. lia. Qed.

Lemma substr_from (s : String) (pos n : Z) :
  0 <= pos <= length s -> length s - pos <= n ->
  substr s pos n = Some (skipn (Z.to_nat pos) s).
Proof.
  intros Hpos Hn. unfold substr.
  destruct (Z.gtb_spec pos (length s)); [lia |].
  rewrite Z.min_r by lia. f_equal. apply firstn_all2.
  rewrite length_skipn. unfold length in *. lia.
Qed.

Lemma substr_prefix (s : String) (n : Z) :
  0 <= n <= length s ->
  substr s 0 n = Some (firstn (Z.to_nat n) s).
Proof.
  intros Hn. unfold substr.
  destruct (Z.gtb_spec 0 (length s)); [unfold length in *; lia |].
  rewrite Z.min_l by lia. reflexivity.
Qed.

(** Where [find_from] stops: at the first occurrence, if there is one. *)
Lemma find_from_spec (c : ascii) (s : String) :
  forall at_, 0 <= at_ -> at_ + length s < npos ->
    (find_from s c at_ = npos /\ ~ In c s) \/
    (exists k, find_from s c at_ = at_ + Z.of_nat k /\
               (k < List.length s)%nat /\
               nth_error s k = Some c /\ ~ In c (firstn k s)).
Proof.
  induction s as [| a s IH]; intros at_ Hat Hlen.
  - left. split; [reflexivity | intros []].
  - cbn [find_from]. destruct (Ascii.eqb_spec a c) as [-> | Hne].
    + right. exists 0%nat. repeat split; cbn; try lia; auto.
    + unfold length in *. cbn [List.length] in Hlen.
      destruct (IH (at_ + 1) ltac:(lia) ltac:(unfold length; lia))
        as [(Hn & Hnot) | (k & Hk & Hlt & Hnth & Hbefore)].
      * left. split; [exact Hn |]. intros [E | Hin]; [congruence | auto].
      * right. exists (S k). repeat split; cbn [List.length nth_error firstn];
          try lia; try assumption.
        intros [E | Hin]; [congruence | auto].
Qed.


(** What [appendToLog] does to a text of [n] characters, [n] below 2^31. *)
Lemma appendToLog_cases (eventsLog logMessage : String) :
  let text := eventsLog ++ logMessage in
  length text < 2 ^ 31 ->
  (length text < 2056 /\ appendToLog eventsLog logMessage = Some text) \/
  (2056 <= length text /\
   let window := skipn (Z.to_nat (length text - 2056)) text in
   (~ In newline window /\ appendToLog eventsLog logMessage = Some window) \/
   (exists k, (k < 2056)%nat /\ nth_error window k = Some newline /\
              ~ In newline (firstn k window) /\
              appendToLog eventsLog logMessage = Some (skipn k window))).
Proof.
  intros text Hn. unfold appendToLog. fold text.
  assert (H0 : 0 <= length text) by (unfold length; lia).
  rewrite (int_of_small (length text)) by lia.
  destruct (Z_lt_le_dec (length text) 2056) as [Hlt | Hge].
  - left. split; [exact Hlt |].
    rewrite int_of_wrapped by lia.
    rewrite Z.max_r, Z.min_l by lia.
    rewrite !size_type_of_small by lia.
    rewrite substr_prefix by lia.
    destruct (Z.eqb_spec (length text) 2056); [lia |].
    f_equal. apply firstn_all2. unfold length. lia.
  - right. split; [exact Hge |]. cbv zeta.
    rewrite (size_type_of_small (length text - 2056)) by lia.
    rewrite int_of_small by lia.
    rewrite Z.max_l, Z.min_r by lia.
    rewrite !size_type_of_small by lia.
    rewrite substr_from by lia. cbn [Z.eqb Pos.eqb].
    set (window := skipn (Z.to_nat (length text - 2056)) text).
    assert (Hw : List.length window = 2056%nat).
    { unfold window. rewrite length_skipn. unfold length in *. lia. }
    unfold find_first_of.
    destruct (find_from_spec newline window 0 ltac:(lia)
                ltac:(unfold length, npos; rewrite Hw; lia))
      as [(Hnone & Hnot) | (k & Hk & Hlt & Hnth & Hbefore)].
    + left. split; [exact Hnot |]. rewrite Hnone, Z.eqb_refl. reflexivity.
    + right. exists k. rewrite Hw in Hlt. repeat split; try assumption.
      rewrite Hk. cbn [Z.add].
      destruct (Z.eqb_spec (Z.of_nat k) npos) as [E | _];
        [unfold npos in E; lia |].
      cbn [negb]. rewrite substr_from.
      * now rewrite Nat2Z.id.
      * unfold length. rewrite Hw. lia.
      * unfold length, npos. rewrite Hw. lia.
Qed.


Lemma in_firstn_of_nth_error (s : String) (i k : nat) (c : ascii) :
  nth_error s i = Some c -> (i < k)%nat -> In c (firstn k s).
Proof.
  intros Hnth Hlt. apply nth_error_In with (n := i).
  rewrite nth_error_firstn.
  destruct (Nat.ltb_spec i k); [exact Hnth | lia].
Qed.

Lemma length_logMessageOf (name : String) (args : EventArgsKind) :
  length name + 42 <= length (logMessageOf name args)
  /\ length (logMessageOf name args) <= length name + 58.
Proof.
  unfold logMessageOf, length. rewrite !length_app.
  destruct args; cbn; lia.
Qed.

(** A message shorter than 2056 characters that ends a line, appended to a
    log that is empty or ends a line, is kept in full. *)
Lemma appendToLog_keeps_message (eventsLog logMessage : String) :
  (eventsLog = [] \/ exists l, eventsLog = l ++ [newline]) ->
  (exists m, logMessage = m ++ [newline]) ->
  length logMessage < 2056 ->
  length eventsLog < 2 ^ 30 ->
  exists before, appendToLog eventsLog logMessage = Some (before ++ logMessage).
Proof.
  intros Hlog (m & Hm) Hshort Hlen.
  assert (Hmlen : List.length logMessage = S (List.length m))
    by (rewrite Hm, length_app; cbn; lia).
  assert (Hn : length (eventsLog ++ logMessage) < 2 ^ 31)
    by (unfold length in *; rewrite length_app; lia).
  assert (Htotal : List.length (eventsLog ++ logMessage)
                   = (List.length eventsLog + List.length logMessage)%nat)
    by (apply length_app).
  destruct (appendToLog_cases eventsLog logMessage Hn)
    as [(Hlt & Hr) | (Hge & [(Hnot & Hr) | (k & Hk & Hnth & Hbefore & Hr)])].
  - exists eventsLog. exact Hr.
  - exfalso. apply Hnot. apply nth_error_In with (n := 2055%nat).
    unfold length in *. rewrite nth_error_skipn.
    replace (Z.to_nat (Z.of_nat (List.length (eventsLog ++ logMessage)) - 2056)
             + 2055)%nat
      with (List.length eventsLog + List.length m)%nat by lia.
    rewrite nth_error_app2 by lia.
    replace (List.length eventsLog + List.length m - List.length eventsLog)%nat
      with (List.length m) by lia.
    rewrite Hm, nth_error_app2 by lia. now rewrite Nat.sub_diag.
  - destruct Hlog as [-> | (l & Hl)];
      [cbn [app] in Hge; unfold length in *; lia |].
    assert (Hllen : List.length eventsLog = S (List.length l))
      by (rewrite Hl, length_app; cbn; lia).
    set (start := Z.to_nat (length (eventsLog ++ logMessage) - 2056)) in *.
    assert (Hstart : (start + (2055 - List.length logMessage)
                      = List.length l)%nat)
      by (unfold start, length in *; lia).
    assert (Hk' : (k <= 2055 - List.length logMessage)%nat).
    { destruct (Nat.le_gt_cases k (2055 - List.length logMessage))
        as [Hle | Hgt]; [exact Hle | exfalso].
      apply Hbefore.
      apply (in_firstn_of_nth_error _ (2055 - List.length logMessage) k);
        [| exact Hgt].
      rewrite nth_error_skipn, Hstart, Hl, <- app_assoc.
      rewrite nth_error_app2 by lia. now rewrite Nat.sub_diag. }
    exists (skipn (start + k) eventsLog).
    rewrite Hr, skipn_skipn, Nat.add_comm, skipn_app.
    replace (start + k - List.length eventsLog)%nat with 0%nat by lia.
    reflexivity.
Qed.

Section WithWindow.

Variable EventCursorMove : String.
Variable EventUpdated : String.

(** X27.  What a widget fires can be read at the end of the log: an event
    other than the two that drive the indicator lights, fired while an item
    is selected, with a name of fewer than 1990 characters, leaves the log
    ending with the complete message for it; the lights are untouched. The
    log before must be empty or end a line, as it does after. *)
Theorem fired_event_ends_up_complete_at_end_of_log
    (d_eventName : String) (args : EventArgsKind) (d : EventDisplay) :
  itemSelected d = true ->
  d_eventName <> EventCursorMove ->
  d_eventName <> EventUpdated ->
  length d_eventName < 1990 ->
  (eventsLogText d = [] \/ exists l, eventsLogText d = l ++ [newline]) ->
  length (eventsLogText d) < 2 ^ 30 ->
  exists before,
    handleEvent EventCursorMove EventUpdated d_eventName args d =
      Some (false,
            mkEventDisplay (before ++ logMessageOf d_eventName args)
                           (lightCursorMove d) (lightUpdated d) true).
Proof.
  intros Hsel Hmove Hupd Hname Hlog Hlen.
  destruct (length_logMessageOf d_eventName args) as (_ & Hmsg).
  destruct (appendToLog_keeps_message (eventsLogText d)
              (logMessageOf d_eventName args) Hlog)
    as (before & Hkept); [| lia | exact Hlen |].
  - unfold logMessageOf. eexists. rewrite !app_assoc. reflexivity.
  - exists before. unfold handleEvent, handleWidgetEventFired, logFiredEvent.
    rewrite (String_eqb_neq _ _ Hmove), (String_eqb_neq _ _ Hupd), Hsel.
    cbn [negb]. rewrite Hkept. reflexivity.
Qed.

(** The two events that drive the lights are never written to the log:
    they switch their light on and leave the text as it is, until
    [handleRenderingEnded] switches both lights off. *)
Lemma light_events_leave_the_log_alone
    (args : EventArgsKind) (d : EventDisplay) :
  EventCursorMove <> EventUpdated ->
  let moved := handleEvent EventCursorMove EventUpdated EventCursorMove args d in
  let updated := handleEvent EventCursorMove EventUpdated EventUpdated args d in
  moved = Some (false, mkEventDisplay (eventsLogText d) true (lightUpdated d)
                                      (itemSelected d)) /\
  updated = Some (false, mkEventDisplay (eventsLogText d) (lightCursorMove d)
                                        true (itemSelected d)) /\
  (forall d', snd (handleRenderingEnded d') =
     mkEventDisplay (eventsLogText d') false false (itemSelected d')).
Proof.
  intros Hne moved updated. subst moved updated.
  unfold handleEvent, handleWidgetEventFired.
  rewrite String_eqb_refl.
  rewrite (String_eqb_neq EventUpdated EventCursorMove) by congruence.
  rewrite String_eqb_refl. repeat split.
Qed.

End WithWindow.

Lemma find_from_found (c : ascii) (a b : String) :
  ~ In c a -> length (a ++ c :: b) < 2 ^ 31 ->
  find_first_of (a ++ c :: b) c = length a.
Proof.
  intros Hnot Hlen. unfold find_first_of.
  destruct (find_from_spec c (a ++ c :: b) 0 ltac:(lia)
              ltac:(unfold npos; lia))
    as [(_ & Hno) | (k & Hk & Hlt & Hnth & Hbefore)].
  - exfalso. apply Hno. apply in_or_app. right. left. reflexivity.
  - rewrite Hk. cbn [Z.add]. unfold length. f_equal.
    destruct (Nat.lt_trichotomy k (List.length a)) as [Hl | [He | Hg]].
    + exfalso. apply Hnot. apply nth_error_In with (n := k).
      now rewrite nth_error_app1 in Hnth.
    + exact He.
    + exfalso. apply Hbefore.
      apply (in_firstn_of_nth_error _ (List.length a) k); [| exact Hg].
      rewrite nth_error_app2 by lia. now rewrite Nat.sub_diag.
Qed.

Lemma find_from_absent (c : ascii) (s : String) :
  ~ In c s -> length s < 2 ^ 31 -> find_first_of s c = npos.
Proof.
  intros Hnot Hlen. unfold find_first_of.
  destruct (find_from_spec c s 0 ltac:(lia) ltac:(unfold npos; lia))
    as [(Hn & _) | (k & _ & _ & Hnth & _)]; [exact Hn |].
  exfalso. apply Hnot. apply nth_error_In with (n := k). exact Hnth.
Qed.

(** X28.  A mapped window type is taken apart at its first slash, and put
    together again by [getWidgetType]: for a group without a slash,
    [splitWindowType] gives back the group and the name of "group/name",
    [skinOfType] gives the group, and [getWidgetType] makes "group/name" of
    the two, whatever its reference parameters held, unless the group is the
    "No Skin" entry. The type must have fewer than 2^31 characters. *)
Theorem window_type_splits_and_recombines
    (group name widgetName widgetTypeString : String) :
  ~ In slash group ->
  length (group ++ lit "/" ++ name) < 2 ^ 31 ->
  splitWindowType (group ++ lit "/" ++ name) = Some (group, name) /\
  skinOfType (group ++ lit "/" ++ name) = Some group /\
  (group <> lit "No Skin" ->
   getWidgetType (Some group) (Some name) widgetName widgetTypeString
     = (true, name, group ++ lit "/" ++ name)).
Proof.
  intros Hnot Hlen. change (lit "/" ++ name) with (slash :: name) in *.
  pose proof (find_from_found slash group name Hnot Hlen) as Hfind.
  assert (Hg : 0 <= length group) by (unfold length; lia).
  assert (Htotal : length (group ++ slash :: name)
                   = length group + 1 + length name).
  { unfold length. rewrite length_app. cbn [List.length]. lia. }
  assert (Hn0 : 0 <= length name) by (unfold length; lia).
  split; [| split].
  - unfold splitWindowType. rewrite Hfind.
    rewrite int_of_small by lia.
    rewrite !size_type_of_small by lia.
    rewrite substr_prefix by lia.
    rewrite substr_from by lia.
    unfold length. rewrite Nat2Z.id, firstn_app, firstn_all, Nat.sub_diag.
    cbn [firstn]. rewrite app_nil_r.
    replace (Z.to_nat (Z.of_nat (List.length group) + 1))
      with (List.length group + 1)%nat by lia.
    rewrite skipn_app, skipn_all2 by lia.
    replace (List.length group + 1 - List.length group)%nat with 1%nat by lia.
    reflexivity.
  - unfold skinOfType. rewrite Hfind, substr_prefix by lia.
    unfold length. rewrite Nat2Z.id, firstn_app, firstn_all, Nat.sub_diag.
    cbn [firstn]. now rewrite app_nil_r.
  - intros Hskin. unfold getWidgetType.
    rewrite (String_eqb_neq _ _ Hskin). cbn [negb].
    now rewrite <- app_assoc.
Qed.

Lemma firstn_all_but_last (a : ascii) (rest : String) :
  firstn (List.length rest) (a :: rest) = removelast (a :: rest).
Proof.
  revert a. induction rest as [| b rest IH]; intros a; [reflexivity |].
  cbn [List.length firstn]. rewrite IH. reflexivity.
Qed.

(** X29.  A type without a slash is taken apart all the same: the missing
    position turns into -1, so the type is its own group, and the name is
    the type without its last character. The type must have fewer than 2^31
    characters. *)
Theorem splitWindowType_without_slash (type : String) :
  ~ In slash type -> length type < 2 ^ 31 ->
  splitWindowType type = Some (type, removelast type).
Proof.
  intros Hnot Hlen. unfold splitWindowType.
  rewrite (find_from_absent slash type Hnot Hlen).
  assert (Hm1 : int_of npos = -1) by reflexivity.
  rewrite Hm1. change (-1 + 1) with 0.
  assert (Hnp : size_type_of (-1) = npos) by reflexivity.
  rewrite Hnp. change (size_type_of 0) with 0.
  assert (H0 : 0 <= length type) by (unfold length; lia).
  rewrite substr_from by (unfold npos; lia).
  change (skipn (Z.to_nat 0) type) with type.
  destruct type as [| a rest]; [reflexivity |].
  assert (Hl : length (a :: rest) = Z.of_nat (List.length rest) + 1)
    by (unfold length; cbn [List.length]; lia).
  rewrite size_type_of_small by lia.
  rewrite substr_prefix by lia. rewrite Hl.
  replace (Z.to_nat (Z.of_nat (List.length rest) + 1 - 1))
    with (List.length rest) by lia.
  now rewrite firstn_all_but_last.
Qed.

Section WithWindowManager.

Variable Window : Type.
Variable Rest : Type.
Variable createWidget : String -> String -> Rest -> Window * Rest.

(** X30.  A widget is created once for its type: right after
    [retrieveOrCreateWidgetWindow] a second request for the same type, under
    whatever name, returns the same window and creates nothing; the entries
    of other types are not disturbed, and a type that already has a window
    is answered from the map. *)
Theorem widget_window_is_created_once
    (widgetTypeString widgetName otherName : String)
    (m : WidgetsMap Window) (rest : Rest) :
  let first :=
    retrieveOrCreateWidgetWindow Window Rest createWidget
      widgetTypeString widgetName m rest in
  let w := fst (fst first) in
  let m' := snd (fst first) in
  retrieveOrCreateWidgetWindow Window Rest createWidget
    widgetTypeString otherName m' (snd first) = first /\
  findWidget m' widgetTypeString = Some w /\
  (forall other, other <> widgetTypeString -> findWidget m' other = findWidget m other) /\
  (forall known, findWidget m widgetTypeString = Some known ->
     first = (known, m, rest)).
Proof.
  cbv zeta. unfold retrieveOrCreateWidgetWindow.
  destruct (findWidget m widgetTypeString) as [known |] eqn:Hfind.
  - cbn [fst snd]. rewrite Hfind. repeat split.
    intros k Hk. now inversion Hk.
  - destruct (createWidget widgetTypeString widgetName rest) as [w rest'].
    cbn [fst snd findWidget]. rewrite String_eqb_refl. repeat split.
    + intros other Hne. rewrite String_eqb_neq by congruence. reflexivity.
    + intros known Hk. discriminate.
Qed.

End WithWindowManager.


(** The first event logged into the empty log. *)
Lemma fired_event_witness :
  exists before,
    handleEvent sampleCursorMove sampleUpdated (lit "Clicked")
                WindowEventArgs emptyDisplay =
      Some (false,
            mkEventDisplay
              (before ++ logMessageOf (lit "Clicked") WindowEventArgs)
              false false true).
Proof.
  apply (fired_event_ends_up_complete_at_end_of_log sampleCursorMove
           sampleUpdated (lit "Clicked") WindowEventArgs emptyDisplay).
  - reflexivity.
  - discriminate.
  - discriminate.
  - vm_compute. reflexivity.
  - left. reflexivity.
  - vm_compute. reflexivity.
Defined.

(** The type of a button of the TaharezLook skin. *)
Lemma window_type_witness :
  splitWindowType (lit "TaharezLook/Button")
    = Some (lit "TaharezLook", lit "Button") /\
  getWidgetType (Some (lit "TaharezLook")) (Some (lit "Button")) [] []
    = (true, lit "Button", lit "TaharezLook/Button").
Proof.
  destruct (window_type_splits_and_recombines (lit "TaharezLook")
              (lit "Button") [] []) as (H1 & _ & H3).
  - cbn. intuition discriminate.
  - vm_compute. reflexivity.
  - split; [exact H1 | apply H3; discriminate].
Defined.

(** A default widget type, which has no slash. *)
Lemma splitWindowType_without_slash_witness :
  splitWindowType (lit "DefaultWindow")
    = Some (lit "DefaultWindow", lit "DefaultWindo").
Proof.
  apply (splitWindowType_without_slash (lit "DefaultWindow")).
  - cbn. intuition discriminate.
  - vm_compute. reflexivity.
Defined.

End WidgetsSampleProperties.
